(** * TIMSS dashboard (streamlit_app.py): loader, merger and page routines

    A shallow embedding of [src/streamlit_app.py].  The script is a
    straight-line Streamlit program; what it computes itself is
    - [load_data], the loader with its [try]/[except],
    - the raw-data path: the inner merge of the achievement and the
      background table on the shared [ID]-prefixed columns, and the
      row-wise mean of the [BSMMAT] columns,
    - four page routines that test for columns, drop missing rows, group,
      and emit display elements.

    The pandas calls are modelled by what they do on the values the
    script passes them.  Cells are [float64]: IEEE 754 binary64 with
    round to nearest even, taken from the standard library's [SpecFloat],
    with NaN as the missing value.  What matplotlib and seaborn do with
    the data of a plot is fixed where the script's behaviour depends on a
    known rule, and is otherwise an input of the model ([Plots]). *)

From Stdlib Require Import String Ascii List QArith ZArith Lia Bool Permutation.
From Stdlib Require Import SpecFloat.
From Stdlib Require DecimalString.
From stdpp Require Import base list.
Import ListNotations.
Local Open Scope string_scope.
Local Open Scope list_scope.

(** ** Python strings and exceptions *)

Module Py.

(** [s.startswith(p)] *)
Definition startswith (s p : string) : bool := String.prefix p s.

(** [s.endswith(p)] *)
Definition endswith (s p : string) : bool :=
  let n := String.length s in
  let m := String.length p in
  (m <=? n)%nat && String.eqb (String.substring (n - m) m s) p.

(** [s.replace(old, new)] for a non-empty [old]: occurrences are replaced
    from the left and do not overlap.  [skip] counts the characters of a
    match already replaced. *)
Fixpoint replace_from (skip : nat) (old new s : string) : string :=
  match s with
  | EmptyString => EmptyString
  | String c s' =>
      match skip with
      | S k => replace_from k old new s'
      | O =>
          if String.prefix old s
          then new ++ replace_from (String.length old - 1) old new s'
          else String c (replace_from O old new s')
      end
  end.

Definition replace (s old new : string) : string := replace_from 0 old new s.

(** The exceptions the script can meet; all of them derive from
    [Exception]. *)
Inductive exn : Type :=
| KeyError (msg : string)
| ValueError (msg : string)
| IndexError (msg : string)
| TypeError (msg : string)
| AttributeError (msg : string)
| FileNotFoundError (msg : string)
| ImportError (msg : string)
| ParserError (msg : string)
| MergeError (msg : string).

Definition str_of_exn (e : exn) : string :=
  match e with
  | KeyError m | ValueError m | IndexError m | TypeError m
  | AttributeError m | FileNotFoundError m | ImportError m
  | ParserError m | MergeError m => m
  end.

Inductive result (A : Type) : Type :=
| Ok (a : A)
| Raise (e : exn).
Arguments Ok {A} a.
Arguments Raise {A} e.

Definition bind {A B} (r : result A) (k : A -> result B) : result B :=
  match r with
  | Ok a => k a
  | Raise e => Raise e
  end.

(** [x in l] for a list of strings *)
Definition mem (x : string) (l : list string) : bool :=
  existsb (String.eqb x) l.

(** [list(set(l))] keeps one copy of every element. *)
Fixpoint dedup (l : list string) : list string :=
  match l with
  | [] => []
  | x :: l' => if mem x l' then dedup l' else x :: dedup l'
  end.

End Py.

Import Py.

#[global] Instance result_ret : MRet result := @Ok.
#[global] Instance result_bind : MBind result := fun A B k r => Py.bind r k.
#[global] Instance result_fmap : FMap result := fun A B f r => Py.bind r (fun a => Ok (f a)).


(** ** IEEE 754 binary64, the [float64] of numpy *)

Module Float64.

Definition prec : Z := 53%Z.
Definition emax : Z := 1024%Z.

(** A double that is a number.  NaN is kept apart: it is the missing value
    of pandas, and the [None] of a [float64] here. *)
Inductive number : Type :=
| Fzero (neg : bool)
| Finf (neg : bool)
| Ffinite (neg : bool) (m : positive) (e : Z).

Definition float64 : Type := option number.

Definition spec_of_number (x : number) : spec_float :=
  match x with
  | Fzero s => S754_zero s
  | Finf s => S754_infinity s
  | Ffinite s m e => S754_finite s m e
  end.

Definition to_spec (x : float64) : spec_float :=
  match x with
  | None => S754_nan
  | Some n => spec_of_number n
  end.

Definition of_spec (f : spec_float) : float64 :=
  match f with
  | S754_nan => None
  | S754_zero s => Some (Fzero s)
  | S754_infinity s => Some (Finf s)
  | S754_finite s m e => Some (Ffinite s m e)
  end.

(** The arithmetic of the hardware, with round to nearest even. *)
Definition add (x y : float64) : float64 :=
  of_spec (SFadd prec emax (to_spec x) (to_spec y)).

Definition sub (x y : float64) : float64 :=
  of_spec (SFsub prec emax (to_spec x) (to_spec y)).

Definition mul (x y : float64) : float64 :=
  of_spec (SFmul prec emax (to_spec x) (to_spec y)).

Definition div (x y : float64) : float64 :=
  of_spec (SFdiv prec emax (to_spec x) (to_spec y)).

Definition sqrt (x : float64) : float64 :=
  of_spec (SFsqrt prec emax (to_spec x)).

(** The double nearest to an integer, as the conversion of an [int64]
    gives it. *)
Definition of_Z (z : Z) : float64 :=
  of_spec (binary_normalize prec emax z 0 false).

Definition of_nat (n : nat) : float64 := of_Z (Z.of_nat n).

Definition zero : float64 := Some (Fzero false).
Definition neg_zero : float64 := Some (Fzero true).

(** [x == y] and [x <= y] on numbers; the two zeros are equal. *)
Definition eqb (x y : number) : bool :=
  SFeqb (spec_of_number x) (spec_of_number y).

Definition leb (x y : number) : bool :=
  SFleb (spec_of_number x) (spec_of_number y).


(** The rational a finite number stands for. *)
Definition value (x : number) : option Q :=
  match x with
  | Fzero _ => Some 0%Q
  | Finf _ => None
  | Ffinite s m e =>
      Some ((if s then -1 else 1) * inject_Z (Zpos m) * Qpower 2 e)%Q
  end.

End Float64.

Import Float64.

(** ** The part of pandas the script uses *)

Module Pandas.

(** A [float64] cell; [None] is NaN. *)
Definition cell : Type := float64.

Definition Series : Type := list cell.

(** A table: the column labels and the rows, every row holding one cell
    per column. *)
Record DataFrame : Type := mkDataFrame {
  columns : list string;
  rows : list (list cell)
}.

Definition wf (df : DataFrame) : Prop :=
  Forall (fun r => length r = length (columns df)) (rows df).

(** [len(df)] *)
Definition len (df : DataFrame) : nat := length (rows df).

(** Position of a label among the columns. *)
Fixpoint index_of (c : string) (cols : list string) : option nat :=
  match cols with
  | [] => None
  | c' :: cols' =>
      if String.eqb c c' then Some O
      else option_map S (index_of c cols')
  end.

(** The cell of row [r] under label [c]. *)
Definition row_get (cols : list string) (r : list cell) (c : string) : cell :=
  match index_of c cols with
  | Some i => nth i r None
  | None => None
  end.

(** [df[c]]: a missing label raises [KeyError].  The script reads single
    columns of tables as the readers return them, where no label occurs
    twice, or of a merged table under a label that carries no suffix,
    which the merge does not repeat. *)
Definition getitem (df : DataFrame) (c : string) : result Series :=
  if mem c (columns df)
  then Ok (map (fun r => row_get (columns df) r c) (rows df))
  else Raise (KeyError c).

(** All positions of a label among the columns, counted from [i]: in a
    merged table a label can occur more than once. *)
Fixpoint positions (c : string) (cols : list string) (i : nat) : list nat :=
  match cols with
  | [] => []
  | c' :: cols' =>
      (if String.eqb c c' then [i] else []) ++ positions c cols' (S i)
  end.

(** The columns that a list of labels selects: for every label, in the
    order of the list, every column that carries it. *)
Definition selection (cols cs : list string) : list (string * nat) :=
  flat_map (fun c => map (pair c) (positions c cols 0)) cs.

(** [df[[c1, ..., cn]]]: every label must be present; the [KeyError]
    names the missing labels, of which the first is kept here. *)
Definition getitems (df : DataFrame) (cs : list string) : result DataFrame :=
  match List.filter (fun c => negb (mem c (columns df))) cs with
  | [] =>
      let sel := selection (columns df) cs in
      Ok {| columns := map fst sel;
            rows := map (fun r => map (fun p => nth (snd p) r None) sel) (rows df) |}
  | c :: _ => Raise (KeyError c)
  end.

(** The row [r] with [x] at position [i]. *)
Fixpoint set_nth (i : nat) (x : cell) (r : list cell) : list cell :=
  match i, r with
  | O, _ :: r' => x :: r'
  | S i', y :: r' => y :: set_nth i' x r'
  | _, [] => []
  end.

(** [df[c] = s]: replaces the column when the label exists, appends it
    otherwise.  The script assigns a series computed from [df] itself, so
    the lengths agree. *)
Definition setitem (df : DataFrame) (c : string) (s : Series) : DataFrame :=
  match index_of c (columns df) with
  | Some i =>
      {| columns := columns df;
         rows := map (fun rx => set_nth i (snd rx) (fst rx))
                     (combine (rows df) s) |}
  | None =>
      {| columns := columns df ++ [c];
         rows := map (fun rx => fst rx ++ [snd rx]) (combine (rows df) s) |}
  end.

(** Key comparison of the join: equal numbers match, and pandas matches a
    missing key with a missing key. *)
Definition cell_eqb (a b : cell) : bool :=
  match a, b with
  | Some x, Some y => Float64.eqb x y
  | None, None => true
  | _, _ => false
  end.

Definition keys_match (lcols rcols on : list string) (l r : list cell) : bool :=
  forallb (fun k => cell_eqb (row_get lcols l k) (row_get rcols r k)) on.

(** Labels of the merged table: a label that is in both tables and is not
    a key gets the side's suffix, any other label is kept as it is. *)
Definition suffixed (on other : list string) (suffix c : string) : string :=
  if negb (mem c on) && mem c other then c ++ suffix else c.

Definition merged_columns (l r : DataFrame) (on : list string)
    (suffixes : string * string) : list string :=
  map (suffixed on (columns r) (fst suffixes)) (columns l)
  ++ map (suffixed on (columns l) (snd suffixes))
       (List.filter (fun c => negb (mem c on)) (columns r)).

(** The cells a right row contributes: all but its key cells. *)
Definition non_key_cells (rcols on : list string) (r : list cell) : list cell :=
  map (row_get rcols r) (List.filter (fun c => negb (mem c on)) rcols).

(** The labels of one table that a suffix makes equal to an earlier label
    of that table; a label that was already repeated before the renaming
    does not count.  [seen] and [seen'] are the labels met so far, before
    and after the renaming. *)
Fixpoint suffix_dups (rename : string -> string) (seen seen' cols : list string)
    : list string :=
  match cols with
  | [] => []
  | c :: cols' =>
      (if mem (rename c) seen' && negb (mem c seen) then [rename c] else [])
      ++ suffix_dups rename (c :: seen) (rename c :: seen') cols'
  end.

(** pandas looks for such labels in the left and in the right table, each
    on its own: a suffixed label that equals a label of the other table is
    let through, and the merged table then carries that label twice. *)
Definition clashes (l r : DataFrame) (on : list string)
    (suffixes : string * string) : list string :=
  suffix_dups (suffixed on (columns r) (fst suffixes)) [] [] (columns l)
  ++ suffix_dups (suffixed on (columns l) (snd suffixes)) [] [] (columns r).

(** [pd.merge(l, r, on=on, how="inner", suffixes=suffixes)].
    - a key that is not a column of both tables raises [KeyError].
    - [on] is a list, so it is never [None]: the default of joining on
      all common columns is not taken, and with no key at all the join
      indexer fails on its first key ([left_keys[0]]).
    - suffixes that make two labels of a table equal raise [MergeError].
    - the result has one row per pair of a left and a right row with
      equal keys, in the order of the left rows. *)
Definition merge (l r : DataFrame) (on : list string)
    (suffixes : string * string) : result DataFrame :=
  match on with
  | [] => Raise (IndexError "list index out of range")
  | _ :: _ =>
      match List.filter (fun k => negb (mem k (columns l) && mem k (columns r))) on with
      | k :: _ => Raise (KeyError k)
      | [] =>
          match clashes l r on suffixes with
          | _ :: _ =>
              Raise (MergeError "Passing 'suffixes' which cause duplicate columns is not allowed.")
          | [] =>
              Ok {| columns := merged_columns l r on suffixes;
                    rows :=
                      flat_map
                        (fun lr =>
                           map (fun rr => lr ++ non_key_cells (columns r) on rr)
                               (List.filter (keys_match (columns l) (columns r) on lr)
                                       (rows r)))
                        (rows l) |}
          end
      end
  end.

(** The present (non-NaN) values of a list of cells. *)
Fixpoint present (xs : list cell) : list number :=
  match xs with
  | [] => []
  | Some x :: xs' => x :: present xs'
  | None :: xs' => present xs'
  end.

(** A sum over an axis that is not contiguous in memory, as the sum over
    the columns of a row is: the values are added one after the other.
    The sum starts at [-0.0], which added to a double leaves it as it
    is. *)
Definition reduce_add (xs : list cell) : cell := fold_left add xs neg_zero.

(** The sum of a contiguous array, numpy's pairwise summation.  Fewer
    than eight values are added one after the other.  Up to 128 values are
    added into eight running sums, block of eight after block of eight;
    the eight sums are added in pairs, and the values after the last full
    block are added to the result.  A longer array is cut in two at a
    multiple of eight near its middle. *)
Fixpoint add_blocks (k : nat) (r a : list cell) : list cell * list cell :=
  match k with
  | O => (r, a)
  | S k' =>
      add_blocks k'
        (map (fun p => add (fst p) (snd p)) (combine r (firstn 8 a)))
        (skipn 8 a)
  end.

Definition unrolled_sum (a : list cell) : cell :=
  let '(r, rest) := add_blocks (Nat.div (length a) 8 - 1) (firstn 8 a) (skipn 8 a) in
  fold_left add rest
    (add (add (add (nth 0 r None) (nth 1 r None)) (add (nth 2 r None) (nth 3 r None)))
         (add (add (nth 4 r None) (nth 5 r None)) (add (nth 6 r None) (nth 7 r None)))).

Fixpoint pairwise_sum (fuel : nat) (a : list cell) : cell :=
  let n := length a in
  if (n <? 8)%nat then reduce_add a
  else if (n <=? 128)%nat then unrolled_sum a
  else
    match fuel with
    | O => unrolled_sum a
    | S fuel' =>
        let n2 := (Nat.div n 2 - Nat.modulo (Nat.div n 2) 8)%nat in
        add (pairwise_sum fuel' (firstn n2 a)) (pairwise_sum fuel' (skipn n2 a))
    end.

Definition contiguous_sum (a : list cell) : cell := pairwise_sum (length a) a.

Definition fillna0 (c : cell) : cell :=
  match c with
  | None => zero
  | Some _ => c
  end.

(** [nanmean], the mean with [skipna=True]: NaN counts as [0.0] in the sum
    and does not count in the divisor; without any value the result is
    NaN. *)
Definition nanmean (sum : list cell -> cell) (xs : list cell) : cell :=
  match length (present xs) with
  | O => None
  | S _ as count => div (sum (map fillna0 xs)) (of_nat count)
  end.

(** [s.mean()] of a series *)
Definition mean (xs : list cell) : cell := nanmean contiguous_sum xs.

(** The mean of the cells of one row *)
Definition row_mean (xs : list cell) : cell := nanmean reduce_add xs.

(** [df.mean(axis=1)]: one mean per row, over the row's cells. *)
Definition mean_axis1 (df : DataFrame) : Series := map row_mean (rows df).

(** Ascending order on the present values, by insertion. *)
Fixpoint insert_sorted (x : number) (l : list number) : list number :=
  match l with
  | [] => [x]
  | y :: l' => if Float64.leb x y then x :: l else y :: insert_sorted x l'
  end.

Definition sort_values (l : list number) : list number := fold_right insert_sorted [] l.

(** [median] with [skipna=True]: the middle present value, or the sum of
    the two middle ones divided by two; NaN when there is none. *)
Definition median (xs : list cell) : cell :=
  let ys := sort_values (present xs) in
  let n := length ys in
  match n with
  | O => None
  | _ =>
      if Nat.even n
      then div (add (nth_error ys (Nat.div n 2 - 1)) (nth_error ys (Nat.div n 2))) (of_Z 2)
      else nth_error ys (Nat.div n 2)
  end.

(** The mean of a group, as the grouped reduction computes it: a Kahan
    summation of the present values, whose compensation is reset when it
    is NaN, divided by their number. *)
Definition kahan_step (st : cell * cell) (val : number) : cell * cell :=
  let '(sumx, compensation) := st in
  let y := sub (Some val) compensation in
  let t := add sumx y in
  let c := sub (sub t sumx) y in
  (t, match c with None => zero | Some _ => c end).

Definition group_mean (xs : list cell) : cell :=
  let ys := present xs in
  match length ys with
  | O => None
  | S _ as nobs => div (fst (fold_left kahan_step ys (zero, zero))) (of_nat nobs)
  end.

(** The standard deviation of a group ([ddof=1]): the running mean and sum
    of squares of Welford's method over the present values, then the
    square root of the sum of squares over the count less one; NaN below
    two values. *)
Definition welford_step (st : nat * cell * cell) (val : number) : nat * cell * cell :=
  let '(nobs, mean, out) := st in
  let mean' := add mean (div (sub (Some val) mean) (of_nat (S nobs))) in
  (S nobs, mean', add out (mul (sub (Some val) mean') (sub (Some val) mean))).

Definition group_std (xs : list cell) : cell :=
  let '(ct, _, out) := fold_left welford_step (present xs) (O, zero, zero) in
  match ct with
  | O | S O => None
  | _ => sqrt (div out (of_nat (ct - 1)))
  end.

(** [count]: the number of present values. *)
Definition count (xs : list cell) : cell := of_nat (length (present xs)).

(** [df.dropna(subset=[c])]: a new table with the rows whose cell under
    [c] is present. *)
Definition dropna (df : DataFrame) (c : string) : result DataFrame :=
  if mem c (columns df)
  then Ok {| columns := columns df;
             rows := List.filter
                       (fun r => match row_get (columns df) r c with
                                 | Some _ => true
                                 | None => false
                                 end)
                       (rows df) |}
  else Raise (KeyError c).

Definition number_mem (x : number) (l : list number) : bool :=
  existsb (Float64.eqb x) l.

(** The distinct values of a list, in the order of their first
    occurrence. *)
Fixpoint distinct_from (seen l : list number) : list number :=
  match l with
  | [] => []
  | x :: l' =>
      if number_mem x seen then distinct_from seen l'
      else x :: distinct_from (x :: seen) l'
  end.

Definition distinct (l : list number) : list number := distinct_from [] l.

Definition occurrences (x : number) (l : list number) : nat :=
  length (List.filter (Float64.eqb x) l).

(** [p] goes before the first entry that is not more frequent, so that
    equally frequent values stay in the order in which they are put in
    last to first. *)
Fixpoint insert_by_count (p : number * nat) (l : list (number * nat))
    : list (number * nat) :=
  match l with
  | [] => [p]
  | q :: l' =>
      if (snd q <=? snd p)%nat then p :: l else q :: insert_by_count p l'
  end.

(** [s.value_counts()]: every distinct present value with its number of
    occurrences, the most frequent first, equally frequent values in the
    order of their first occurrence. *)
Definition value_counts (s : Series) : list (number * nat) :=
  let ys := present s in
  fold_right insert_by_count []
    (map (fun x => (x, occurrences x ys)) (distinct ys)).

(** [counts.reset_index()] for the counts of the series named [name]: a
    table of the values and their counts.  The two labels are the ones
    pandas gives before the script renames them. *)
Definition reset_index (name : string) (counts : list (number * nat)) : DataFrame :=
  {| columns := [name; "count"];
     rows := map (fun p => [Some (fst p); of_nat (snd p)]) counts |}.

(** The cells of column [v] in the rows whose key under [c] equals [k]. *)
Definition group_cells (df : DataFrame) (c v : string) (k : number) : list cell :=
  map (fun r => row_get (columns df) r v)
      (List.filter (fun r => cell_eqb (row_get (columns df) r c) (Some k)) (rows df)).

(** The group keys of [df.groupby(c)]: the distinct present keys in
    ascending order. *)
Definition group_keys (df : DataFrame) (c : string) : list number :=
  sort_values (distinct (present (map (fun r => row_get (columns df) r c) (rows df)))).

(** [df.groupby(c)[v].agg(fs).reset_index()] for a list [fs] of named
    aggregates: the key column, then one column per aggregate.  A missing
    [c] or [v] raises [KeyError]. *)
Definition groupby_agg (df : DataFrame) (c v : string)
    (fs : list (string * (list cell -> cell))) : result DataFrame :=
  if negb (mem c (columns df)) then Raise (KeyError c)
  else if negb (mem v (columns df)) then Raise (KeyError ("Column not found: " ++ v))
  else
    Ok {| columns := c :: map fst fs;
          rows := map (fun k => Some k ::
                                map (fun f => snd f (group_cells df c v k)) fs)
                      (group_keys df c) |}.

(** [df.columns = labels]: the number of labels must be the number of
    columns. *)
Definition set_columns (df : DataFrame) (labels : list string) : result DataFrame :=
  if (length labels =? length (columns df))%nat
  then Ok {| columns := labels; rows := rows df |}
  else Raise (ValueError "Length mismatch").

End Pandas.

Import Pandas.

(** ** The script *)

Module App.

(** *** What a render shows *)

(** The formatted value of a metric: [f"{n:,}"] of a length, or
    [f"{x:.1f}"] of a float, which prints [nan] for NaN. *)
Inductive metric_value : Type :=
| FmtThousands (n : nat)
| FmtFixed1 (x : cell).

(** What is drawn on the axes of a figure. *)
Inductive plot : Type :=
| Histplot (data : Series) (bins : nat) (kde : bool) (vlines : list Q)
| Pie (wedges : list (number * nat))
| Boxplot (x y : string) (points : list (cell * cell))
| Barplot (x y : string) (points : list (cell * cell)).

Record figure : Type := mkFigure {
  fig_title : string;
  fig_plot : plot
}.

Inductive element : Type :=
| st_header (s : string)
| st_write (s : string)
| st_title (s : string)
| st_subheader (s : string)
| st_metric (label : string) (value : metric_value)
| st_pyplot (fig : figure)
| st_markdown (s : string)
| st_dataframe (df : DataFrame)
| st_warning (s : string)
| st_error (s : string)
| sidebar_title (s : string)
| sidebar_warning (s : string)
| sidebar_markdown (s : string)
| sidebar_info (s : string).

(** *** Objects, references and the render monad *)

(** The tables live in a store; a variable of the script holds [None] or
    a reference to a table. *)
Definition addr : Type := nat.

Inductive pyval : Type :=
| PNone
| PFrame (a : addr).

Record state : Type := mkState {
  heap : list DataFrame;
  out : list element
}.

(** A step of the script: it may change the store, show elements, and
    ends with a value or an exception. *)
Definition M (A : Type) : Type := state -> state * result A.

#[global] Instance M_ret : MRet M := fun A a s => (s, Ok a).

#[global] Instance M_bind : MBind M := fun A B k m s =>
  match m s with
  | (s', Ok a) => k a s'
  | (s', Raise e) => (s', Raise e)
  end.

Definition emit (e : element) : M unit := fun s =>
  ({| heap := heap s; out := out s ++ [e] |}, Ok tt).

Definition raise {A} (e : exn) : M A := fun s => (s, Raise e).

Definition lift {A} (r : result A) : M A := fun s => (s, r).

(** A new object, as every pandas call of the script returns one. *)
Definition alloc (df : DataFrame) : M pyval := fun s =>
  ({| heap := heap s ++ [df]; out := out s |}, Ok (PFrame (length (heap s)))).

(** The table behind a value; [e] is what the access raises on [None]. *)
Definition read (v : pyval) (e : exn) : M DataFrame := fun s =>
  match v with
  | PNone => (s, Raise e)
  | PFrame a =>
      match heap s !! a with
      | Some df => (s, Ok df)
      | None => (s, Raise e)
      end
  end.

(** In-place update of the object at [a]. *)
Definition write (a : addr) (df : DataFrame) : M unit := fun s =>
  ({| heap := <[a := df]> (heap s); out := out s |}, Ok tt).

(** [try: m except Exception as e: h e] *)
Definition try_except {A} (m : M A) (h : exn -> M A) : M A := fun s =>
  match m s with
  | (s', Raise e) => h e s'
  | r => r
  end.

Definition no_attribute (a : string) : exn :=
  AttributeError ("'NoneType' object has no attribute '" ++ a ++ "'").

(** [len(v)] *)
Definition py_len (v : pyval) : M nat :=
  df ← read v (TypeError "object of type 'NoneType' has no len()");
  mret (len df).

(** [v.columns] *)
Definition py_columns (v : pyval) : M (list string) :=
  df ← read v (no_attribute "columns");
  mret (columns df).

(** [v[c]] *)
Definition py_getitem (v : pyval) (c : string) : M Series :=
  df ← read v (TypeError "'NoneType' object is not subscriptable");
  lift (getitem df c).

(** [v.dropna(subset=[c])]: the result is a new object. *)
Definition py_dropna (v : pyval) (c : string) : M pyval :=
  df ← read v (no_attribute "dropna");
  df' ← lift (dropna df c);
  alloc df'.

(** [v.groupby(c)[y].agg(fs).reset_index()]: a new object. *)
Definition py_groupby_agg (v : pyval) (c y : string)
    (fs : list (string * (list cell -> cell))) : M pyval :=
  df ← read v (no_attribute "groupby");
  df' ← lift (groupby_agg df c y fs);
  alloc df'.

(** [v.columns = labels]: changes the object [v] refers to. *)
Definition py_set_columns (v : pyval) (labels : list string) : M unit :=
  df ← read v (no_attribute "columns");
  df' ← lift (set_columns df labels);
  match v with
  | PFrame a => write a df'
  | PNone => mret tt
  end.

(** The points seaborn reads from [data] for [x=] and [y=]. *)
Definition points (df : DataFrame) (x y : string) : list (cell * cell) :=
  map (fun r => (row_get (columns df) r x, row_get (columns df) r y)) (rows df).

(** *** The plotting libraries *)

(** What the script sees of matplotlib and seaborn beyond the rules
    below: the text of their messages, and, for a plot whose data these
    rules do not decide, the exception with which the call ends, if it
    ends with one (numpy cannot always cut the range of the scores into
    thirty bins, for one). *)
Record Plots : Type := mkPlots {
  not_in_data : string -> string -> string;
  no_wedges : string;
  no_boxes : string;
  refuses : plot -> option exn
}.

(** A point with both coordinates. *)
Definition complete (pt : cell * cell) : bool :=
  match pt with
  | (Some _, Some _) => true
  | _ => false
  end.

(** How a plotting call on given data ends: [None] when it draws.
    - matplotlib refuses a pie whose wedge sizes add up to zero, as those
      of no wedge at all do.
    - seaborn's histogram of a series without rows is the empty axes.
    - seaborn draws a bar plot of points that all have both coordinates,
      and of no point.
    - seaborn leaves out the points with a missing coordinate, and its
      box plot fails when there were points and none is left. *)
Definition plot_outcome (lib : Plots) (p : plot) : option exn :=
  match p with
  | Pie wedges =>
      if (list_sum (map snd wedges) =? 0)%nat
      then Some (ValueError (no_wedges lib))
      else None
  | Histplot [] _ _ _ => None
  | Barplot _ _ pts =>
      if forallb complete pts then None else refuses lib p
  | Boxplot _ _ (pt :: pts) =>
      if existsb complete (pt :: pts) then refuses lib p
      else Some (ValueError (no_boxes lib))
  | _ => refuses lib p
  end.

(** The figure is drawn and handed to [st.pyplot], unless the plotting
    call raises. *)
Definition show_plot (lib : Plots) (title : string) (p : plot) : M unit :=
  match plot_outcome lib p with
  | Some e => raise e
  | None => emit (st_pyplot {| fig_title := title; fig_plot := p |})
  end.

Definition uninterpretable (lib : Plots) (param name : string) : exn :=
  ValueError (not_in_data lib param name).

(** A seaborn plot of [y] against [x] over the table [v], shown with
    [st.pyplot].  seaborn first looks up the two names, and refuses a
    name that is not a column of the table. *)
Definition py_xyplot (lib : Plots)
    (kind : string -> string -> list (cell * cell) -> plot)
    (x y : string) (v : pyval) (title : string) : M unit :=
  df ← read v (uninterpretable lib "x" x);
  if negb (mem x (columns df)) then raise (uninterpretable lib "x" x)
  else if negb (mem y (columns df)) then raise (uninterpretable lib "y" y)
  else show_plot lib title (kind x y (points df x y)).

(** *** The files *)

(** What the script sees of the file system and of the two readers. *)
Record FS : Type := mkFS {
  path_exists : string -> bool;
  read_csv : string -> result DataFrame;
  import_pyreadstat : result unit;
  read_sav : string -> result DataFrame
}.

(** [load_data(file_path)] *)
Definition load_data (fs : FS) (file_path : string) : M pyval :=
  try_except
    (if endswith file_path ".csv" then
       df ← lift (read_csv fs file_path);
       alloc df
     else if path_exists fs (replace file_path ".csv" ".sav") then
       lift (import_pyreadstat fs);;
       df ← lift (read_sav fs (replace file_path ".csv" ".sav"));
       alloc df
     else
       emit (st_error ("File not found: " ++ file_path));;
       mret PNone)
    (fun e =>
       emit (st_error ("Error loading data: " ++ str_of_exn e));;
       mret PNone).

(** *** The raw-data path (lines 42 to 61) *)

(** [list(set(ach.columns).intersection(set(bg.columns)))].  A Python set
    has no fixed order; the labels are listed here in the order of the
    achievement table. *)
Definition common_ids (ach bg : DataFrame) : list string :=
  dedup (List.filter (fun c => mem c (columns bg)) (columns ach)).

Definition id_cols (ach bg : DataFrame) : list string :=
  List.filter (fun col => startswith col "ID") (common_ids ach bg).

Definition math_vars (ach : DataFrame) : list string :=
  List.filter (fun col => startswith col "BSMMAT") (columns ach).

Definition math_vars_merged (ach : DataFrame) : list string :=
  map (fun var => (var ++ "_ach")%string) (math_vars ach).

(** [student_data[vars].mean(axis=1)], the series assigned to
    [math_score]. *)
Definition math_score (student_data : DataFrame) (vars : list string) : result Series :=
  items ← getitems student_data vars;
  mret (mean_axis1 items).

(** The merge, then the composite score as a new column. *)
Definition raw_student_data (df_ach df_bg : DataFrame) : result DataFrame :=
  student_data ← merge df_ach df_bg (id_cols df_ach df_bg) ("_ach", "_bg");
  scores ← math_score student_data (math_vars_merged df_ach);
  mret (setitem student_data "math_score" scores).

(** *** The page routines (lines 75 to 318) *)

Inductive page : Type :=
| Overview
| StudentFactors
| TeacherFactors
| SchoolContext.

Definition benchmarks : list Q := [400; 475; 550; 625]%Q.

Definition benchmark_text : string :=
  "TIMSS Benchmarks: Advanced (625+), High (550-624), Intermediate (475-549), Low (400-474)".

(** Lines 76 to 113. *)
Definition overview (lib : Plots) (student_data : pyval) : M unit :=
  emit (st_title "Mathematics Performance Overview");;
  n ← py_len student_data;
  emit (st_metric "Number of Students" (FmtThousands n));;
  s ← py_getitem student_data "math_score";
  emit (st_metric "Average Math Score" (FmtFixed1 (mean s)));;
  s ← py_getitem student_data "math_score";
  emit (st_metric "Median Math Score" (FmtFixed1 (median s)));;
  emit (st_subheader "Distribution of Math Scores");;
  s ← py_getitem student_data "math_score";
  show_plot lib "Distribution of Mathematics Scores with TIMSS Benchmarks"
    (Histplot s 30 true benchmarks);;
  emit (st_markdown benchmark_text).

Definition gender_warning : string := "Gender variable not found in the dataset".
Definition books_warning : string := "Books at home variable not found in the dataset".

(** Lines 120 to 153. *)
Definition gender_section (lib : Plots) (student_data : pyval) : M unit :=
  emit (st_subheader "Gender and Mathematics Performance");;
  cols ← py_columns student_data;
  let gender_var := if mem "BSBG01" cols then "BSBG01" else "ITSEX" in
  cols ← py_columns student_data;
  if mem gender_var cols then
    gender_data ← py_dropna student_data gender_var;
    s ← py_getitem gender_data gender_var;
    show_plot lib "Gender Distribution" (Pie (value_counts s));;
    py_xyplot lib Boxplot gender_var "math_score" gender_data
      "Mathematics Performance by Gender";;
    gender_stats ← py_groupby_agg gender_data gender_var "math_score"
                     [("mean", group_mean); ("median", median); ("std", group_std);
                      ("count", count)];
    py_set_columns gender_stats
      ["Gender"; "Mean Score"; "Median Score"; "Std Deviation"; "Count"];;
    df ← read gender_stats (no_attribute "columns");
    emit (st_dataframe df)
  else
    emit (st_warning gender_warning).

(** Lines 156 to 184. *)
Definition books_section (lib : Plots) (student_data : pyval) : M unit :=
  emit (st_subheader "Home Educational Resources");;
  cols ← py_columns student_data;
  let books_var := if mem "BSBG04" cols then Some "BSBG04" else None in
  match books_var with
  | None => emit (st_warning books_warning)
  | Some books_var =>
      cols ← py_columns student_data;
      if negb (books_var =? "") && mem books_var cols then
        books_data ← py_dropna student_data books_var;
        py_xyplot lib Boxplot books_var "math_score" books_data
          "Mathematics Performance by Books at Home";;
        books_avg ← py_groupby_agg books_data books_var "math_score"
                      [("math_score", group_mean)];
        py_set_columns books_avg ["Books at Home"; "Average Score"];;
        py_xyplot lib Barplot "Books at Home" "Average Score" books_avg
          "Average Mathematics Score by Books at Home"
      else
        emit (st_warning books_warning)
  end.

Definition attitude_vars : list (string * string) :=
  [("BSBGSLM", "Student Likes Mathematics");
   ("BSBGSCM", "Student Confident in Mathematics")].

Definition attitude_warning (label : string) : string :=
  label ++ " variable not found in the dataset".

(** The body of the loop of lines 195 to 207. *)
Definition attitude_step (lib : Plots) (student_data : pyval)
    (item : string * string) : M unit :=
  let '(var, label) := item in
  cols ← py_columns student_data;
  if mem var cols then
    attitude_data ← py_dropna student_data var;
    py_xyplot lib Barplot var "math_score" attitude_data
      ("Mathematics Performance by " ++ label)
  else
    emit (st_warning (attitude_warning label)).

(** [for x in l: body x] *)
Fixpoint for_each {A} (l : list A) (body : A -> M unit) : M unit :=
  match l with
  | [] => mret tt
  | x :: l' => body x;; for_each l' body
  end.

Definition attitude_section (lib : Plots) (student_data : pyval) : M unit :=
  emit (st_subheader "Student Attitudes Toward Mathematics");;
  for_each attitude_vars (attitude_step lib student_data).

(** Lines 117 to 207. *)
Definition student_factors (lib : Plots) (student_data : pyval) : M unit :=
  emit (st_title "Student Background and Attitudes");;
  gender_section lib student_data;;
  books_section lib student_data;;
  attitude_section lib student_data.

(** The five bar charts of counts on the teacher and the school page are
    the same code up to their strings: the variable, the label its
    counts are renamed to, the title of the figure and the warning. *)
Record counts_spec : Type := mkCounts {
  cs_var : string;
  cs_label : string;
  cs_title : string;
  cs_warning : string
}.

Definition counts_chart (lib : Plots) (table : pyval) (c : counts_spec) : M unit :=
  cols ← py_columns table;
  let var := if mem (cs_var c) cols then Some (cs_var c) else None in
  match var with
  | None => emit (st_warning (cs_warning c))
  | Some var =>
      cols ← py_columns table;
      if negb (var =? "") && mem var cols then
        s ← py_getitem table var;
        counts ← alloc (reset_index var (value_counts s));
        py_set_columns counts [cs_label c; "Count"];;
        py_xyplot lib Barplot (cs_label c) "Count" counts (cs_title c)
      else
        emit (st_warning (cs_warning c))
  end.

Definition teacher_exp : counts_spec :=
  {| cs_var := "BTBG01"; cs_label := "Years of Experience";
     cs_title := "Distribution of Teaching Experience";
     cs_warning := "Teacher experience variable not found in the dataset" |}.

Definition teacher_edu : counts_spec :=
  {| cs_var := "BTBG04"; cs_label := "Education Level";
     cs_title := "Teacher Education Levels";
     cs_warning := "Teacher education variable not found in the dataset" |}.

Definition school_loc : counts_spec :=
  {| cs_var := "BCBG05A"; cs_label := "Location";
     cs_title := "Distribution of Schools by Location";
     cs_warning := "School location variable not found in the dataset" |}.

Definition school_econ : counts_spec :=
  {| cs_var := "BCBG03A"; cs_label := "Economic Disadvantage";
     cs_title := "Schools by Percentage of Economically Disadvantaged Students";
     cs_warning := "Economic disadvantage variable not found in the dataset" |}.

Definition school_emphasis : counts_spec :=
  {| cs_var := "BCBGEAS"; cs_label := "Emphasis on Academic Success";
     cs_title := "School Emphasis on Academic Success";
     cs_warning := "School emphasis variable not found in the dataset" |}.

(** [str(n)] *)
Definition str_of_nat (n : nat) : string :=
  DecimalString.NilZero.string_of_uint (Nat.to_uint n).

(** Lines 211 to 253. *)
Definition teacher_factors (lib : Plots) (teacher_data : pyval) : M unit :=
  emit (st_title "Teacher and Instruction Factors");;
  emit (st_subheader "Teacher Demographics");;
  n ← py_len teacher_data;
  emit (st_write ("Number of teachers: " ++ str_of_nat n));;
  counts_chart lib teacher_data teacher_exp;;
  emit (st_subheader "Teacher Preparation and Professional Development");;
  counts_chart lib teacher_data teacher_edu.

(** Lines 257 to 318. *)
Definition school_context (lib : Plots) (school_data : pyval) : M unit :=
  emit (st_title "School Context Factors");;
  emit (st_subheader "School Demographics");;
  n ← py_len school_data;
  emit (st_write ("Number of schools: " ++ str_of_nat n));;
  counts_chart lib school_data school_loc;;
  emit (st_subheader "School Composition and Climate");;
  counts_chart lib school_data school_econ;;
  counts_chart lib school_data school_emphasis.

(** The three variables the pages read. *)
Record tables : Type := mkTables {
  student_data : pyval;
  teacher_data : pyval;
  school_data : pyval
}.

(** The dispatch of lines 75, 116, 210 and 256. *)
Definition render (lib : Plots) (p : page) (t : tables) : M unit :=
  match p with
  | Overview => overview lib (student_data t)
  | StudentFactors => student_factors lib (student_data t)
  | TeacherFactors => teacher_factors lib (teacher_data t)
  | SchoolContext => school_context lib (school_data t)
  end.

(** *** Loading (lines 36 to 72) *)

Definition student_csv : string := "../data/processed_student_data.csv".
Definition ach_sav : string := "../orig/SPSS/bsairlm8.sav".
Definition bg_sav : string := "../orig/SPSS/bsgirlm8.sav".
Definition teacher_csv : string := "../data/teacher_data.csv".
Definition teacher_sav : string := "../orig/SPSS/btmirlm8.sav".
Definition school_csv : string := "../data/school_data.csv".
Definition school_sav : string := "../orig/SPSS/bcgirlm8.sav".

(** Lines 37 to 61. *)
Definition load_student (fs : FS) : M pyval :=
  if path_exists fs student_csv then
    load_data fs student_csv
  else
    emit (sidebar_warning "Processed data not found, loading raw data...");;
    df_ach ← load_data fs ach_sav;
    df_bg ← load_data fs bg_sav;
    ach ← read df_ach (no_attribute "columns");
    bg ← read df_bg (no_attribute "columns");
    merged ← lift (raw_student_data ach bg);
    alloc merged.

(** Lines 64 to 67 and 69 to 72. *)
Definition load_table (fs : FS) (csv sav : string) : M pyval :=
  if path_exists fs csv then load_data fs csv else load_data fs sav.

Definition load_tables (fs : FS) : M tables :=
  s ← load_student fs;
  t ← load_table fs teacher_csv teacher_sav;
  c ← load_table fs school_csv school_sav;
  mret {| student_data := s; teacher_data := t; school_data := c |}.

(** One run of the script for the page selected in the sidebar. *)
Definition script (lib : Plots) (fs : FS) (p : page) : M unit :=
  emit (st_header "TIMSS 2023 Mathematics Dashboard");;
  emit (st_write "This dashboard explores the TIMSS 2023 data for Irish 8th grade students, focusing on mathematics performance and factors influencing it.");;
  emit (sidebar_title "Navigation");;
  t ← load_tables fs;
  render lib p t;;
  emit (sidebar_markdown "---");;
  emit (sidebar_info "Dashboard created for Data Mining module");;
  emit (sidebar_info "Data source: TIMSS 2023 Ireland Grade 8 dataset").

Definition initial : state := {| heap := []; out := [] |}.

End App.

Import App.

(** ** Concrete tables *)

Module Scenario.

(** The double of an integer. *)
Definition q (z : Z) : cell := of_Z z.

(** The tables of the merge scenario. *)
Definition scenario_ach : DataFrame :=
  {| columns := ["ID1"; "BSMMAT01"; "BSMMAT02"];
     rows := [[q 1; q 500; q 520]; [q 2; q 600; q 580]] |}.

Definition scenario_bg : DataFrame :=
  {| columns := ["ID1"; "BSBG01"];
     rows := [[q 1; q 1]; [q 2; q 2]] |}.

(** The same background table when it also carries the two item columns,
    as the student background file of the survey does. *)
Definition scenario_bg_items : DataFrame :=
  {| columns := ["ID1"; "BSBG01"; "BSMMAT01"; "BSMMAT02"];
     rows := [[q 1; q 1; q 500; q 520]; [q 2; q 2; q 600; q 580]] |}.

(** Two tables whose identifier value occurs twice on each side. *)
Definition dup_ach : DataFrame :=
  {| columns := ["ID1"; "BSMMAT01"];
     rows := [[q 1; q 500]; [q 1; q 510]] |}.

Definition dup_bg : DataFrame :=
  {| columns := ["ID1"; "BSBG01"];
     rows := [[q 1; q 1]; [q 1; q 2]] |}.

(** Two tables that share the column [STUDENT] and no [ID] column. *)
Definition noid_ach : DataFrame :=
  {| columns := ["STUDENT"; "BSMMAT01"];
     rows := [[q 1; q 500]; [q 2; q 600]] |}.

Definition noid_bg : DataFrame :=
  {| columns := ["STUDENT"; "BSBG01"];
     rows := [[q 1; q 1]; [q 2; q 2]] |}.

(** An achievement table without any [BSMMAT] column. *)
Definition noitem_ach : DataFrame :=
  {| columns := ["ID1"; "SCORE"];
     rows := [[q 1; q 500]; [q 2; q 600]] |}.

(** The join on all common columns, which [pd.merge] performs when it is
    called without [on]. *)
Definition all_columns_join (ach bg : DataFrame) : result DataFrame :=
  merge ach bg (common_ids ach bg) ("_ach", "_bg").

(** No two rows carry the same key. *)
Fixpoint unique_keys (cols on : list string) (rs : list (list cell)) : Prop :=
  match rs with
  | [] => True
  | r :: rs' =>
      Forall (fun r' => keys_match cols cols on r r' = false) rs'
      /\ unique_keys cols on rs'
  end.

(** A file system that holds the processed student table and nothing
    else. *)
Definition only_student_csv (sd : DataFrame) : FS :=
  {| path_exists := fun p => String.eqb p student_csv;
     read_csv := fun p => if String.eqb p student_csv then Ok sd
                          else Raise (FileNotFoundError p);
     import_pyreadstat := Raise (ImportError "No module named 'pyreadstat'");
     read_sav := fun p => Raise (FileNotFoundError p) |}.

(** A file system that holds the two raw student files and nothing else. *)
Definition only_raw_student (ach bg : DataFrame) : FS :=
  {| path_exists := fun p => String.eqb p ach_sav || String.eqb p bg_sav;
     read_csv := fun p => Raise (FileNotFoundError p);
     import_pyreadstat := Ok tt;
     read_sav := fun p => if String.eqb p ach_sav then Ok ach
                          else if String.eqb p bg_sav then Ok bg
                          else Raise (FileNotFoundError p) |}.

(** A student table with the composite score and without rows. *)
Definition empty_scores : DataFrame :=
  {| columns := ["ID1"; "math_score"]; rows := [] |}.

(** A store that holds one table, with nothing shown yet. *)
Definition store_of (df : DataFrame) : state := {| heap := [df]; out := [] |}.

(** The number of pairs of an element of [L] and an element of [R] that
    [f] accepts: the number of rows of an inner join. *)
Fixpoint matches {A B} (f : A -> B -> bool) (L : list A) (R : list B) : nat :=
  match L with
  | [] => 0
  | l :: L' => length (List.filter (f l) R) + matches f L' R
  end.

(** The rows of [df] that have a value under [c], as a table. *)
Definition with_value (df : DataFrame) (c : string) : DataFrame :=
  {| columns := columns df;
     rows := List.filter (fun r => match row_get (columns df) r c with
                                   | Some _ => true
                                   | None => false
                                   end) (rows df) |}.

End Scenario.

Import Scenario.

(** ** States of a render *)

Module Store.

(** The state after more elements were shown. *)
Definition shown (s : state) (es : list element) : state :=
  {| heap := heap s; out := out s ++ es |}.

(** The state after new objects were created and more elements shown. *)
Definition ext (s : state) (hs : list DataFrame) (es : list element) : state :=
  {| heap := heap s ++ hs; out := out s ++ es |}.

(** The table a value refers to. *)
Definition lookup_val (s : state) (v : pyval) : option DataFrame :=
  match v with
  | PNone => None
  | PFrame a => heap s !! a
  end.

(** A value of the script is [None] or refers to an object of the store. *)
Definition valid (s : state) (v : pyval) : Prop :=
  match v with
  | PNone => True
  | PFrame a => a < length (heap s)
  end.

(** The outcome of [load_data] once a reader has answered: the table as a
    new object, or the reported failure and [None]. *)
Definition loaded (s : state) (r : result DataFrame) : state * result pyval :=
  match r with
  | Ok df => (ext s [df] [], Ok (PFrame (length (heap s))))
  | Raise e => (shown s [st_error ("Error loading data: " ++ str_of_exn e)], Ok PNone)
  end.

(** The outcome of [load_data] when neither file is found. *)
Definition not_found (s : state) (file_path : string) : state * result pyval :=
  (shown s [st_error ("File not found: " ++ file_path)], Ok PNone).

(** The pairs of a processed file and the raw file read in its place. *)
Definition table_files : list (string * string) :=
  [(teacher_csv, teacher_sav); (school_csv, school_sav)].

Definition raw_files : list string :=
  [ach_sav; bg_sav; teacher_sav; school_sav].

(** Two states hold the same table, or both none, behind [v]. *)
Definition agree (v : pyval) (s1 s2 : state) : Prop :=
  valid s1 v /\ valid s2 v /\ lookup_val s1 v = lookup_val s2 v.

(** Two outcomes that add the same objects and the same elements to their
    states and end alike. *)
Definition same_effect {A} (s1 s2 : state) (x1 x2 : state * result A) : Prop :=
  exists hs es r, x1 = (ext s1 hs es, r) /\ x2 = (ext s2 hs es, r).

(** A routine whose effect is determined by the table behind [v]: it only
    adds objects and elements, and which ones depends on nothing else in
    the store. *)
Definition local_to (v : pyval) {A} (m : M A) : Prop :=
  forall s1 s2, agree v s1 s2 -> same_effect s1 s2 (m s1) (m s2).

(** The table a page reads. *)
Definition table_of (p : page) (t : tables) : pyval :=
  match p with
  | Overview | StudentFactors => student_data t
  | TeacherFactors => teacher_data t
  | SchoolContext => school_data t
  end.

End Store.

Import Store.

(** ** Notions used to state further properties *)

Module Notions.

(** [sub in s] for two strings. *)
Fixpoint contains (s sub : string) : bool :=
  String.prefix sub s ||
  match s with
  | EmptyString => false
  | String _ s' => contains s' sub
  end.

(** What the script shows before it loads, and after the page. *)
Definition banner : list element :=
  [st_header "TIMSS 2023 Mathematics Dashboard";
   st_write "This dashboard explores the TIMSS 2023 data for Irish 8th grade students, focusing on mathematics performance and factors influencing it.";
   sidebar_title "Navigation"].

Definition footer : list element :=
  [sidebar_markdown "---";
   sidebar_info "Dashboard created for Data Mining module";
   sidebar_info "Data source: TIMSS 2023 Ireland Grade 8 dataset"].

(** An outcome without exception that only added objects and elements. *)
Definition ends_ok {A} (s : state) (x : state * result A) : Prop :=
  exists hs es a, x = (ext s hs es, Ok a).

(** A routine that ends without exception whenever [v] refers to [df]. *)
Definition total_on (v : pyval) (df : DataFrame) {A} (m : M A) : Prop :=
  forall s, valid s v -> lookup_val s v = Some df -> ends_ok s (m s).




(** A step that only adds objects and elements, whatever its outcome. *)
Definition appends {A} (m : M A) : Prop :=
  forall s, exists hs es r, m s = (ext s hs es, r).

(** An element that is not of the two kinds the footer is made of. *)
Definition before_footer (e : element) : Prop :=
  match e with
  | sidebar_markdown _ | sidebar_info _ => False
  | _ => True
  end.

(** A step that adds to what is shown only elements of kind [P],
    whatever its outcome. *)
Definition shows (P : element -> Prop) {A} (m : M A) : Prop :=
  forall s, exists es, out (fst (m s)) = out s ++ es /\ Forall P es.

(** The footer follows a render that ended without exception. *)
Definition closing {A} (r : result A) : list element :=
  match r with
  | Ok _ => footer
  | Raise _ => []
  end.




(** The same double, or two zeros, which differ in their sign only. *)
Definition same_number (a b : float64) : Prop :=
  a = b \/ exists s s', a = Some (Fzero s) /\ b = Some (Fzero s').







(** A row has a value under [c]. *)
Definition has_value (df : DataFrame) (c : string) (r : list cell) : bool :=
  match row_get (columns df) r c with
  | Some _ => true
  | None => false
  end.

(** Two tables with two identifier columns. *)
Definition two_id_ach : DataFrame :=
  {| columns := ["IDSCHOOL"; "IDSTUD"; "BSMMAT01"];
     rows := [[q 1; q 1; q 500]; [q 1; q 2; q 600]; [q 2; q 1; q 550]] |}.

Definition two_id_bg : DataFrame :=
  {| columns := ["IDSCHOOL"; "IDSTUD"; "BSBG01"; "BSMMAT01"];
     rows := [[q 1; q 1; q 1; q 500]; [q 1; q 2; q 2; q 600]; [q 2; q 1; q 1; q 550]] |}.

(** A file system in which only the SPSS file beside a missing CSV exists. *)
Definition sav_beside_csv (df : DataFrame) : FS :=
  {| path_exists := fun p => String.eqb p "../data/teacher_data.sav";
     read_csv := fun p => Raise (FileNotFoundError p);
     import_pyreadstat := Ok tt;
     read_sav := fun _ => Ok df |}.

(** A file system without any file. *)
Definition no_files : FS :=
  {| path_exists := fun _ => false;
     read_csv := fun p => Raise (FileNotFoundError p);
     import_pyreadstat := Ok tt;
     read_sav := fun p => Raise (FileNotFoundError p) |}.

(** The plotting libraries when they draw whatever the rules of
    [plot_outcome] leave open, with messages of their kind. *)
Definition plots_drawn : Plots :=
  {| not_in_data := fun param name =>
       ("Could not interpret value `" ++ name ++ "` for `" ++ param
        ++ "`. An entry with this name does not appear in `data`.")%string;
     no_wedges := "All wedge sizes are zero";
     no_boxes := "List of boxplot statistics and `positions` values must have same the length";
     refuses := fun _ => None |}.


(** A student table with gender, books and the composite score. *)
Definition students : DataFrame :=
  {| columns := ["ID1"; "BSBG01"; "BSBG04"; "math_score"];
     rows := [[q 1; q 1; q 3; q 500]; [q 2; q 2; q 2; q 600];
              [q 3; None; q 3; q 580]; [q 4; q 1; None; q 510]] |}.

End Notions.

Import Notions.

(** * Properties *)

(** ** Generic facts about the embedding *)

Section Basics.

Lemma mem_In (x : string) (l : list string) : mem x l = true <-> In x l.
Proof.
  unfold mem. rewrite existsb_exists. split.
  - intros [y [Hy Heq]]. apply String.eqb_eq in Heq. now subst.
  - intros H. exists x. split; [assumption | apply String.eqb_refl].
Qed.

Lemma mem_false (x : string) (l : list string) : mem x l = false <-> ~ In x l.
Proof.
  rewrite <- mem_In. destruct (mem x l); split; congruence.
Qed.

Lemma filter_nil_iff {A} (f : A -> bool) (l : list A) :
  List.filter f l = [] <-> forall x, In x l -> f x = false.
Proof.
  induction l as [| a l IH]; simpl.
  - split; [intros _ x [] | reflexivity].
  - destruct (f a) eqn:Hfa.
    + split; [discriminate |].
      intros H. specialize (H a (or_introl eq_refl)). congruence.
    + rewrite IH. split.
      * intros H x [<- | Hx]; auto.
      * intros H x Hx. apply H. now right.
Qed.





(** Whatever the labels, line 61 gets one score per row when it gets a
    series at all. *)
Lemma math_score_length (df : DataFrame) (vars : list string) (scores : Series) :
  math_score df vars = Ok scores -> length scores = len df.
Proof.
  unfold math_score, getitems.
  destruct (List.filter _ _); [| discriminate].
  cbn [mbind result_bind Py.bind mret result_ret]. intros [= <-].
  unfold mean_axis1, len. simpl. now rewrite !length_map.
Qed.


Lemma present_map_Some (xs : list number) : present (map Some xs) = xs.
Proof. induction xs as [| x xs IH]; simpl; congruence. Qed.


Lemma present_In (x : number) (items : list cell) :
  In x (present items) <-> In (Some x) items.
Proof.
  induction items as [| [y |] items IH]; simpl.
  - reflexivity.
  - rewrite IH. split; (intros [H | H]; [left; congruence | now right]).
  - rewrite IH. split; [now right | intros [H | H]; [discriminate | assumption]].
Qed.


End Basics.

(** ** The composite score *)

Section CompositeScore.

(** C1: on the scenario tables the merge keeps the labels [BSMMAT01] and
    [BSMMAT02] as they are, because the background table has no column of
    that name; line 61 then selects [BSMMAT01_ach] and [BSMMAT02_ach] and
    raises [KeyError], so no composite score is produced, and the script
    stops there when it has loaded the two tables from the raw files. *)
Theorem C1_scenario_raises :
  id_cols scenario_ach scenario_bg = ["ID1"]
  /\ (columns <$> merge scenario_ach scenario_bg ["ID1"] ("_ach", "_bg"))
     = Ok ["ID1"; "BSMMAT01"; "BSMMAT02"; "BSBG01"]
  /\ math_vars_merged scenario_ach = ["BSMMAT01_ach"; "BSMMAT02_ach"]
  /\ raw_student_data scenario_ach scenario_bg = Raise (KeyError "BSMMAT01_ach")
  /\ load_student (only_raw_student scenario_ach scenario_bg) initial
     = ({| heap := [scenario_ach; scenario_bg];
           out := [sidebar_warning "Processed data not found, loading raw data..."] |},
        Raise (KeyError "BSMMAT01_ach")).
Proof. repeat split; vm_compute; reflexivity. Qed.

(** When the background table has the item columns too, the same code
    yields the scores of the scenario. *)
Lemma scenario_with_shared_items :
  (raw_student_data scenario_ach scenario_bg_items ≫= fun sd => getitem sd "math_score")
  = Ok [q 510; q 590].
Proof. vm_compute. reflexivity. Qed.

End CompositeScore.

(** ** Doubles *)

Section Doubles.

Lemma of_spec_to_spec (x : float64) : of_spec (to_spec x) = x.
Proof. destruct x as [[s | s | s m e] |]; reflexivity. Qed.


(** *** Equality of numbers *)

(** Two numbers are equal when they are both zero, or are the same
    double. *)
Lemma eqb_true_iff (x y : number) :
  Float64.eqb x y = true <->
  match x, y with
  | Fzero _, Fzero _ => True
  | Finf s, Finf s' => s = s'
  | Ffinite s m e, Ffinite s' m' e' => s = s' /\ m = m' /\ e = e'
  | _, _ => False
  end.
Proof.
  unfold Float64.eqb, SFeqb, SFcompare.
  destruct x as [s | s | s m e], y as [s' | s' | s' m' e']; cbn [spec_of_number];
    try (destruct s; split; (discriminate || tauto));
    try (destruct s'; split; (discriminate || tauto));
    try (split; (discriminate || tauto)).
  - destruct s, s'; split; (discriminate || reflexivity || tauto).
  - destruct s, s'; try (split; [discriminate | intros (E & _); discriminate E]).
    + destruct (Z.compare_spec e e') as [He | He | He].
      * change (Pos.compare_cont Eq m m') with (Pos.compare m m').
        destruct (Pos.compare_spec m m') as [Hm | Hm | Hm]; cbn [CompOpp].
        -- subst. tauto.
        -- split; [discriminate | intros (_ & E & _); subst; lia].
        -- split; [discriminate | intros (_ & E & _); subst; lia].
      * split; [discriminate | intros (_ & _ & E); subst; lia].
      * split; [discriminate | intros (_ & _ & E); subst; lia].
    + destruct (Z.compare_spec e e') as [He | He | He].
      * change (Pos.compare_cont Eq m m') with (Pos.compare m m').
        destruct (Pos.compare_spec m m') as [Hm | Hm | Hm].
        -- subst. tauto.
        -- split; [discriminate | intros (_ & E & _); subst; lia].
        -- split; [discriminate | intros (_ & E & _); subst; lia].
      * split; [discriminate | intros (_ & _ & E); subst; lia].
      * split; [discriminate | intros (_ & _ & E); subst; lia].
Qed.

Lemma eqb_refl (x : number) : Float64.eqb x x = true.
Proof. apply eqb_true_iff. destruct x; tauto. Qed.

Lemma eqb_sym (x y : number) : Float64.eqb x y = Float64.eqb y x.
Proof.
  destruct (Float64.eqb x y) eqn:H1, (Float64.eqb y x) eqn:H2; try reflexivity.
  - apply eqb_true_iff in H1. apply not_true_iff_false in H2. exfalso. apply H2.
    apply eqb_true_iff. destruct x, y; intuition congruence.
  - apply eqb_true_iff in H2. apply not_true_iff_false in H1. exfalso. apply H1.
    apply eqb_true_iff. destruct x, y; intuition congruence.
Qed.

Lemma eqb_trans (x y z : number) :
  Float64.eqb x y = true -> Float64.eqb y z = true -> Float64.eqb x z = true.
Proof.
  rewrite !eqb_true_iff. destruct x, y, z; intuition congruence.
Qed.

Lemma eqb_congr (x y z : number) :
  Float64.eqb x y = true -> Float64.eqb x z = Float64.eqb y z.
Proof.
  intros H.
  destruct (Float64.eqb x z) eqn:H1, (Float64.eqb y z) eqn:H2; try reflexivity.
  - rewrite eqb_sym in H. rewrite (eqb_trans _ _ _ H H1) in H2. discriminate.
  - rewrite (eqb_trans _ _ _ H H2) in H1. discriminate.
Qed.

(** *** Results that are numbers *)

Lemma shr_1_nonneg (mrs : shr_record) :
  (0 <= shr_m mrs)%Z -> (0 <= shr_m (shr_1 mrs))%Z.
Proof.
  destruct mrs as [m r s]. destruct m as [| [p | p |] | p]; simpl; lia.
Qed.

Lemma iter_shr_1_nonneg (p : positive) (mrs : shr_record) :
  (0 <= shr_m mrs)%Z -> (0 <= shr_m (SpecFloat.iter_pos shr_1 p mrs))%Z.
Proof.
  revert mrs. induction p as [p IH | p IH |]; intros mrs H; simpl.
  - apply IH, IH. now apply shr_1_nonneg.
  - now apply IH, IH.
  - now apply shr_1_nonneg.
Qed.

Lemma shr_fexp_nonneg (m e : Z) (l : location) :
  (0 <= m)%Z -> (0 <= shr_m (fst (shr_fexp prec emax m e l)))%Z.
Proof.
  intros H. unfold shr_fexp, shr.
  assert (H0 : (0 <= shr_m (shr_record_of_loc m l))%Z).
  { destruct l as [| []]; exact H. }
  destruct (_ - e)%Z; simpl; try assumption.
  now apply iter_shr_1_nonneg.
Qed.

Lemma round_nearest_even_nonneg (m : Z) (l : location) :
  (0 <= m)%Z -> (0 <= round_nearest_even m l)%Z.
Proof.
  intros H. destruct l as [| []]; simpl; try lia.
  destruct (Z.even m); lia.
Qed.

(** Rounding a magnitude gives zero, a finite double or an infinity. *)
Lemma binary_round_aux_number (sx : bool) (mx ex : Z) (lx : location) :
  (0 <= mx)%Z -> binary_round_aux prec emax sx mx ex lx <> S754_nan.
Proof.
  intros H. unfold binary_round_aux.
  pose proof (shr_fexp_nonneg mx ex lx H) as H1.
  destruct (shr_fexp prec emax mx ex lx) as [mrs' e'].
  pose proof (shr_fexp_nonneg
                (round_nearest_even (shr_m mrs') (loc_of_shr_record mrs')) e' loc_Exact
                (round_nearest_even_nonneg _ _ H1)) as H2.
  destruct (shr_fexp prec emax _ e' loc_Exact) as [mrs'' e''].
  simpl in H2. destruct (shr_m mrs'') as [| p | p]; try discriminate; [| lia].
  now destruct (e'' <=? emax - prec)%Z.
Qed.

Lemma binary_normalize_number (m e : Z) (s : bool) :
  binary_normalize prec emax m e s <> S754_nan.
Proof.
  unfold binary_normalize, binary_round.
  destruct m as [| p | p]; [discriminate | |];
    destruct (shl_align _ _ _) as [mz ez]; now apply binary_round_aux_number.
Qed.

Lemma of_Z_number (z : Z) : exists x, of_Z z = Some x.
Proof.
  unfold of_Z. pose proof (binary_normalize_number z 0 false) as H.
  destruct (binary_normalize prec emax z 0 false); try congruence; now eexists.
Qed.

Lemma of_nat_number (n : nat) : exists x, of_nat n = Some x.
Proof. apply of_Z_number. Qed.




(** *** The double of a count *)






End Doubles.

(** ** The merge *)

Section Merge.

Lemma dedup_In (x : string) (l : list string) : In x (dedup l) <-> In x l.
Proof.
  induction l as [| y l IH]; simpl; [reflexivity |].
  destruct (mem y l) eqn:Hy.
  - rewrite IH. apply mem_In in Hy. split; [now right |].
    intros [<- | H]; assumption.
  - simpl. now rewrite IH.
Qed.

Lemma id_cols_In (ach bg : DataFrame) (k : string) :
  In k (id_cols ach bg) <->
  In k (columns ach) /\ In k (columns bg) /\ startswith k "ID" = true.
Proof.
  unfold id_cols, common_ids.
  rewrite filter_In, dedup_In, filter_In, mem_In. tauto.
Qed.

Lemma merge_ok (l r : DataFrame) (on : list string) (sfx : string * string) :
  on <> [] ->
  (forall k, In k on -> In k (columns l) /\ In k (columns r)) ->
  clashes l r on sfx = [] ->
  merge l r on sfx =
    Ok {| columns := merged_columns l r on sfx;
          rows :=
            flat_map
              (fun lr =>
                 map (fun rr => lr ++ non_key_cells (columns r) on rr)
                     (List.filter (keys_match (columns l) (columns r) on lr) (rows r)))
              (rows l) |}.
Proof.
  intros Hne Hin Hclash. unfold merge. destruct on as [| k0 on']; [congruence |].
  assert (Hnil : List.filter
                   (fun k => negb (mem k (columns l) && mem k (columns r)))
                   (k0 :: on') = []).
  { apply filter_nil_iff. intros k Hk. destruct (Hin k Hk) as [H1 H2].
    apply mem_In in H1, H2. now rewrite H1, H2. }
  now rewrite Hnil, Hclash.
Qed.

(** *** Counting the pairs *)

Lemma length_pairs {A B C} (f : A -> B -> bool) (g : A -> B -> C) L R :
  length (flat_map (fun l => map (g l) (List.filter (f l) R)) L) = matches f L R.
Proof.
  induction L as [| l L IH]; simpl; [reflexivity |].
  now rewrite length_app, length_map, IH.
Qed.

Lemma filter_length_le {A} (p : A -> bool) (l : list A) :
  length (List.filter p l) <= length l.
Proof.
  induction l as [| a l IH]; simpl; [lia |].
  destruct (p a); simpl; lia.
Qed.

Lemma matches_le_product {A B} (f : A -> B -> bool) L R :
  matches f L R <= length L * length R.
Proof.
  induction L as [| l L IH]; simpl; [lia |].
  pose proof (filter_length_le (f l) R). lia.
Qed.

Lemma matches_le_left {A B} (f : A -> B -> bool) L R :
  (forall l, In l L -> length (List.filter (f l) R) <= 1) ->
  matches f L R <= length L.
Proof.
  induction L as [| l L IH]; simpl; intros H; [lia |].
  pose proof (H l (or_introl eq_refl)).
  assert (matches f L R <= length L) by (apply IH; intros; apply H; now right).
  lia.
Qed.

Lemma matches_cons_right {A B} (f : A -> B -> bool) L r R :
  matches f L (r :: R) = length (List.filter (fun l => f l r) L) + matches f L R.
Proof.
  induction L as [| l L IH]; simpl; [reflexivity |].
  rewrite IH. destruct (f l r); simpl; lia.
Qed.

Lemma matches_le_right {A B} (f : A -> B -> bool) L R :
  (forall r, In r R -> length (List.filter (fun l => f l r) L) <= 1) ->
  matches f L R <= length R.
Proof.
  induction R as [| r R IH]; intros H.
  - clear H. induction L as [| l L IHL]; simpl; [lia | assumption].
  - rewrite matches_cons_right. simpl.
    pose proof (H r (or_introl eq_refl)).
    assert (matches f L R <= length R) by (apply IH; intros; apply H; now right).
    lia.
Qed.

(** *** Keys *)

Lemma cell_eqb_sym (a b : cell) : cell_eqb a b = cell_eqb b a.
Proof.
  destruct a as [x |], b as [y |]; simpl; try reflexivity. apply eqb_sym.
Qed.

Lemma cell_eqb_trans (a b c : cell) :
  cell_eqb a b = true -> cell_eqb b c = true -> cell_eqb a c = true.
Proof.
  destruct a as [x |], b as [y |], c as [z |]; simpl; try congruence.
  apply eqb_trans.
Qed.

Lemma keys_match_In lcols rcols on l r k :
  keys_match lcols rcols on l r = true -> In k on ->
  cell_eqb (row_get lcols l k) (row_get rcols r k) = true.
Proof.
  unfold keys_match. rewrite forallb_forall. intros H Hk. now apply H.
Qed.

(** Two rows that match the same row on the other side match each other. *)
Lemma keys_match_common_right lcols rcols on l r1 r2 :
  keys_match lcols rcols on l r1 = true ->
  keys_match lcols rcols on l r2 = true ->
  keys_match rcols rcols on r1 r2 = true.
Proof.
  unfold keys_match. rewrite !forallb_forall. intros H1 H2 k Hk.
  apply cell_eqb_trans with (row_get lcols l k).
  - rewrite cell_eqb_sym. now apply H1.
  - now apply H2.
Qed.

Lemma keys_match_common_left lcols rcols on l1 l2 r :
  keys_match lcols rcols on l1 r = true ->
  keys_match lcols rcols on l2 r = true ->
  keys_match lcols lcols on l1 l2 = true.
Proof.
  unfold keys_match. rewrite !forallb_forall. intros H1 H2 k Hk.
  apply cell_eqb_trans with (row_get rcols r k).
  - now apply H1.
  - rewrite cell_eqb_sym. now apply H2.
Qed.

Lemma unique_at_most_one cols on (rs : list (list cell)) (p : list cell -> bool) :
  unique_keys cols on rs ->
  (forall r1 r2, p r1 = true -> p r2 = true -> keys_match cols cols on r1 r2 = true) ->
  length (List.filter p rs) <= 1.
Proof.
  intros Huniq Hp. induction rs as [| r rs IH]; simpl; [lia |].
  destruct Huniq as [Hr Hrs]. specialize (IH Hrs).
  destruct (p r) eqn:Hpr; [| assumption].
  assert (Hnil : List.filter p rs = []).
  { apply filter_nil_iff. intros r' Hr'.
    destruct (p r') eqn:Hpr'; [| reflexivity].
    rewrite List.Forall_forall in Hr. specialize (Hr r' Hr').
    rewrite (Hp r r' Hpr Hpr') in Hr. discriminate. }
  rewrite Hnil. simpl. lia.
Qed.

(** *** Where a key column sits in the merged table *)

Lemma index_of_app_l (k : string) (l l' : list string) (i : nat) :
  index_of k l = Some i -> index_of k (l ++ l') = Some i.
Proof.
  revert i. induction l as [| c l IH]; simpl; intros i H; [discriminate |].
  destruct (String.eqb k c); [assumption |].
  destruct (index_of k l) as [j |]; [| discriminate].
  now rewrite (IH j eq_refl).
Qed.

Lemma index_of_lt (k : string) (l : list string) (i : nat) :
  index_of k l = Some i -> i < length l.
Proof.
  revert i. induction l as [| c l IH]; simpl; intros i H; [discriminate |].
  destruct (String.eqb k c).
  - injection H as <-. lia.
  - destruct (index_of k l) as [j |]; [| discriminate].
    injection H as <-. specialize (IH j eq_refl). lia.
Qed.

Lemma index_of_In (k : string) (l : list string) :
  In k l -> exists i, index_of k l = Some i.
Proof.
  induction l as [| c l IH]; simpl; intros H; [contradiction |].
  destruct (String.eqb k c) eqn:Hkc; [now exists 0 |].
  destruct H as [-> | H]; [rewrite String.eqb_refl in Hkc; discriminate |].
  destruct (IH H) as [i ->]. now exists (S i).
Qed.

Lemma index_of_map (f : string -> string) (k : string) (l : list string) :
  f k = k ->
  (forall c, In c l -> f c = k -> c = k) ->
  index_of k (map f l) = index_of k l.
Proof.
  intros Hk Hinj. induction l as [| c l IH]; simpl; [reflexivity |].
  rewrite IH by (intros c' Hc'; apply Hinj; now right).
  destruct (String.eqb k (f c)) eqn:H1, (String.eqb k c) eqn:H2; try reflexivity.
  - apply String.eqb_eq in H1. symmetry in H1.
    apply Hinj in H1; [| now left]. subst c.
    rewrite String.eqb_refl in H2. discriminate.
  - apply String.eqb_eq in H2. subst c. rewrite Hk, String.eqb_refl in H1.
    discriminate.
Qed.

Lemma prefix_ID_suffixed (c : string) :
  String.prefix "ID" (c ++ "_ach") = true -> String.prefix "ID" c = true.
Proof.
  destruct c as [| a [| b c]]; cbn [String.prefix String.append].
  - destruct (ascii_dec "I" "_") as [E |]; [discriminate E | discriminate].
  - destruct (ascii_dec "I" a); [| discriminate].
    destruct (ascii_dec "D" "_") as [E |]; [discriminate E | discriminate].
  - destruct (ascii_dec "I" a); [| discriminate].
    destruct (ascii_dec "D" b); [| discriminate].
    intros _. now destruct c.
Qed.

Lemma suffixed_key (on other : list string) (sfx k : string) :
  In k on -> suffixed on other sfx k = k.
Proof.
  intros H. unfold suffixed. apply mem_In in H. now rewrite H.
Qed.

(** A label of the achievement table that the merge renames is never
    taken for an identifier column. *)
Lemma suffixed_not_key (ach bg : DataFrame) (on : list string) (c k : string) :
  Permutation on (id_cols ach bg) ->
  In c (columns ach) -> In k on ->
  suffixed on (columns bg) "_ach" c = k -> c = k.
Proof.
  intros Hperm Hc Hk. unfold suffixed.
  destruct (mem c on) eqn:Hcon; simpl; [trivial |].
  destruct (mem c (columns bg)) eqn:Hcbg; [| trivial].
  intros Heq. exfalso.
  apply mem_false in Hcon. apply Hcon.
  apply (Permutation_in _ (Permutation_sym Hperm)).
  apply id_cols_In. apply mem_In in Hcbg. repeat split; try assumption.
  apply (Permutation_in _ Hperm), id_cols_In in Hk.
  destruct Hk as (_ & _ & Hk). unfold startswith in *. rewrite <- Heq in Hk.
  now apply prefix_ID_suffixed.
Qed.

Lemma merged_key_cell (ach bg : DataFrame) (on : list string) (k : string)
    (la extra : list cell) :
  Permutation on (id_cols ach bg) ->
  length la = length (columns ach) ->
  In k on ->
  row_get (merged_columns ach bg on ("_ach", "_bg")) (la ++ extra) k
  = row_get (columns ach) la k.
Proof.
  intros Hperm Hlen Hk. unfold row_get, merged_columns. simpl.
  assert (Hin : In k (columns ach)).
  { apply (Permutation_in _ Hperm), id_cols_In in Hk. tauto. }
  destruct (index_of_In _ _ Hin) as [i Hi].
  rewrite (index_of_app_l _ _ _ i).
  - rewrite Hi. apply app_nth1. rewrite Hlen. now apply index_of_lt in Hi.
  - rewrite index_of_map; [assumption | now apply suffixed_key |].
    intros c Hc. now apply suffixed_not_key with (ach := ach).
Qed.

(** C3, as the code has it: with at least one shared identifier column the
    merge returns a table; it has at most one row per pair of input rows,
    at most as many rows as the achievement table when no two background
    rows carry the same key, and at most as many as the background table
    when no two achievement rows do; and the identifier cells of every
    output row are those of an achievement row and equal those of a
    background row. *)
Theorem C3_merge_rows (ach bg : DataFrame) (on : list string) :
  wf ach ->
  id_cols ach bg <> [] ->
  Permutation on (id_cols ach bg) ->
  clashes ach bg on ("_ach", "_bg") = [] ->
  exists m,
    merge ach bg on ("_ach", "_bg") = Ok m
    /\ len m <= len ach * len bg
    /\ (unique_keys (columns bg) on (rows bg) -> len m <= len ach)
    /\ (unique_keys (columns ach) on (rows ach) -> len m <= len bg)
    /\ (unique_keys (columns ach) on (rows ach) ->
        unique_keys (columns bg) on (rows bg) ->
        len m <= Nat.min (len ach) (len bg))
    /\ forall r, In r (rows m) ->
         exists la rb,
           In la (rows ach) /\ In rb (rows bg)
           /\ forall k, In k on ->
                row_get (columns m) r k = row_get (columns ach) la k
                /\ cell_eqb (row_get (columns m) r k)
                            (row_get (columns bg) rb k) = true.
Proof.
  intros Hwf Hne Hperm Hclash.
  assert (Hon : on <> []).
  { intros ->. apply Permutation_nil in Hperm. congruence. }
  assert (Hin : forall k, In k on -> In k (columns ach) /\ In k (columns bg)).
  { intros k Hk. apply (Permutation_in _ Hperm), id_cols_In in Hk. tauto. }
  rewrite (merge_ok _ _ _ _ Hon Hin Hclash). eexists. split; [reflexivity |].
  unfold len. simpl. rewrite length_pairs.
  assert (Hleft : unique_keys (columns bg) on (rows bg) ->
                  matches (keys_match (columns ach) (columns bg) on)
                          (rows ach) (rows bg) <= length (rows ach)).
  { intros Hu. apply matches_le_left. intros l _.
    apply (unique_at_most_one _ _ _ _ Hu). intros r1 r2.
    apply keys_match_common_right. }
  assert (Hright : unique_keys (columns ach) on (rows ach) ->
                   matches (keys_match (columns ach) (columns bg) on)
                           (rows ach) (rows bg) <= length (rows bg)).
  { intros Hu. apply matches_le_right. intros r _.
    apply (unique_at_most_one _ _ _ _ Hu). intros l1 l2.
    apply keys_match_common_left. }
  split; [apply matches_le_product |].
  split; [assumption |]. split; [assumption |].
  split; [intros Ha Hb; specialize (Hleft Hb); specialize (Hright Ha); lia |].
  intros r Hr. apply in_flat_map in Hr. destruct Hr as (la & Hla & Hr).
  apply in_map_iff in Hr. destruct Hr as (rb & <- & Hrb).
  apply filter_In in Hrb. destruct Hrb as [Hrb Hmatch].
  exists la, rb. repeat split; try assumption.
  - apply merged_key_cell; try assumption.
    unfold wf in Hwf. rewrite List.Forall_forall in Hwf. now apply Hwf.
  - rewrite merged_key_cell; try assumption.
    + now apply keys_match_In with (on := on).
    + unfold wf in Hwf. rewrite List.Forall_forall in Hwf. now apply Hwf.
Qed.

Lemma C3_merge_rows_witness :
  exists m,
    merge scenario_ach scenario_bg ["ID1"] ("_ach", "_bg") = Ok m
    /\ len m <= Nat.min (len scenario_ach) (len scenario_bg).
Proof.
  destruct (C3_merge_rows scenario_ach scenario_bg ["ID1"])
    as (m & Hm & _ & _ & _ & Hmin & _).
  - repeat constructor.
  - vm_compute. discriminate.
  - vm_compute. apply Permutation_refl.
  - reflexivity.
  - exists m. split; [exact Hm |]. apply Hmin.
    + simpl. repeat split; repeat constructor.
    + simpl. repeat split; repeat constructor.
Defined.

(** C3, as the claim has it, fails: an identifier value that occurs twice
    in each table gives four merged rows from two and two. *)
Lemma C3_duplicate_keys_exceed_min :
  id_cols dup_ach dup_bg = ["ID1"]
  /\ exists m,
       merge dup_ach dup_bg (id_cols dup_ach dup_bg) ("_ach", "_bg") = Ok m
       /\ len m = 4
       /\ ~ len m <= Nat.min (len dup_ach) (len dup_bg).
Proof.
  split; [reflexivity |]. eexists. split; [vm_compute; reflexivity |].
  split; [reflexivity |]. vm_compute. lia.
Qed.

Lemma forallb_perm {A} (p : A -> bool) (l l' : list A) :
  Permutation l l' -> forallb p l = forallb p l'.
Proof.
  induction 1 as [| x l l' _ IH | x y l | l l' l'' _ IH1 _ IH2]; simpl.
  - reflexivity.
  - now rewrite IH.
  - destruct (p x), (p y); reflexivity.
  - now rewrite IH1.
Qed.

Lemma mem_perm (c : string) (l l' : list string) :
  Permutation l l' -> mem c l = mem c l'.
Proof.
  intros Hperm. destruct (mem c l') eqn:H.
  - apply mem_In. apply mem_In in H.
    now apply (Permutation_in _ (Permutation_sym Hperm)).
  - apply mem_false. apply mem_false in H. intros Hc. apply H.
    now apply (Permutation_in _ Hperm).
Qed.

Lemma suffix_dups_ext (f g : string -> string) (seen seen' cols : list string) :
  (forall c, f c = g c) ->
  suffix_dups f seen seen' cols = suffix_dups g seen seen' cols.
Proof.
  intros Hfg. revert seen seen'.
  induction cols as [| c cols IH]; intros seen seen'; simpl; [reflexivity |].
  now rewrite Hfg, IH.
Qed.

(** The order in which the shared identifier columns are listed, which a
    Python set does not fix, has no influence on the merge. *)
Lemma merge_key_order (l r : DataFrame) (on on' : list string) sfx :
  Permutation on on' ->
  (forall k, In k on -> In k (columns l) /\ In k (columns r)) ->
  merge l r on sfx = merge l r on' sfx.
Proof.
  intros Hperm Hin.
  assert (Hin' : forall k, In k on' -> In k (columns l) /\ In k (columns r)).
  { intros k Hk. apply Hin. now apply (Permutation_in _ (Permutation_sym Hperm)). }
  assert (Hsfx : forall other sx c, suffixed on other sx c = suffixed on' other sx c).
  { intros other sx c. unfold suffixed. now rewrite (mem_perm c _ _ Hperm). }
  assert (Hclash : clashes l r on sfx = clashes l r on' sfx).
  { unfold clashes. f_equal; apply suffix_dups_ext; intros c; apply Hsfx. }
  assert (Hbad : forall keys,
             (forall k, In k keys -> In k (columns l) /\ In k (columns r)) ->
             List.filter (fun k0 => negb (mem k0 (columns l) && mem k0 (columns r)))
                         keys = []).
  { intros keys Hkeys. apply filter_nil_iff. intros k0 Hk0.
    destruct (Hkeys k0 Hk0) as [H1 H2].
    apply mem_In in H1, H2. now rewrite H1, H2. }
  assert (Hcols : merged_columns l r on sfx = merged_columns l r on' sfx).
  { unfold merged_columns. f_equal.
    - apply map_ext. intros c. apply Hsfx.
    - rewrite (filter_ext _ (fun c => negb (mem c on'))).
      + apply map_ext. intros c. apply Hsfx.
      + intros c. now rewrite (mem_perm c _ _ Hperm). }
  assert (Hrows : forall lr,
             map (fun rr => lr ++ non_key_cells (columns r) on rr)
                 (List.filter (keys_match (columns l) (columns r) on lr) (rows r))
             = map (fun rr => lr ++ non_key_cells (columns r) on' rr)
                   (List.filter (keys_match (columns l) (columns r) on' lr) (rows r))).
  { intros lr.
    rewrite (filter_ext _ (keys_match (columns l) (columns r) on' lr)).
    - apply map_ext. intros rr. f_equal. unfold non_key_cells. f_equal.
      apply filter_ext. intros c. now rewrite (mem_perm c _ _ Hperm).
    - intros rr. unfold keys_match. now apply forallb_perm. }
  unfold merge. rewrite (Hbad on Hin), (Hbad on' Hin'), Hclash, Hcols.
  rewrite (flat_map_ext _ _ Hrows).
  destruct on as [| k on1].
  { apply Permutation_nil in Hperm. now subst. }
  destruct on' as [| k' on1'].
  { apply Permutation_sym, Permutation_nil in Hperm. discriminate. }
  reflexivity.
Qed.

End Merge.

(** ** The composite score as a column of the student table *)

Section ScoreColumn.

Lemma index_of_None (c : string) (cols : list string) :
  index_of c cols = None <-> mem c cols = false.
Proof.
  induction cols as [| c' cols IH]; simpl; [tauto |].
  destruct (String.eqb c c'); simpl; [split; discriminate |].
  rewrite <- IH. destruct (index_of c cols); simpl; split; congruence.
Qed.

Lemma index_of_Some_mem (c : string) (cols : list string) (i : nat) :
  index_of c cols = Some i -> mem c cols = true.
Proof.
  intros H. destruct (mem c cols) eqn:Hm; [reflexivity |].
  apply index_of_None in Hm. congruence.
Qed.

Lemma index_of_snoc (c : string) (cols : list string) :
  index_of c cols = None -> index_of c (cols ++ [c]) = Some (length cols).
Proof.
  induction cols as [| c' cols IH]; simpl; intros H.
  - now rewrite String.eqb_refl.
  - destruct (String.eqb c c'); [discriminate |].
    destruct (index_of c cols); [discriminate |]. now rewrite IH.
Qed.

Lemma nth_set_nth (i : nat) (x : cell) (r : list cell) :
  i < length r -> nth i (set_nth i x r) None = x.
Proof.
  revert r. induction i as [| i IH]; intros [| y r]; simpl; intros H; try lia.
  - reflexivity.
  - apply IH. lia.
Qed.

Lemma nth_snoc (x : cell) (r : list cell) : nth (length r) (r ++ [x]) None = x.
Proof. induction r as [| y r IH]; simpl; [reflexivity | assumption]. Qed.

(** Reading back the column that was just assigned gives the assigned
    series. *)
Lemma getitem_setitem (df : DataFrame) (c : string) (s : Series) :
  wf df -> length s = len df -> getitem (setitem df c s) c = Ok s.
Proof.
  unfold wf, len, getitem, setitem. intros Hwf Hlen.
  destruct (index_of c (columns df)) as [i |] eqn:Hi; simpl.
  - rewrite (index_of_Some_mem _ _ _ Hi). f_equal.
    pose proof (index_of_lt _ _ _ Hi) as Hlt.
    unfold row_get. rewrite Hi.
    revert s Hlen. induction Hwf as [| r rs Hr _ IH]; intros [| x s] Hlen;
      simpl in *; try discriminate; [reflexivity |].
    rewrite nth_set_nth by lia. f_equal. apply IH. lia.
  - assert (Hm : mem c (columns df ++ [c]) = true).
    { apply mem_In, in_or_app. right. now left. }
    rewrite Hm. f_equal. unfold row_get. rewrite (index_of_snoc _ _ Hi).
    revert s Hlen. induction Hwf as [| r rs Hr _ IH]; intros [| x s] Hlen;
      simpl in *; try discriminate; [reflexivity |].
    f_equal; [rewrite <- Hr; apply nth_snoc | apply IH; lia].
Qed.

Lemma merge_wf (l r : DataFrame) (on : list string) sfx (m : DataFrame) :
  wf l -> merge l r on sfx = Ok m -> wf m.
Proof.
  unfold merge. intros Hwf H.
  destruct on as [| k on']; [discriminate |].
  destruct (List.filter _ (k :: on')); [| discriminate].
  destruct (clashes l r (k :: on') sfx); [| discriminate].
  injection H as <-. unfold wf in *. simpl.
  apply List.Forall_forall. intros row Hrow.
  apply in_flat_map in Hrow. destruct Hrow as (lr & Hlr & Hrow).
  apply in_map_iff in Hrow. destruct Hrow as (rr & <- & _).
  rewrite List.Forall_forall in Hwf.
  unfold merged_columns, non_key_cells.
  now rewrite !length_app, !length_map, (Hwf lr Hlr).
Qed.

(** What a successful raw-data path returns: the merged table with the
    series of row means, over the columns that line 61 selects, under
    [math_score]. *)
Lemma raw_student_data_inv (ach bg sd : DataFrame) :
  raw_student_data ach bg = Ok sd ->
  exists merged items,
    merge ach bg (id_cols ach bg) ("_ach", "_bg") = Ok merged
    /\ getitems merged (math_vars_merged ach) = Ok items
    /\ sd = setitem merged "math_score" (mean_axis1 items).
Proof.
  unfold raw_student_data.
  destruct (merge ach bg _ _) as [merged | e] eqn:Hm; [| discriminate].
  cbn [mbind result_bind Py.bind]. unfold math_score.
  destruct (getitems merged _) as [items | e] eqn:Hi; [| discriminate].
  cbn [mbind result_bind Py.bind mret result_ret].
  intros [= <-]. now exists merged, items.
Qed.


Lemma raw_student_data_score (ach bg sd : DataFrame) :
  wf ach ->
  raw_student_data ach bg = Ok sd ->
  exists merged scores,
    merge ach bg (id_cols ach bg) ("_ach", "_bg") = Ok merged
    /\ math_score merged (math_vars_merged ach) = Ok scores
    /\ sd = setitem merged "math_score" scores
    /\ getitem sd "math_score" = Ok scores.
Proof.
  intros Hwf Hraw.
  destruct (raw_student_data_inv _ _ _ Hraw) as (merged & items & Hm & Hi & ->).
  assert (Hs : math_score merged (math_vars_merged ach) = Ok (mean_axis1 items)).
  { unfold math_score. now rewrite Hi. }
  exists merged, (mean_axis1 items). repeat split; try assumption.
  apply getitem_setitem; [now apply (merge_wf _ _ _ _ _ Hwf Hm) |].
  now apply math_score_length in Hs.
Qed.

(** *** The mean of a row *)







(** *** Missing values in the sum *)

Lemma same_number_refl (a : float64) : same_number a a.
Proof. now left. Qed.











(** Two infinite scores of opposite sign are both present, and their
    mean is NaN: the scores have to be finite for the composite to be a
    number whenever one of them is present. *)
Lemma mean_of_opposite_infinities :
  row_mean [Some (Finf false); Some (Finf true)] = None.
Proof. reflexivity. Qed.

End ScoreColumn.

(** ** The edge cases of the raw-data path *)

Section EdgeCases.

Lemma id_cols_nil (ach bg : DataFrame) :
  (forall c, In c (columns ach) -> In c (columns bg) -> startswith c "ID" = false) ->
  id_cols ach bg = [].
Proof.
  intros H. unfold id_cols. apply filter_nil_iff. intros c Hc.
  unfold common_ids in Hc. rewrite dedup_In, filter_In, mem_In in Hc.
  now apply H.
Qed.

(** C4, as the code has it: without a shared identifier column the key
    list handed to the merge is the empty list, not the absence of a key
    list; the merge raises on it, and so does the whole raw-data path.  No
    join on the shared columns takes place. *)
Theorem C4_no_shared_id_raises (ach bg : DataFrame) :
  (forall c, In c (columns ach) -> In c (columns bg) -> startswith c "ID" = false) ->
  id_cols ach bg = []
  /\ merge ach bg (id_cols ach bg) ("_ach", "_bg")
     = Raise (IndexError "list index out of range")
  /\ raw_student_data ach bg = Raise (IndexError "list index out of range").
Proof.
  intros H. pose proof (id_cols_nil ach bg H) as Hnil.
  unfold raw_student_data. rewrite Hnil. repeat split.
Qed.

Lemma C4_no_shared_id_raises_witness :
  raw_student_data noid_ach noid_bg = Raise (IndexError "list index out of range").
Proof.
  apply (C4_no_shared_id_raises noid_ach noid_bg).
  intros c [<- | [<- | []]] [E | [E | []]]; try discriminate E; reflexivity.
Defined.

(** C4, as the claim has it, fails: the two tables share the column
    [STUDENT] and no identifier column; the join on all shared columns
    would pair their rows, but the script's merge raises. *)
Lemma C4_not_all_columns_join :
  id_cols noid_ach noid_bg = []
  /\ common_ids noid_ach noid_bg = ["STUDENT"]
  /\ (len <$> all_columns_join noid_ach noid_bg) = Ok 2
  /\ merge noid_ach noid_bg (id_cols noid_ach noid_bg) ("_ach", "_bg")
     = Raise (IndexError "list index out of range")
  /\ merge noid_ach noid_bg (id_cols noid_ach noid_bg) ("_ach", "_bg")
     <> all_columns_join noid_ach noid_bg.
Proof. repeat split; try (vm_compute; reflexivity). vm_compute. discriminate. Qed.

Lemma mean_axis1_no_columns (df : DataFrame) :
  mean_axis1 {| columns := []; rows := map (fun _ => []) (rows df) |}
  = repeat None (len df).
Proof.
  unfold mean_axis1, len. simpl. induction (rows df) as [| r rs IH]; simpl.
  - reflexivity.
  - now rewrite IH.
Qed.

(** C5, as the code has it: when the achievement table has no item-score
    column, the merge on the shared identifier columns is followed by the
    selection of no column at all; nothing is raised, and the composite
    score assigned to every row, and read back from the table, is NaN. *)
Theorem C5_no_item_columns_all_nan (ach bg : DataFrame) :
  wf ach ->
  math_vars ach = [] ->
  id_cols ach bg <> [] ->
  clashes ach bg (id_cols ach bg) ("_ach", "_bg") = [] ->
  exists merged sd,
    merge ach bg (id_cols ach bg) ("_ach", "_bg") = Ok merged
    /\ math_score merged (math_vars_merged ach) = Ok (repeat None (len merged))
    /\ raw_student_data ach bg = Ok sd
    /\ sd = setitem merged "math_score" (repeat None (len merged))
    /\ getitem sd "math_score" = Ok (repeat None (len merged)).
Proof.
  intros Hwf Hvars Hne Hclash.
  assert (Hin : forall k, In k (id_cols ach bg) ->
                          In k (columns ach) /\ In k (columns bg)).
  { intros k Hk. apply id_cols_In in Hk. tauto. }
  pose proof (merge_ok _ _ _ _ Hne Hin Hclash) as Hmerge.
  eexists. eexists. split; [exact Hmerge |].
  set (merged := {| columns := merged_columns ach bg (id_cols ach bg) ("_ach", "_bg");
                    rows := _ |}) in *.
  assert (Hscore : math_score merged (math_vars_merged ach)
                   = Ok (repeat None (len merged))).
  { unfold math_vars_merged, math_score. rewrite Hvars.
    cbn [map getitems List.filter selection flat_map].
    cbn [mbind result_bind Py.bind mret result_ret].
    now rewrite mean_axis1_no_columns. }
  split; [exact Hscore |].
  unfold raw_student_data. rewrite Hmerge.
  cbn [mbind result_bind Py.bind]. rewrite Hscore.
  split; [reflexivity |]. split; [reflexivity |].
  apply getitem_setitem.
  - now apply (merge_wf _ _ _ _ _ Hwf Hmerge).
  - apply repeat_length.
Qed.

Lemma C5_no_item_columns_all_nan_witness :
  exists merged sd,
    merge noitem_ach scenario_bg (id_cols noitem_ach scenario_bg) ("_ach", "_bg")
    = Ok merged
    /\ raw_student_data noitem_ach scenario_bg = Ok sd
    /\ getitem sd "math_score" = Ok (repeat None (len merged)).
Proof.
  destruct (C5_no_item_columns_all_nan noitem_ach scenario_bg)
    as (merged & sd & Hm & _ & Hraw & _ & Hcol).
  - repeat constructor.
  - reflexivity.
  - vm_compute. discriminate.
  - reflexivity.
  - exists merged, sd. split; [exact Hm | split; [exact Hraw | exact Hcol]].
Defined.

(** C5, as the claim has it, fails: without any item-score column the
    raw-data path raises nothing; it returns a table with a NaN score in
    both rows. *)
Lemma C5_silent_nan :
  math_vars noitem_ach = []
  /\ (forall e, raw_student_data noitem_ach scenario_bg <> Raise e)
  /\ (raw_student_data noitem_ach scenario_bg ≫= fun sd => getitem sd "math_score")
     = Ok [None; None].
Proof.
  split; [reflexivity |]. split; [| vm_compute; reflexivity].
  intros e. vm_compute. discriminate.
Qed.

End EdgeCases.

(** ** The loader *)

Section Loader.

Variable fs : FS.

Lemma ext_nil (s : state) (es : list element) : ext s [] es = shown s es.
Proof. unfold ext, shown. now rewrite app_nil_r. Qed.

Lemma ext_nil_nil (s : state) : ext s [] [] = s.
Proof. unfold ext. destruct s. simpl. now rewrite !app_nil_r. Qed.

Lemma load_data_csv (file_path : string) (s : state) :
  endswith file_path ".csv" = true ->
  load_data fs file_path s = loaded s (read_csv fs file_path).
Proof.
  intros Hcsv. unfold load_data, try_except. rewrite Hcsv.
  cbv [mbind M_bind lift alloc]. unfold loaded.
  destruct (read_csv fs file_path) as [df | e].
  - unfold ext. simpl. now rewrite app_nil_r.
  - reflexivity.
Qed.

Lemma load_data_sav (file_path : string) (s : state) :
  endswith file_path ".csv" = false ->
  replace file_path ".csv" ".sav" = file_path ->
  load_data fs file_path s =
    if path_exists fs file_path
    then loaded s (import_pyreadstat fs ;; read_sav fs file_path)
    else not_found s file_path.
Proof.
  intros Hcsv Hrep. unfold load_data, try_except. rewrite Hcsv, Hrep.
  destruct (path_exists fs file_path); [| reflexivity].
  cbv [mbind M_bind result_bind Py.bind lift alloc]. unfold loaded.
  destruct (import_pyreadstat fs) as [[] | e]; [| reflexivity].
  destruct (read_sav fs file_path) as [df | e].
  - unfold ext. simpl. now rewrite app_nil_r.
  - reflexivity.
Qed.

Lemma load_data_total (file_path : string) (s : state) :
  (exists df, load_data fs file_path s
              = (ext s [df] [], Ok (PFrame (length (heap s)))))
  \/ (exists msg, load_data fs file_path s = (shown s [st_error msg], Ok PNone)).
Proof.
  unfold load_data, try_except.
  destruct (endswith file_path ".csv").
  - cbv [mbind M_bind lift alloc].
    destruct (read_csv fs file_path) as [df | e]; [left | right]; eexists.
    + unfold ext. simpl. now rewrite app_nil_r.
    + reflexivity.
  - destruct (path_exists fs _).
    + cbv [mbind M_bind lift alloc].
      destruct (import_pyreadstat fs) as [[] | e]; [| right; eexists; reflexivity].
      destruct (read_sav fs _) as [df | e]; [left | right]; eexists.
      * unfold ext. simpl. now rewrite app_nil_r.
      * reflexivity.
    + right. eexists. reflexivity.
Qed.

End Loader.

(** ** Running the render monad *)

Section Run.

Context {A B : Type}.

Lemma run_bind (m : M A) (k : A -> M B) (s : state) :
  (m ≫= k) s =
    match m s with
    | (s', Ok a) => k a s'
    | (s', Raise e) => (s', Raise e)
    end.
Proof. reflexivity. Qed.

Lemma run_ret (a : A) (k : A -> M B) (s : state) : (mret a ≫= k) s = k a s.
Proof. reflexivity. Qed.

Lemma run_lift (r : result A) (k : A -> M B) (s : state) :
  (lift r ≫= k) s = match r with Ok a => k a s | Raise e => (s, Raise e) end.
Proof. rewrite run_bind. unfold lift. now destruct r. Qed.

Lemma run_raise (e : exn) (k : A -> M B) (s : state) :
  (raise e ≫= k) s = (s, Raise e).
Proof. reflexivity. Qed.

Lemma run_assoc {C} (m : M C) (f : C -> M A) (g : A -> M B) (s : state) :
  ((m ≫= f) ≫= g) s = (m ≫= fun c => f c ≫= g) s.
Proof.
  unfold mbind, M_bind. destruct (m s) as [s' [c | e]]; reflexivity.
Qed.

End Run.

Section RunStore.

Context {B : Type}.
Variables (s : state) (hs : list DataFrame) (o : list element).

Lemma emit_ext (e : element) : emit e (ext s hs o) = (ext s hs (o ++ [e]), Ok tt).
Proof. unfold emit, ext. simpl. now rewrite app_assoc. Qed.

Lemma run_emit (e : element) (k : unit -> M B) :
  (emit e ≫= k) (ext s hs o) = k tt (ext s hs (o ++ [e])).
Proof. rewrite run_bind, emit_ext. reflexivity. Qed.

Lemma run_alloc (df : DataFrame) (k : pyval -> M B) :
  (alloc df ≫= k) (ext s hs o)
  = k (PFrame (length (heap s) + length hs)) (ext s (hs ++ [df]) o).
Proof.
  rewrite run_bind. unfold alloc, ext. simpl.
  now rewrite length_app, app_assoc.
Qed.

Lemma lookup_ext_old (v : pyval) :
  valid s v -> lookup_val (ext s hs o) v = lookup_val s v.
Proof.
  destruct v as [| a]; simpl; [reflexivity |]. intros Hlt.
  now apply lookup_app_l.
Qed.

Lemma valid_ext (v : pyval) : valid s v -> valid (ext s hs o) v.
Proof.
  destruct v as [| a]; simpl; [trivial |]. rewrite length_app. lia.
Qed.

Lemma read_lookup (v : pyval) (e : exn) (s0 : state) :
  read v e s0 = (s0, match lookup_val s0 v with Some df => Ok df | None => Raise e end).
Proof.
  unfold read, lookup_val. destruct v as [| a]; [reflexivity |].
  now destruct (heap s0 !! a).
Qed.

Lemma run_read_old (v : pyval) (e : exn) (k : DataFrame -> M B) :
  valid s v ->
  (read v e ≫= k) (ext s hs o)
  = match lookup_val s v with
    | Some df => k df (ext s hs o)
    | None => (ext s hs o, Raise e)
    end.
Proof.
  intros Hv. rewrite run_bind, read_lookup, (lookup_ext_old _ Hv).
  now destruct (lookup_val s v).
Qed.

Lemma run_read_last (df : DataFrame) (e : exn) (k : DataFrame -> M B) :
  (read (PFrame (length (heap s) + length hs)) e ≫= k) (ext s (hs ++ [df]) o)
  = k df (ext s (hs ++ [df]) o).
Proof.
  rewrite run_bind, read_lookup. simpl.
  rewrite app_assoc, <- length_app, list_lookup_middle by reflexivity.
  reflexivity.
Qed.

Lemma run_write_last (df df' : DataFrame) (k : unit -> M B) :
  (write (length (heap s) + length hs) df' ≫= k) (ext s (hs ++ [df]) o)
  = k tt (ext s (hs ++ [df']) o).
Proof.
  rewrite run_bind. unfold write, ext. simpl. f_equal. f_equal.
  rewrite !app_assoc, <- length_app.
  rewrite <- (Nat.add_0_r (length (heap s ++ hs))).
  now rewrite insert_app_r.
Qed.

End RunStore.

(** ** The loader and the existence checks around it *)

Section LoaderChecks.

Variable fs : FS.

(** C6: whatever the path and the files, [load_data] ends without an
    exception, either with a new table and nothing shown, or with [None]
    after one error message.  Around it, the existence checks take the
    processed CSV when it exists, and read it with the CSV reader;
    otherwise they take the raw file, read it with the SPSS reader when
    it exists, and report it as not found when it does not.  For the
    student table, which has two raw files, the absence of the processed
    CSV is announced in the sidebar, both raw files are loaded in this
    way, the achievement file first, and the student table is what the
    raw-data path makes of the two tables. *)
Theorem C6_loader (s : state) :
  (forall file_path,
      (exists df, load_data fs file_path s
                  = (ext s [df] [], Ok (PFrame (length (heap s)))))
      \/ (exists msg, load_data fs file_path s
                      = (shown s [st_error msg], Ok PNone)))
  /\ (path_exists fs student_csv = true ->
      load_student fs s = loaded s (read_csv fs student_csv))
  /\ (path_exists fs student_csv = false ->
      exists s1 v1 s2 v2,
        load_data fs ach_sav
          (shown s [sidebar_warning "Processed data not found, loading raw data..."])
        = (s1, Ok v1)
        /\ load_data fs bg_sav s1 = (s2, Ok v2)
        /\ load_student fs s =
             match lookup_val s2 v1, lookup_val s2 v2 with
             | Some ach, Some bg =>
                 match raw_student_data ach bg with
                 | Ok sd => (ext s2 [sd] [], Ok (PFrame (length (heap s2))))
                 | Raise e => (s2, Raise e)
                 end
             | _, _ => (s2, Raise (no_attribute "columns"))
             end)
  /\ (forall csv sav, In (csv, sav) table_files ->
        (path_exists fs csv = true ->
         load_table fs csv sav s = loaded s (read_csv fs csv))
        /\ (path_exists fs csv = false ->
            load_table fs csv sav s = load_data fs sav s))
  /\ (forall sav, In sav raw_files ->
        load_data fs sav s =
          if path_exists fs sav
          then loaded s (import_pyreadstat fs ;; read_sav fs sav)
          else not_found s sav).
Proof.
  split; [intros; apply load_data_total |]. split; [| split; [| split]].
  - intros He. unfold load_student. rewrite He. now apply load_data_csv.
  - intros He. unfold load_student. rewrite He.
    set (s0 := shown s [sidebar_warning "Processed data not found, loading raw data..."]).
    assert (Hload : forall p st, exists st' v, load_data fs p st = (st', Ok v)).
    { intros p st.
      destruct (load_data_total fs p st) as [[df E] | [msg E]]; rewrite E;
        now eexists _, _. }
    destruct (Hload ach_sav s0) as (s1 & v1 & E1).
    destruct (Hload bg_sav s1) as (s2 & v2 & E2).
    exists s1, v1, s2, v2. split; [exact E1 |]. split; [exact E2 |].
    rewrite run_bind. change (emit _ s) with (s0, Ok tt). cbv beta iota.
    rewrite run_bind, E1. cbv beta iota.
    rewrite run_bind, E2. cbv beta iota.
    rewrite run_bind, read_lookup.
    destruct (lookup_val s2 v1) as [ach |]; [| now destruct (lookup_val s2 v2)].
    rewrite run_bind, read_lookup.
    destruct (lookup_val s2 v2) as [bg |]; [| reflexivity].
    rewrite run_lift. destruct (raw_student_data ach bg) as [sd | e]; [| reflexivity].
    unfold alloc, ext. simpl. now rewrite app_nil_r.
  - intros csv sav Hin. unfold load_table.
    split; intros He; rewrite He; [| reflexivity].
    apply load_data_csv.
    destruct Hin as [E | [E | []]]; injection E as <- <-; reflexivity.
  - intros sav Hin. apply load_data_sav;
      destruct Hin as [<- | [<- | [<- | [<- | []]]]]; reflexivity.
Qed.

End LoaderChecks.

Section LoaderExample.

Lemma C6_loader_witness :
  load_student (only_student_csv scenario_bg_items) initial
  = ({| heap := [scenario_bg_items]; out := [] |}, Ok (PFrame 0))
  /\ exists s1 v1 s2 v2,
       load_data (only_raw_student scenario_ach scenario_bg_items) ach_sav
         (shown initial [sidebar_warning "Processed data not found, loading raw data..."])
       = (s1, Ok v1)
       /\ load_data (only_raw_student scenario_ach scenario_bg_items) bg_sav s1
          = (s2, Ok v2).
Proof.
  split.
  - destruct (C6_loader (only_student_csv scenario_bg_items) initial)
      as (_ & Hstudent & _).
    rewrite Hstudent; reflexivity.
  - destruct (C6_loader (only_raw_student scenario_ach scenario_bg_items) initial)
      as (_ & _ & Hraw & _).
    destruct (Hraw eq_refl) as (s1 & v1 & s2 & v2 & E1 & E2 & _).
    now exists s1, v1, s2, v2.
Defined.

End LoaderExample.


(** ** The page routines, run step by step *)

Lemma run_ret_r {A} (m : M A) (s : state) : (m ≫= mret) s = m s.
Proof.
  unfold mbind, M_bind. destruct (m s) as [s' [a | e]]; reflexivity.
Qed.

Lemma valid_lookup (s : state) (a : addr) (df : DataFrame) :
  heap s !! a = Some df -> valid s (PFrame a).
Proof. intros H. simpl. now apply lookup_lt_Some in H. Qed.

Ltac run_step :=
  first
    [ rewrite run_assoc
    | rewrite run_ret
    | rewrite run_emit
    | rewrite run_alloc
    | rewrite run_read_last
    | rewrite run_write_last
    | rewrite run_read_old by (first [assumption | eapply valid_lookup; eassumption])
    | rewrite run_lift
    | rewrite run_raise ].

Ltac run_start := rewrite <- run_ret_r.

Ltac run := repeat run_step.

Section OverviewPage.

Variable lib : Plots.
Variables (a : addr) (df : DataFrame) (s : state).
Variables (hs : list DataFrame) (o : list element).
Hypothesis Hdf : heap s !! a = Some df.

Lemma overview_with_score (scores : Series) :
  getitem df "math_score" = Ok scores ->
  plot_outcome lib (Histplot scores 30 true benchmarks) = None ->
  overview lib (PFrame a) (ext s hs o)
  = (ext s hs
       (o ++ [st_title "Mathematics Performance Overview";
              st_metric "Number of Students" (FmtThousands (len df));
              st_metric "Average Math Score" (FmtFixed1 (mean scores));
              st_metric "Median Math Score" (FmtFixed1 (median scores));
              st_subheader "Distribution of Math Scores";
              st_pyplot
                {| fig_title := "Distribution of Mathematics Scores with TIMSS Benchmarks";
                   fig_plot := Histplot scores 30 true benchmarks |};
              st_markdown benchmark_text]),
     Ok tt).
Proof.
  pose proof (Hdf : lookup_val s (PFrame a) = Some df) as Hlk.
  intros Hscores Hplot. run_start. unfold overview, py_len, py_getitem, show_plot.
  run. rewrite Hlk. run. rewrite Hlk. run. rewrite Hscores.
  run. rewrite Hlk. run. rewrite Hscores. run. rewrite Hlk. run.
  rewrite Hscores. run. rewrite Hplot. run.
  unfold mret, M_ret. rewrite <- !app_assoc. reflexivity.
Qed.

Lemma overview_without_score :
  mem "math_score" (columns df) = false ->
  overview lib (PFrame a) (ext s hs o)
  = (ext s hs
       (o ++ [st_title "Mathematics Performance Overview";
              st_metric "Number of Students" (FmtThousands (len df))]),
     Raise (KeyError "math_score")).
Proof.
  pose proof (Hdf : lookup_val s (PFrame a) = Some df) as Hlk.
  intros Hno. run_start. unfold overview, py_len, py_getitem.
  run. rewrite Hlk. run. rewrite Hlk. run. unfold getitem. rewrite Hno.
  rewrite <- !app_assoc. reflexivity.
Qed.

End OverviewPage.

Lemma at_ext {A} (m : M A) (s : state) (x : state * result A) :
  m (ext s [] []) = x -> m s = x.
Proof. now rewrite ext_nil_nil. Qed.

Ltac run_done := rewrite ?ext_nil; cbn [app]; try reflexivity.

Section Fallbacks.

Context {B : Type}.
Variable lib : Plots.
Variables (a : addr) (df : DataFrame) (s : state) (k : unit -> M B).
Hypothesis Hdf : heap s !! a = Some df.

Lemma gender_fallback :
  mem "BSBG01" (columns df) = false ->
  mem "ITSEX" (columns df) = false ->
  (gender_section lib (PFrame a) ≫= k) s
  = k tt (shown s [st_subheader "Gender and Mathematics Performance";
                   st_warning gender_warning]).
Proof.
  pose proof (Hdf : lookup_val s (PFrame a) = Some df) as Hlk.
  intros H1 H2. apply at_ext. unfold gender_section, py_columns.
  run. rewrite Hlk. run. rewrite Hlk. run. cbv zeta. rewrite H1, H2.
  run. run_done.
Qed.

Lemma books_fallback :
  mem "BSBG04" (columns df) = false ->
  (books_section lib (PFrame a) ≫= k) s
  = k tt (shown s [st_subheader "Home Educational Resources";
                   st_warning books_warning]).
Proof.
  pose proof (Hdf : lookup_val s (PFrame a) = Some df) as Hlk.
  intros H1. apply at_ext. unfold books_section, py_columns.
  run. rewrite Hlk. run. cbv zeta. rewrite H1. run. run_done.
Qed.

Lemma attitude_fallback (var label : string) :
  mem var (columns df) = false ->
  (attitude_step lib (PFrame a) (var, label) ≫= k) s
  = k tt (shown s [st_warning (attitude_warning label)]).
Proof.
  pose proof (Hdf : lookup_val s (PFrame a) = Some df) as Hlk.
  intros H1. apply at_ext. unfold attitude_step, py_columns.
  run. rewrite Hlk. run. rewrite H1. run. run_done.
Qed.

Lemma counts_fallback (c : counts_spec) :
  mem (cs_var c) (columns df) = false ->
  (counts_chart lib (PFrame a) c ≫= k) s
  = k tt (shown s [st_warning (cs_warning c)]).
Proof.
  pose proof (Hdf : lookup_val s (PFrame a) = Some df) as Hlk.
  intros H1. apply at_ext. unfold counts_chart, py_columns.
  run. rewrite Hlk. run. cbv zeta. rewrite H1. run. run_done.
Qed.

End Fallbacks.

(** ** Missing columns *)

Section MissingColumns.

Variable lib : Plots.
Variables (a : addr) (df : DataFrame) (s : state).
Hypothesis Hdf : heap s !! a = Some df.

(** C7: a section whose variable is not a column of the page's table
    (for the gender section: neither [BSBG01] nor its alternate [ITSEX])
    shows its warning and nothing else, raises nothing and leaves the
    store alone; whatever follows it on the page, [k], runs next from
    that state.  This holds for the gender, books and attitude sections
    of the student page and for every count chart of the teacher and
    school pages. *)
Theorem C7_missing_variable_fallback {B} (k : unit -> M B) :
  (mem "BSBG01" (columns df) = false ->
   mem "ITSEX" (columns df) = false ->
   (gender_section lib (PFrame a) ≫= k) s
   = k tt (shown s [st_subheader "Gender and Mathematics Performance";
                    st_warning "Gender variable not found in the dataset"]))
  /\ (mem "BSBG04" (columns df) = false ->
      (books_section lib (PFrame a) ≫= k) s
      = k tt (shown s [st_subheader "Home Educational Resources";
                       st_warning "Books at home variable not found in the dataset"]))
  /\ (forall var label,
        In (var, label) attitude_vars ->
        mem var (columns df) = false ->
        (attitude_step lib (PFrame a) (var, label) ≫= k) s
        = k tt (shown s [st_warning (label ++ " variable not found in the dataset")]))
  /\ (forall c,
        In c [teacher_exp; teacher_edu; school_loc; school_econ; school_emphasis] ->
        mem (cs_var c) (columns df) = false ->
        (counts_chart lib (PFrame a) c ≫= k) s
        = k tt (shown s [st_warning (cs_warning c)])).
Proof.
  split; [| split; [| split]].
  - now apply gender_fallback.
  - now apply books_fallback.
  - intros var label _. now apply attitude_fallback.
  - intros c _. now apply counts_fallback.
Qed.

(** With none of its variables in the table, a page is rendered to its
    end, one warning per chart. *)
Lemma student_factors_all_missing :
  Forall (fun c => mem c (columns df) = false)
         ["BSBG01"; "ITSEX"; "BSBG04"; "BSBGSLM"; "BSBGSCM"] ->
  student_factors lib (PFrame a) s
  = (shown s [st_title "Student Background and Attitudes";
              st_subheader "Gender and Mathematics Performance";
              st_warning gender_warning;
              st_subheader "Home Educational Resources";
              st_warning books_warning;
              st_subheader "Student Attitudes Toward Mathematics";
              st_warning "Student Likes Mathematics variable not found in the dataset";
              st_warning "Student Confident in Mathematics variable not found in the dataset"],
     Ok tt).
Proof.
  pose proof (Hdf : lookup_val s (PFrame a) = Some df) as Hlk.
  intros H. repeat (apply Forall_cons_iff in H; destruct H as [? H]).
  apply at_ext. rewrite <- run_ret_r.
  unfold student_factors, attitude_section, attitude_vars, for_each,
    gender_section, books_section, attitude_step, py_columns.
  repeat first
    [ run_step | rewrite Hlk | progress cbv zeta
    | match goal with E : mem _ _ = false |- _ => rewrite E end ].
  run_done.
Qed.

Lemma teacher_factors_all_missing :
  mem "BTBG01" (columns df) = false ->
  mem "BTBG04" (columns df) = false ->
  teacher_factors lib (PFrame a) s
  = (shown s [st_title "Teacher and Instruction Factors";
              st_subheader "Teacher Demographics";
              st_write ("Number of teachers: " ++ str_of_nat (len df));
              st_warning "Teacher experience variable not found in the dataset";
              st_subheader "Teacher Preparation and Professional Development";
              st_warning "Teacher education variable not found in the dataset"],
     Ok tt).
Proof.
  pose proof (Hdf : lookup_val s (PFrame a) = Some df) as Hlk.
  intros H1 H2. apply at_ext. rewrite <- run_ret_r.
  unfold teacher_factors, counts_chart, py_columns, py_len.
  repeat first [ run_step | rewrite Hlk | progress cbv zeta ].
  simpl cs_var. rewrite H1.
  repeat first [ run_step | rewrite Hlk | progress cbv zeta ].
  simpl cs_var. rewrite H2.
  repeat first [ run_step | rewrite Hlk | progress cbv zeta ].
  run_done.
Qed.

Lemma school_context_all_missing :
  mem "BCBG05A" (columns df) = false ->
  mem "BCBG03A" (columns df) = false ->
  mem "BCBGEAS" (columns df) = false ->
  school_context lib (PFrame a) s
  = (shown s [st_title "School Context Factors";
              st_subheader "School Demographics";
              st_write ("Number of schools: " ++ str_of_nat (len df));
              st_warning "School location variable not found in the dataset";
              st_subheader "School Composition and Climate";
              st_warning "Economic disadvantage variable not found in the dataset";
              st_warning "School emphasis variable not found in the dataset"],
     Ok tt).
Proof.
  pose proof (Hdf : lookup_val s (PFrame a) = Some df) as Hlk.
  intros H1 H2 H3. apply at_ext. rewrite <- run_ret_r.
  unfold school_context, counts_chart, py_columns, py_len.
  repeat first [ run_step | rewrite Hlk | progress cbv zeta ].
  simpl cs_var. rewrite H1.
  repeat first [ run_step | rewrite Hlk | progress cbv zeta ].
  simpl cs_var. rewrite H2.
  repeat first [ run_step | rewrite Hlk | progress cbv zeta ].
  simpl cs_var. rewrite H3.
  repeat first [ run_step | rewrite Hlk | progress cbv zeta ].
  run_done.
Qed.

(** C8: on a table without rows that has a [math_score] column the
    overview shows a count of zero, NaN for the mean and for the median,
    an empty histogram and the benchmark text, and ends without an
    exception. *)
Theorem C8_overview_empty_table :
  rows df = [] ->
  mem "math_score" (columns df) = true ->
  overview lib (PFrame a) s
  = (shown s [st_title "Mathematics Performance Overview";
              st_metric "Number of Students" (FmtThousands 0);
              st_metric "Average Math Score" (FmtFixed1 None);
              st_metric "Median Math Score" (FmtFixed1 None);
              st_subheader "Distribution of Math Scores";
              st_pyplot
                {| fig_title := "Distribution of Mathematics Scores with TIMSS Benchmarks";
                   fig_plot := Histplot [] 30 true benchmarks |};
              st_markdown benchmark_text],
     Ok tt).
Proof.
  intros Hrows Hcol. apply at_ext.
  rewrite (overview_with_score lib a df s [] [] Hdf []).
  - unfold len. rewrite Hrows. run_done.
  - unfold getitem. now rewrite Hcol, Hrows.
  - reflexivity.
Qed.

End MissingColumns.

(** ** Counts and groups *)

Section Partition.

Lemma number_mem_congr (x y : number) (l : list number) :
  Float64.eqb x y = true -> number_mem x l = number_mem y l.
Proof.
  intros H. unfold number_mem. induction l as [| z l IH]; simpl; [reflexivity |].
  now rewrite (eqb_congr x y z H), IH.
Qed.

Lemma number_mem_cons (x y : number) (l : list number) :
  number_mem x (y :: l) = Float64.eqb x y || number_mem x l.
Proof. reflexivity. Qed.

Lemma number_mem_In (x : number) (l : list number) : In x l -> number_mem x l = true.
Proof.
  intros H. unfold number_mem. apply existsb_exists. exists x. split; [assumption |].
  apply eqb_refl.
Qed.

Lemma filter_length_split {A} (f g h : A -> bool) (l : list A) :
  (forall a, h a = f a || g a) ->
  (forall a, f a && g a = false) ->
  length (List.filter f l) + length (List.filter g l) = length (List.filter h l).
Proof.
  intros Hh Hd. induction l as [| a l IH]; simpl; [reflexivity |].
  rewrite (Hh a). specialize (Hd a).
  destruct (f a), (g a); simpl in *; try discriminate; lia.
Qed.

Lemma filter_length_ext {A} (f g : A -> bool) (l : list A) :
  (forall a, In a l -> f a = g a) ->
  length (List.filter f l) = length (List.filter g l).
Proof.
  intros H. induction l as [| a l IH]; simpl; [reflexivity |].
  rewrite (H a (or_introl eq_refl)).
  assert (IH' : length (List.filter f l) = length (List.filter g l)).
  { apply IH. intros a' Ha'. apply H. now right. }
  destruct (g a); simpl; now rewrite IH'.
Qed.

Lemma filter_none_length {A} (f : A -> bool) (l : list A) :
  (forall a, In a l -> f a = false) -> length (List.filter f l) = 0.
Proof.
  intros H. apply (proj2 (filter_nil_iff f l)) in H. now rewrite H.
Qed.

Context {A : Type}.
Variables (key : A -> cell) (p : A -> bool) (l : list A).

(** The rows that pass [p] and carry one of the keys [ys], none of which is
    in [seen], fall into the groups of the distinct keys, each into one. *)
Lemma groups_partition (ys seen : list number) :
  list_sum
    (map (fun x => length (List.filter
                             (fun a => p a && cell_eqb (key a) (Some x)) l))
         (distinct_from seen ys))
  = length (List.filter
              (fun a => p a && match key a with
                               | Some z => number_mem z ys && negb (number_mem z seen)
                               | None => false
                               end) l).
Proof.
  revert seen. induction ys as [| y ys IH]; intros seen.
  - cbn [distinct_from map list_sum fold_right]. symmetry.
    apply filter_none_length.
    intros a _. destruct (key a); simpl; apply andb_false_r.
  - cbn [distinct_from]. destruct (number_mem y seen) eqn:Hy.
    + rewrite IH. apply filter_length_ext. intros a _.
      destruct (key a) as [z |]; [| reflexivity]. f_equal.
      rewrite number_mem_cons.
      destruct (Float64.eqb z y) eqn:Hzy; [| reflexivity].
      rewrite (number_mem_congr z y seen Hzy), Hy. simpl.
      now rewrite andb_false_r.
    + cbn [map list_sum fold_right]. rewrite IH.
      apply filter_length_split.
      * intros a. destruct (p a); cbn [andb orb]; [| reflexivity].
        destruct (key a) as [z |]; cbn [cell_eqb]; [| reflexivity].
        rewrite !number_mem_cons.
        destruct (Float64.eqb z y) eqn:Hzy; cbn [orb negb andb].
        -- now rewrite (number_mem_congr z y seen Hzy), Hy.
        -- reflexivity.
      * intros a. destruct (p a); cbn [andb]; [| reflexivity].
        destruct (key a) as [z |]; cbn [cell_eqb]; [| reflexivity].
        rewrite number_mem_cons.
        destruct (Float64.eqb z y); cbn [orb negb andb];
          [apply andb_false_r | reflexivity].
Qed.

Lemma groups_cover :
  list_sum
    (map (fun x => length (List.filter
                             (fun a => p a && cell_eqb (key a) (Some x)) l))
         (distinct (present (map key l))))
  = length (List.filter
              (fun a => p a && match key a with Some _ => true | None => false end)
              l).
Proof.
  unfold distinct. rewrite groups_partition. apply filter_length_ext.
  intros a Ha. destruct (key a) as [z |] eqn:Hz; [| reflexivity].
  f_equal. simpl. rewrite andb_true_r. apply number_mem_In, present_In.
  rewrite <- Hz. now apply in_map.
Qed.

End Partition.

Section CountLemmas.

Lemma sum_insert_sorted (f : number -> nat) (x : number) (l : list number) :
  list_sum (map f (insert_sorted x l)) = f x + list_sum (map f l).
Proof.
  induction l as [| y l IH]; simpl; [reflexivity |].
  destruct (Float64.leb x y); simpl; [reflexivity |]. rewrite IH. lia.
Qed.

Lemma sum_sort_values (f : number -> nat) (l : list number) :
  list_sum (map f (sort_values l)) = list_sum (map f l).
Proof.
  induction l as [| x l IH]; simpl; [reflexivity |].
  now rewrite sum_insert_sorted, IH.
Qed.

Lemma sum_insert_by_count (p : number * nat) (l : list (number * nat)) :
  list_sum (map snd (insert_by_count p l)) = snd p + list_sum (map snd l).
Proof.
  induction l as [| q0 l IH]; simpl; [reflexivity |].
  destruct (snd q0 <=? snd p)%nat; simpl; [reflexivity |]. rewrite IH. lia.
Qed.

Lemma length_present_map {A} (g : A -> cell) (l : list A) :
  length (present (map g l))
  = length (List.filter (fun a => match g a with Some _ => true | None => false end) l).
Proof.
  induction l as [| a l IH]; simpl; [reflexivity |].
  destruct (g a); simpl; now rewrite IH.
Qed.

Lemma filter_filter_length {A} (f g : A -> bool) (l : list A) :
  length (List.filter f (List.filter g l))
  = length (List.filter (fun a => f a && g a) l).
Proof.
  induction l as [| a l IH]; simpl; [reflexivity |].
  destruct (g a); simpl.
  - rewrite andb_true_r. destruct (f a); simpl; now rewrite IH.
  - now rewrite andb_false_r.
Qed.

Lemma filter_all_length {A} (f : A -> bool) (l : list A) :
  (forall a, f a = true) -> length (List.filter f l) = length l.
Proof.
  intros H. induction l as [| a l IH]; simpl; [reflexivity |].
  rewrite (H a). simpl. now rewrite IH.
Qed.

(** The counts of [value_counts] add up to the number of present
    values. *)
Lemma value_counts_total (s : Series) :
  list_sum (map snd (value_counts s)) = length (present s).
Proof.
  unfold value_counts. set (ys := present s).
  assert (Hfold : forall counted,
             list_sum (map snd (fold_right insert_by_count [] counted))
             = list_sum (map snd counted)).
  { induction counted as [| p0 counted IH]; simpl; [reflexivity |].
    now rewrite sum_insert_by_count, IH. }
  rewrite Hfold, map_map. cbn [snd].
  pose proof (groups_cover (A := number) Some (fun _ => true) ys) as H.
  rewrite present_map_Some in H.
  rewrite (map_ext (fun x => occurrences x ys)
             (fun x => length (List.filter
                                 (fun a => true && cell_eqb (Some a) (Some x)) ys))).
  - rewrite H. now apply filter_all_length.
  - intros x. unfold occurrences. apply filter_length_ext. intros a _.
    simpl. apply eqb_sym.
Qed.

End CountLemmas.


(** ** Pages on a table without [math_score] *)

Section WithoutScore.

Variable lib : Plots.
Variables (a : addr) (df : DataFrame) (s : state).
Hypothesis Hdf : heap s !! a = Some df.
Hypothesis Hno : mem "math_score" (columns df) = false.

Lemma dropna_present (c : string) :
  mem c (columns df) = true -> dropna df c = Ok (with_value df c).
Proof. intros H. unfold dropna. now rewrite H. Qed.

Lemma present_with_value (c : string) :
  length (present (map (fun r => row_get (columns df) r c) (rows (with_value df c))))
  = length (List.filter (has_value df c) (rows df)).
Proof.
  unfold with_value. cbn [rows]. rewrite length_present_map, filter_filter_length.
  apply filter_length_ext. intros r _. unfold has_value.
  now destruct (row_get (columns df) r c).
Qed.

Lemma existsb_filter_length {A} (p : A -> bool) (l : list A) :
  existsb p l = negb (length (List.filter p l) =? 0)%nat.
Proof.
  induction l as [| x l IH]; simpl; [reflexivity |].
  destruct (p x); simpl; [reflexivity | assumption].
Qed.

(** The pie of the gender section is drawn exactly when some row has a
    gender value. *)
Lemma gender_pie_outcome (c : string) :
  plot_outcome lib
    (Pie (value_counts (map (fun r => row_get (columns df) r c)
                            (rows (with_value df c)))))
  = if existsb (has_value df c) (rows df) then None
    else Some (ValueError (no_wedges lib)).
Proof.
  cbn [plot_outcome]. rewrite value_counts_total, present_with_value.
  rewrite existsb_filter_length.
  now destruct (length (List.filter (has_value df c) (rows df)) =? 0)%nat.
Qed.

Lemma gender_without_score (gender_var : string) :
  gender_var = (if mem "BSBG01" (columns df) then "BSBG01" else "ITSEX") ->
  mem gender_var (columns df) = true ->
  existsb (has_value df gender_var) (rows df) = true ->
  exists gender_data values,
    gender_section lib (PFrame a) s
    = (ext s [gender_data]
         [st_subheader "Gender and Mathematics Performance";
          st_pyplot {| fig_title := "Gender Distribution";
                       fig_plot := Pie (value_counts values) |}],
       Raise (uninterpretable lib "y" "math_score")).
Proof.
  pose proof (Hdf : lookup_val s (PFrame a) = Some df) as Hlk.
  intros Hvar Hin Hval. pose proof (dropna_present _ Hin) as Hdrop.
  assert (Hget : getitem (with_value df gender_var) gender_var
                 = Ok (map (fun r => row_get (columns df) r gender_var)
                           (rows (with_value df gender_var)))).
  { unfold getitem. simpl columns. now rewrite Hin. }
  assert (Hin' : mem gender_var (columns (with_value df gender_var)) = true) by exact Hin.
  assert (Hno' : mem "math_score" (columns (with_value df gender_var)) = false) by exact Hno.
  pose proof (gender_pie_outcome gender_var) as Hpie. rewrite Hval in Hpie.
  exists (with_value df gender_var). eexists.
  apply at_ext. rewrite <- run_ret_r.
  unfold gender_section, py_columns, py_dropna, py_getitem, py_xyplot, show_plot.
  run. rewrite Hlk. run. rewrite Hlk. run. cbv zeta. rewrite <- Hvar, Hin.
  run. rewrite Hlk. run. rewrite Hdrop. run. rewrite Hget. run.
  rewrite Hpie. run.
  rewrite Hin', Hno'. cbn [negb]. reflexivity.
Qed.

(** Without any gender value the pie fails first; this does not depend
    on the score column. *)
Lemma gender_without_value (gender_var : string) :
  gender_var = (if mem "BSBG01" (columns df) then "BSBG01" else "ITSEX") ->
  mem gender_var (columns df) = true ->
  existsb (has_value df gender_var) (rows df) = false ->
  exists gender_data,
    gender_section lib (PFrame a) s
    = (ext s [gender_data] [st_subheader "Gender and Mathematics Performance"],
       Raise (ValueError (no_wedges lib))).
Proof.
  pose proof (Hdf : lookup_val s (PFrame a) = Some df) as Hlk.
  intros Hvar Hin Hval. pose proof (dropna_present _ Hin) as Hdrop.
  assert (Hget : getitem (with_value df gender_var) gender_var
                 = Ok (map (fun r => row_get (columns df) r gender_var)
                           (rows (with_value df gender_var)))).
  { unfold getitem. simpl columns. now rewrite Hin. }
  pose proof (gender_pie_outcome gender_var) as Hpie. rewrite Hval in Hpie.
  exists (with_value df gender_var).
  apply at_ext. rewrite <- run_ret_r.
  unfold gender_section, py_columns, py_dropna, py_getitem, py_xyplot, show_plot.
  run. rewrite Hlk. run. rewrite Hlk. run. cbv zeta. rewrite <- Hvar, Hin.
  run. rewrite Hlk. run. rewrite Hdrop. run. rewrite Hget. run.
  rewrite Hpie. run. reflexivity.
Qed.

Lemma books_without_score :
  mem "BSBG04" (columns df) = true ->
  exists books_data,
    books_section lib (PFrame a) s
    = (ext s [books_data] [st_subheader "Home Educational Resources"],
       Raise (uninterpretable lib "y" "math_score")).
Proof.
  pose proof (Hdf : lookup_val s (PFrame a) = Some df) as Hlk.
  intros Hin. pose proof (dropna_present _ Hin) as Hdrop.
  assert (Hin' : mem "BSBG04" (columns (with_value df "BSBG04")) = true) by exact Hin.
  assert (Hno' : mem "math_score" (columns (with_value df "BSBG04")) = false) by exact Hno.
  exists (with_value df "BSBG04").
  apply at_ext. rewrite <- run_ret_r.
  unfold books_section, py_columns, py_dropna, py_xyplot.
  run. rewrite Hlk. run. cbv zeta. rewrite Hin. run. rewrite Hlk. run.
  rewrite Hin. cbn [negb andb String.eqb Ascii.eqb Bool.eqb].
  run. rewrite Hlk. run. rewrite Hdrop. run.
  rewrite Hin', Hno'. cbn [negb]. reflexivity.
Qed.

Lemma attitude_without_score (var label : string) :
  mem var (columns df) = true ->
  exists attitude_data,
    attitude_step lib (PFrame a) (var, label) s
    = (ext s [attitude_data] [], Raise (uninterpretable lib "y" "math_score")).
Proof.
  pose proof (Hdf : lookup_val s (PFrame a) = Some df) as Hlk.
  intros Hin. pose proof (dropna_present _ Hin) as Hdrop.
  assert (Hin' : mem var (columns (with_value df var)) = true) by exact Hin.
  assert (Hno' : mem "math_score" (columns (with_value df var)) = false) by exact Hno.
  exists (with_value df var).
  apply at_ext. rewrite <- run_ret_r.
  unfold attitude_step, py_columns, py_dropna, py_xyplot.
  run. rewrite Hlk. run. rewrite Hin. run. rewrite Hlk. run. rewrite Hdrop. run.
  rewrite Hin', Hno'. cbn [negb]. reflexivity.
Qed.

End WithoutScore.

(** ** The page routines are local to their table *)

Section Local.

Lemma ext_ext (s : state) hs1 o1 hs2 o2 :
  ext (ext s hs1 o1) hs2 o2 = ext s (hs1 ++ hs2) (o1 ++ o2).
Proof. unfold ext. simpl. now rewrite !app_assoc. Qed.

Lemma agree_ext (v : pyval) (s1 s2 : state) hs o :
  agree v s1 s2 -> agree v (ext s1 hs o) (ext s2 hs o).
Proof.
  intros (H1 & H2 & H). repeat split.
  - now apply valid_ext.
  - now apply valid_ext.
  - now rewrite !lookup_ext_old.
Qed.

Lemma local_bind (v : pyval) {A B} (m : M A) (k : A -> M B) :
  local_to v m -> (forall a, local_to v (k a)) -> local_to v (m ≫= k).
Proof.
  intros Hm Hk s1 s2 Hag.
  destruct (Hm s1 s2 Hag) as (hs & o & r & E1 & E2).
  rewrite !run_bind, E1, E2. destruct r as [a | e].
  - destruct (Hk a _ _ (agree_ext v s1 s2 hs o Hag)) as (hs' & o' & r' & E1' & E2').
    rewrite E1', E2', !ext_ext. now exists (hs ++ hs'), (o ++ o'), r'.
  - now exists hs, o, (Raise e).
Qed.

Lemma local_emit (v : pyval) (e : element) : local_to v (emit e).
Proof.
  intros s1 s2 _. exists [], [e], (Ok tt). unfold emit, ext.
  now rewrite !app_nil_r.
Qed.

Lemma local_ret (v : pyval) {A} (a : A) : local_to v (mret a).
Proof.
  intros s1 s2 _. exists [], [], (Ok a). now rewrite !ext_nil_nil.
Qed.

Lemma local_for_each (v : pyval) {A} (l : list A) (body : A -> M unit) :
  (forall x, local_to v (body x)) -> local_to v (for_each l body).
Proof.
  intros Hbody. induction l as [| x l IH]; simpl.
  - apply local_ret.
  - apply local_bind; [apply Hbody | intros _; apply IH].
Qed.

Lemma same_effect_start {A} (m : M A) (s1 s2 : state) :
  same_effect s1 s2 ((m ≫= mret) (ext s1 [] [])) ((m ≫= mret) (ext s2 [] [])) ->
  same_effect s1 s2 (m s1) (m s2).
Proof. now rewrite !run_ret_r, !ext_nil_nil. Qed.

Lemma same_effect_refl {A} (s1 s2 : state) hs o (r : result A) :
  same_effect s1 s2 (ext s1 hs o, r) (ext s2 hs o, r).
Proof. now exists hs, o, r. Qed.

End Local.

Ltac run_case :=
  match goal with
  | |- context [match ?r with Ok _ => _ | Raise _ => _ end] => destruct r eqn:?
  | |- context [if ?c then _ else _] => destruct c eqn:?
  | |- context [match ?x with Some _ => _ | None => _ end] => destruct x eqn:?
  end.

Ltac run_both :=
  repeat first
    [ run_step
    | progress cbv beta iota zeta
    | match goal with H : lookup_val _ _ = _ |- _ => rewrite H end
    | run_case ].

Ltac local_leaf :=
  let Hv1 := fresh "Hv1" in
  let Hv2 := fresh "Hv2" in
  let Hlk := fresh "Hlk" in
  intros ? ? (Hv1 & Hv2 & Hlk); apply same_effect_start;
  run_both; try apply same_effect_refl.

Section LocalPages.

Variable lib : Plots.
Variable v : pyval.

Lemma local_overview : local_to v (overview lib v).
Proof.
  unfold overview, py_len, py_getitem, show_plot. local_leaf.
Qed.

Lemma local_py_len : local_to v (py_len v).
Proof. unfold py_len. local_leaf. Qed.

Lemma local_gender_section : local_to v (gender_section lib v).
Proof.
  unfold gender_section, py_columns, py_dropna, py_getitem, py_xyplot,
    py_groupby_agg, py_set_columns, show_plot.
  local_leaf.
Qed.

Lemma local_books_section : local_to v (books_section lib v).
Proof.
  unfold books_section, py_columns, py_dropna, py_xyplot,
    py_groupby_agg, py_set_columns, show_plot.
  local_leaf.
Qed.

Lemma local_attitude_step (item : string * string) :
  local_to v (attitude_step lib v item).
Proof.
  destruct item as [var label].
  unfold attitude_step, py_columns, py_dropna, py_xyplot, show_plot.
  local_leaf.
Qed.

Lemma local_counts_chart (c : counts_spec) : local_to v (counts_chart lib v c).
Proof.
  unfold counts_chart, py_columns, py_getitem, py_xyplot, py_set_columns,
    show_plot.
  local_leaf.
Qed.

Lemma local_student_factors : local_to v (student_factors lib v).
Proof.
  unfold student_factors, attitude_section.
  repeat first
    [ apply local_emit
    | apply local_gender_section
    | apply local_books_section
    | apply local_for_each; intros ?; apply local_attitude_step
    | apply local_bind; [| intros ?] ].
Qed.

Lemma local_teacher_factors : local_to v (teacher_factors lib v).
Proof.
  unfold teacher_factors.
  repeat first
    [ apply local_emit
    | apply local_py_len
    | apply local_counts_chart
    | apply local_bind; [| intros ?] ].
Qed.

Lemma local_school_context : local_to v (school_context lib v).
Proof.
  unfold school_context.
  repeat first
    [ apply local_emit
    | apply local_py_len
    | apply local_counts_chart
    | apply local_bind; [| intros ?] ].
Qed.

End LocalPages.

Section Frame.

Variable lib : Plots.

Lemma local_render (p : page) (t : tables) : local_to (table_of p t) (render lib p t).
Proof.
  destruct p; simpl.
  - apply local_overview.
  - apply local_student_factors.
  - apply local_teacher_factors.
  - apply local_school_context.
Qed.

(** C9: a page routine changes no object that exists when it starts, so
    the three loaded tables, and anything another routine may have left
    in the store, are after the render what they were before; all it does
    is create objects of its own and show elements after those already
    shown.  What it creates, shows and returns is determined by the one
    table it reads: in any other state with the same table behind that
    variable it does the same. *)
Theorem C9_render_frame (p : page) (t : tables) (s : state) :
  valid s (table_of p t) ->
  exists hs es r,
    render lib p t s = (ext s hs es, r)
    /\ (forall a, a < length (heap s) -> heap (ext s hs es) !! a = heap s !! a)
    /\ (forall v, valid s v -> lookup_val (ext s hs es) v = lookup_val s v)
    /\ forall s', valid s' (table_of p t) ->
         lookup_val s' (table_of p t) = lookup_val s (table_of p t) ->
         render lib p t s' = (ext s' hs es, r).
Proof.
  intros Hv.
  destruct (local_render p t s s) as (hs & es & r & E & _).
  { repeat split; assumption. }
  exists hs, es, r. split; [exact E |]. split; [| split].
  - intros a Ha. simpl. now apply lookup_app_l.
  - intros v0 Hv0. now apply lookup_ext_old.
  - intros s' Hv' Hlk.
    destruct (local_render p t s s') as (hs' & es' & r' & E1 & E2).
    { repeat split; try assumption. now symmetry. }
    rewrite E in E1. injection E1 as Eh Eo ->.
    apply app_inv_head in Eh, Eo. now subst.
Qed.

End Frame.


(** ** The processed CSV and the composite score *)

Section ProcessedCsv.

(** C10: when the processed CSV exists, the student table is the table
    read from it, as it is: the composite score is not computed.  If that
    table has no [math_score] column, the overview raises [KeyError] at
    its first access to it, after the title and the student count; and
    each section of the student page whose variable is present raises at
    its plot of [math_score], after the elements it has shown before.
    Nowhere is a warning shown in place of the access.  The gender section
    reaches that plot after its pie; when no row has a gender value the
    pie fails first, and the section ends there. *)
Theorem C10_csv_needs_math_score (lib : Plots) (fs : FS) (csv : DataFrame)
    (s0 : state) :
  path_exists fs student_csv = true ->
  read_csv fs student_csv = Ok csv ->
  mem "math_score" (columns csv) = false ->
  load_student fs s0 = (ext s0 [csv] [], Ok (PFrame (length (heap s0))))
  /\ forall s a,
       heap s !! a = Some csv ->
       overview lib (PFrame a) s
       = (shown s [st_title "Mathematics Performance Overview";
                   st_metric "Number of Students" (FmtThousands (len csv))],
          Raise (KeyError "math_score"))
       /\ (forall gender_var,
             gender_var = (if mem "BSBG01" (columns csv) then "BSBG01" else "ITSEX") ->
             mem gender_var (columns csv) = true ->
             (existsb (has_value csv gender_var) (rows csv) = true ->
              exists gender_data values,
                gender_section lib (PFrame a) s
                = (ext s [gender_data]
                     [st_subheader "Gender and Mathematics Performance";
                      st_pyplot {| fig_title := "Gender Distribution";
                                   fig_plot := Pie (value_counts values) |}],
                   Raise (uninterpretable lib "y" "math_score")))
             /\ (existsb (has_value csv gender_var) (rows csv) = false ->
                 exists gender_data,
                   gender_section lib (PFrame a) s
                   = (ext s [gender_data]
                        [st_subheader "Gender and Mathematics Performance"],
                      Raise (ValueError (no_wedges lib)))))
       /\ (mem "BSBG04" (columns csv) = true ->
           exists books_data,
             books_section lib (PFrame a) s
             = (ext s [books_data] [st_subheader "Home Educational Resources"],
                Raise (uninterpretable lib "y" "math_score")))
       /\ (forall var label,
             In (var, label) attitude_vars ->
             mem var (columns csv) = true ->
             exists attitude_data,
               attitude_step lib (PFrame a) (var, label) s
               = (ext s [attitude_data] [],
                  Raise (uninterpretable lib "y" "math_score"))).
Proof.
  intros Hexists Hread Hno. split.
  - unfold load_student. rewrite Hexists.
    rewrite load_data_csv by reflexivity. now rewrite Hread.
  - intros s a Hdf. split; [| split; [| split]].
    + apply at_ext. rewrite (overview_without_score lib a csv s [] [] Hdf Hno).
      run_done.
    + intros gender_var Hvar Hin. split; intros Hval.
      * now apply (gender_without_score lib a csv s Hdf Hno gender_var).
      * now apply (gender_without_value lib a csv s Hdf gender_var).
    + now apply books_without_score.
    + intros var label _. now apply attitude_without_score.
Qed.

End ProcessedCsv.

(** ** The tables handed to the pages *)

Section LoadedTables.

Variable fs : FS.

Lemma load_data_valid (p : string) (s s' : state) (v : pyval) :
  load_data fs p s = (s', Ok v) ->
  valid s' v /\ length (heap s) <= length (heap s').
Proof.
  destruct (load_data_total fs p s) as [[df E] | [msg E]]; rewrite E;
    intros [= <- <-]; simpl; rewrite ?length_app; simpl; split; trivial; lia.
Qed.

Lemma load_student_valid (s s' : state) (v : pyval) :
  load_student fs s = (s', Ok v) ->
  valid s' v /\ length (heap s) <= length (heap s').
Proof.
  unfold load_student. destruct (path_exists fs student_csv).
  - apply load_data_valid.
  - rewrite run_bind. unfold emit.
    set (s1 := {| heap := heap s; out := out s ++ _ |}).
    rewrite run_bind.
    destruct (load_data fs ach_sav s1) as [s2 [v1 | e1]] eqn:E1; [| discriminate].
    rewrite run_bind.
    destruct (load_data fs bg_sav s2) as [s3 [v2 | e2]] eqn:E2; [| discriminate].
    apply load_data_valid in E1, E2. destruct E1 as [_ L1], E2 as [_ L2].
    rewrite run_bind, read_lookup.
    destruct (lookup_val s3 v1); [| discriminate].
    rewrite run_bind, read_lookup.
    destruct (lookup_val s3 v2); [| discriminate].
    rewrite run_lift.
    destruct (raw_student_data _ _); [| discriminate].
    unfold alloc. intros [= <- <-]. simpl in *. rewrite length_app. simpl.
    split; lia.
Qed.

Lemma load_table_valid (csv sav : string) (s s' : state) (v : pyval) :
  load_table fs csv sav s = (s', Ok v) ->
  valid s' v /\ length (heap s) <= length (heap s').
Proof.
  unfold load_table. destruct (path_exists fs csv); apply load_data_valid.
Qed.

Lemma valid_mono (s s' : state) (v : pyval) :
  length (heap s) <= length (heap s') -> valid s v -> valid s' v.
Proof. destruct v; simpl; [trivial | lia]. Qed.

(** The three variables the pages read refer to objects of the store
    once the loading has ended. *)
Lemma load_tables_valid (s s' : state) (t : tables) :
  load_tables fs s = (s', Ok t) ->
  valid s' (student_data t) /\ valid s' (teacher_data t) /\ valid s' (school_data t).
Proof.
  unfold load_tables. rewrite run_bind.
  destruct (load_student fs s) as [s1 [v1 | e1]] eqn:E1; [| discriminate].
  rewrite run_bind.
  destruct (load_table fs teacher_csv teacher_sav s1) as [s2 [v2 | e2]] eqn:E2;
    [| discriminate].
  rewrite run_bind.
  destruct (load_table fs school_csv school_sav s2) as [s3 [v3 | e3]] eqn:E3;
    [| discriminate].
  intros [= <- <-]. simpl.
  apply load_student_valid in E1. apply load_table_valid in E2, E3.
  destruct E1 as [V1 L1], E2 as [V2 L2], E3 as [V3 L3].
  repeat split; [| | assumption].
  - apply (valid_mono s1); [lia | assumption].
  - apply (valid_mono s2); [lia | assumption].
Qed.

End LoadedTables.

(** ** The theorems at concrete tables *)

Section Instances.

Lemma C7_missing_variable_fallback_witness :
  (books_section plots_drawn (PFrame 0) ≫= mret) (store_of scenario_bg)
  = ({| heap := [scenario_bg];
        out := [st_subheader "Home Educational Resources";
                st_warning "Books at home variable not found in the dataset"] |},
     Ok tt).
Proof.
  destruct (C7_missing_variable_fallback plots_drawn 0 scenario_bg
              (store_of scenario_bg) eq_refl (B := unit) mret) as (_ & Hbooks & _).
  rewrite Hbooks; reflexivity.
Defined.

Lemma C8_overview_empty_table_witness :
  overview plots_drawn (PFrame 0) (store_of empty_scores)
  = ({| heap := [empty_scores];
        out := [st_title "Mathematics Performance Overview";
                st_metric "Number of Students" (FmtThousands 0);
                st_metric "Average Math Score" (FmtFixed1 None);
                st_metric "Median Math Score" (FmtFixed1 None);
                st_subheader "Distribution of Math Scores";
                st_pyplot
                  {| fig_title := "Distribution of Mathematics Scores with TIMSS Benchmarks";
                     fig_plot := Histplot [] 30 true benchmarks |};
                st_markdown benchmark_text] |},
     Ok tt).
Proof.
  apply (C8_overview_empty_table plots_drawn 0 empty_scores (store_of empty_scores));
    reflexivity.
Defined.

Lemma C9_render_frame_witness :
  exists hs es r,
    render plots_drawn StudentFactors
      {| student_data := PFrame 0; teacher_data := PNone; school_data := PNone |}
      (store_of scenario_bg_items)
    = (ext (store_of scenario_bg_items) hs es, r).
Proof.
  destruct (C9_render_frame plots_drawn StudentFactors
              {| student_data := PFrame 0; teacher_data := PNone;
                 school_data := PNone |}
              (store_of scenario_bg_items)) as (hs & es & r & E & _).
  - simpl. lia.
  - exists hs, es, r. exact E.
Defined.

Lemma C10_csv_needs_math_score_witness :
  load_student (only_student_csv scenario_bg) initial
  = ({| heap := [scenario_bg]; out := [] |}, Ok (PFrame 0))
  /\ overview plots_drawn (PFrame 0) (store_of scenario_bg)
     = ({| heap := [scenario_bg];
           out := [st_title "Mathematics Performance Overview";
                   st_metric "Number of Students" (FmtThousands 2)] |},
        Raise (KeyError "math_score"))
  /\ exists gender_data values,
       gender_section plots_drawn (PFrame 0) (store_of scenario_bg)
       = (ext (store_of scenario_bg) [gender_data]
            [st_subheader "Gender and Mathematics Performance";
             st_pyplot {| fig_title := "Gender Distribution";
                          fig_plot := Pie (value_counts values) |}],
          Raise (uninterpretable plots_drawn "y" "math_score")).
Proof.
  destruct (C10_csv_needs_math_score plots_drawn (only_student_csv scenario_bg)
              scenario_bg initial eq_refl eq_refl eq_refl) as [Hload Hpages].
  split; [exact Hload |].
  destruct (Hpages (store_of scenario_bg) 0 eq_refl) as (Hoverview & Hgender & _).
  split; [exact Hoverview |].
  destruct (Hgender "BSBG01" eq_refl eq_refl) as [Hpie _].
  exact (Hpie eq_refl).
Defined.

End Instances.

(** * Further properties *)

(** ** The loader on the paths it is not called with *)

Section LoaderPaths.

Variable fs : FS.

Lemma replace_absent (s old new : string) :
  contains s old = false -> replace s old new = s.
Proof.
  unfold replace. induction s as [| c s IH]; [reflexivity |].
  cbn [contains replace_from]. intros H.
  apply orb_false_elim in H. destruct H as [Hp Hc].
  rewrite Hp. f_equal. now apply IH.
Qed.

Lemma substring_contains (p : string) (k : nat) (s : string) :
  String.substring k (String.length p) s = p -> contains s p = true.
Proof.
  revert s. induction k as [| k IH]; intros s H.
  - apply String.prefix_correct in H. destruct s; cbn [contains]; now rewrite H.
  - destruct s as [| c s].
    + destruct p; [reflexivity |].
      cbn [String.length String.substring] in H. discriminate.
    + cbn [String.substring] in H. cbn [contains].
      rewrite (IH s H). apply orb_true_r.
Qed.

Lemma endswith_contains (s p : string) :
  endswith s p = true -> contains s p = true.
Proof.
  unfold endswith. intros H. apply andb_true_iff in H. destruct H as [_ H].
  apply String.eqb_eq in H. now apply substring_contains in H.
Qed.

(** X1: for a path that ends in [.csv], only the CSV reader is consulted.
    When it fails, [load_data] reports the error and returns [None], also
    when the [.sav] file of the same name exists and could be read: the
    fallback its docstring announces is not taken. *)
Theorem X1_csv_path_has_no_fallback (file_path : string) (e : exn) (s : state) :
  endswith file_path ".csv" = true ->
  read_csv fs file_path = Raise e ->
  load_data fs file_path s
  = (shown s [st_error ("Error loading data: " ++ str_of_exn e)], Ok PNone).
Proof.
  intros Hcsv Hread. rewrite load_data_csv by assumption. now rewrite Hread.
Qed.

(** X2: for a path in which [.csv] does not occur, [load_data] looks for
    that very file; it reads it with the SPSS reader when it exists, and
    otherwise reports the requested path as not found and returns
    [None]. *)
Theorem X2_sav_path_is_read_as_given (file_path : string) (s : state) :
  contains file_path ".csv" = false ->
  load_data fs file_path s =
    if path_exists fs file_path
    then loaded s (import_pyreadstat fs ;; read_sav fs file_path)
    else (shown s [st_error ("File not found: " ++ file_path)], Ok PNone).
Proof.
  intros H. apply load_data_sav.
  - destruct (endswith file_path ".csv") eqn:He; [| reflexivity].
    apply endswith_contains in He. congruence.
  - now apply replace_absent.
Qed.

End LoaderPaths.

Lemma X1_csv_path_has_no_fallback_witness :
  path_exists (sav_beside_csv scenario_bg) "../data/teacher_data.sav" = true
  /\ load_data (sav_beside_csv scenario_bg) "../data/teacher_data.csv" initial
     = ({| heap := [];
           out := [st_error "Error loading data: ../data/teacher_data.csv"] |},
        Ok PNone).
Proof.
  split; [reflexivity |].
  rewrite (X1_csv_path_has_no_fallback (sav_beside_csv scenario_bg)
             "../data/teacher_data.csv"
             (FileNotFoundError "../data/teacher_data.csv") initial);
    reflexivity.
Defined.

Lemma X2_sav_path_is_read_as_given_witness :
  load_data no_files "../orig/SPSS/btmirlm8.sav" initial
  = ({| heap := []; out := [st_error "File not found: ../orig/SPSS/btmirlm8.sav"] |},
     Ok PNone).
Proof.
  rewrite (X2_sav_path_is_read_as_given no_files "../orig/SPSS/btmirlm8.sav" initial);
    reflexivity.
Defined.

(** ** The raw-data path without its files *)

Section RawFilesMissing.

Variable fs : FS.

Lemma raw_file_loaded (sav : string) (s : state) :
  In sav raw_files ->
  load_data fs sav s =
    if path_exists fs sav
    then loaded s (import_pyreadstat fs ;; read_sav fs sav)
    else not_found s sav.
Proof.
  intros Hin. apply load_data_sav;
    destruct Hin as [<- | [<- | [<- | [<- | []]]]]; reflexivity.
Qed.

(** X3: when the processed CSV is absent and one of the two raw student
    files is absent too, the loader's [None] reaches line 46 unguarded:
    after the sidebar warning and the loader's error message the script
    ends with [AttributeError] on [.columns]. *)
Theorem X3_missing_raw_file_raises (s : state) :
  path_exists fs student_csv = false ->
  path_exists fs ach_sav = false \/ path_exists fs bg_sav = false ->
  exists s',
    load_student fs s = (s', Raise (no_attribute "columns"))
    /\ In (sidebar_warning "Processed data not found, loading raw data...") (out s')
    /\ exists sav, In sav [ach_sav; bg_sav]
                   /\ In (st_error ("File not found: " ++ sav)) (out s').
Proof.
  intros Hcsv Hraw. unfold load_student. rewrite Hcsv.
  rewrite run_bind. unfold emit.
  set (s1 := {| heap := heap s; out := out s ++ _ |}).
  rewrite run_bind, (raw_file_loaded ach_sav s1) by (simpl; tauto).
  destruct (path_exists fs ach_sav) eqn:Hach.
  - destruct Hraw as [Hraw | Hbg]; [discriminate |].
    destruct (import_pyreadstat fs ;; read_sav fs ach_sav) as [ach | e]; cbn [loaded].
    + rewrite run_bind, (raw_file_loaded bg_sav) by (simpl; tauto).
      rewrite Hbg. unfold not_found. rewrite run_bind, read_lookup.
      cbn [lookup_val shown ext heap].
      rewrite list_lookup_middle by reflexivity.
      rewrite run_bind, read_lookup. cbn [lookup_val].
      eexists. split; [reflexivity |]. cbn [out shown ext s1]. split.
      * rewrite !in_app_iff. simpl. tauto.
      * exists bg_sav. split; [simpl; tauto |].
        rewrite !in_app_iff. simpl. tauto.
    + rewrite run_bind, (raw_file_loaded bg_sav) by (simpl; tauto).
      rewrite Hbg. unfold not_found. rewrite run_bind, read_lookup.
      cbn [lookup_val].
      eexists. split; [reflexivity |]. cbn [out shown s1]. split.
      * rewrite !in_app_iff. simpl. tauto.
      * exists bg_sav. split; [simpl; tauto |].
        rewrite !in_app_iff. simpl. tauto.
  - unfold not_found. rewrite run_bind.
    destruct (load_data_total fs bg_sav (shown s1 [st_error ("File not found: " ++ ach_sav)]))
      as [[df E] | [msg E]]; rewrite E.
    + rewrite run_bind, read_lookup. cbn [lookup_val].
      eexists. split; [reflexivity |]. cbn [out shown ext s1]. split.
      * rewrite !in_app_iff. simpl. tauto.
      * exists ach_sav. split; [simpl; tauto |].
        rewrite !in_app_iff. simpl. tauto.
    + rewrite run_bind, read_lookup. cbn [lookup_val].
      eexists. split; [reflexivity |]. cbn [out shown s1]. split.
      * rewrite !in_app_iff. simpl. tauto.
      * exists ach_sav. split; [simpl; tauto |].
        rewrite !in_app_iff. simpl. tauto.
Qed.

End RawFilesMissing.

Lemma X3_missing_raw_file_raises_witness :
  exists s', load_student no_files initial = (s', Raise (no_attribute "columns")).
Proof.
  destruct (X3_missing_raw_file_raises no_files initial) as (s' & H & _).
  - reflexivity.
  - left. reflexivity.
  - exists s'. exact H.
Defined.

(** ** More on the merge *)

Section MergeMore.

Lemma merge_inv (l r : DataFrame) (on : list string) sfx (m : DataFrame) :
  merge l r on sfx = Ok m ->
  m = {| columns := merged_columns l r on sfx;
         rows :=
           flat_map
             (fun lr =>
                map (fun rr => lr ++ non_key_cells (columns r) on rr)
                    (List.filter (keys_match (columns l) (columns r) on lr) (rows r)))
             (rows l) |}.
Proof.
  unfold merge. destruct on as [| k on']; [discriminate |].
  destruct (List.filter _ (k :: on')); [| discriminate].
  destruct (clashes l r (k :: on') sfx); [| discriminate].
  now intros [= <-].
Qed.

Lemma singleton_filter {A} (p : A -> bool) (l : list A) (x : A) :
  length (List.filter p l) <= 1 -> In x l -> p x = true -> List.filter p l = [x].
Proof.
  intros Hle Hin Hp.
  assert (Hx : In x (List.filter p l)) by (apply filter_In; now split).
  destruct (List.filter p l) as [| y [| z t]]; simpl in *; try lia; try tauto.
  destruct Hx as [-> | []]. reflexivity.
Qed.

Lemma one_row_each {A B} (F : A -> list B) (g : A -> B -> A) (L : list A)
    (cut : A -> A) :
  (forall a, In a L -> exists b, F a = [b] /\ cut (g a b) = a) ->
  length (flat_map (fun a => map (g a) (F a)) L) = length L
  /\ map cut (flat_map (fun a => map (g a) (F a)) L) = L.
Proof.
  induction L as [| a L IH]; intros H; [split; reflexivity |].
  destruct (H a (or_introl eq_refl)) as (b & Hb & Hcut).
  destruct IH as [IH1 IH2]; [intros a' Ha'; apply H; now right |].
  simpl. rewrite Hb. simpl. rewrite IH1, IH2, Hcut. split; reflexivity.
Qed.

(** X4: when every achievement row has a background row with the same
    key and no two background rows share a key, the merge neither drops
    nor repeats a student: it has one row per achievement row, in the same
    order, and each begins with the cells of its achievement row. *)
Theorem X4_one_to_one_merge_keeps_rows (ach bg : DataFrame) (on : list string)
    (sfx : string * string) (m : DataFrame) :
  wf ach ->
  merge ach bg on sfx = Ok m ->
  unique_keys (columns bg) on (rows bg) ->
  (forall la, In la (rows ach) ->
     exists rb, In rb (rows bg)
                /\ keys_match (columns ach) (columns bg) on la rb = true) ->
  len m = len ach
  /\ map (firstn (length (columns ach))) (rows m) = rows ach.
Proof.
  intros Hwf Hm Huniq Hall. apply merge_inv in Hm. subst m. unfold len. simpl.
  apply one_row_each.
  intros la Hla. destruct (Hall la Hla) as (rb & Hrb & Hmatch).
  exists rb. split.
  - apply singleton_filter; try assumption.
    apply (unique_at_most_one _ _ _ _ Huniq). intros r1 r2.
    apply keys_match_common_right.
  - unfold wf in Hwf. rewrite List.Forall_forall in Hwf.
    rewrite <- (Hwf la Hla). rewrite firstn_app, Nat.sub_diag, firstn_all.
    simpl. apply app_nil_r.
Qed.

Lemma X4_one_to_one_merge_keeps_rows_witness :
  exists m,
    merge scenario_ach scenario_bg_items ["ID1"] ("_ach", "_bg") = Ok m
    /\ len m = 2
    /\ map (firstn 3) (rows m) = rows scenario_ach.
Proof.
  eexists. split; [vm_compute; reflexivity |].
  apply (X4_one_to_one_merge_keeps_rows scenario_ach scenario_bg_items
           ["ID1"] ("_ach", "_bg")).
  - repeat constructor.
  - vm_compute. reflexivity.
  - simpl. repeat split; repeat constructor.
  - intros la [<- | [<- | []]].
    + exists [q 1; q 1; q 500; q 520]. split; [simpl; tauto | reflexivity].
    + exists [q 2; q 2; q 600; q 580]. split; [simpl; tauto | reflexivity].
Defined.

(** X5: line 46 lists the shared columns in the order of a Python set,
    which is not fixed; in whatever order the shared identifier columns
    reach [pd.merge], the merged table, or the exception, is the same. *)
Theorem X5_key_order_is_irrelevant (ach bg : DataFrame) (on : list string) :
  Permutation on (id_cols ach bg) ->
  merge ach bg on ("_ach", "_bg")
  = merge ach bg (id_cols ach bg) ("_ach", "_bg").
Proof.
  intros Hperm. symmetry. apply merge_key_order.
  - now apply Permutation_sym.
  - intros k Hk. apply id_cols_In in Hk. tauto.
Qed.

Lemma X5_key_order_is_irrelevant_witness :
  id_cols two_id_ach two_id_bg = ["IDSCHOOL"; "IDSTUD"]
  /\ merge two_id_ach two_id_bg ["IDSTUD"; "IDSCHOOL"] ("_ach", "_bg")
     = merge two_id_ach two_id_bg ["IDSCHOOL"; "IDSTUD"] ("_ach", "_bg").
Proof.
  split; [reflexivity |].
  apply (X5_key_order_is_irrelevant two_id_ach two_id_bg ["IDSTUD"; "IDSCHOOL"]).
  apply perm_swap.
Defined.

End MergeMore.

(** ** The student table the raw-data path returns *)

Section RawResult.

Lemma set_nth_length (i : nat) (x : cell) (r : list cell) :
  length (set_nth i x r) = length r.
Proof.
  revert r. induction i as [| i IH]; intros [| y r]; simpl; try reflexivity.
  now rewrite IH.
Qed.

Lemma nth_set_nth_ne (i j : nat) (x : cell) (r : list cell) :
  i <> j -> nth j (set_nth i x r) None = nth j r None.
Proof.
  revert j r. induction i as [| i IH]; intros [| j] [| y r] Hne; simpl;
    try reflexivity; try congruence.
  apply IH. congruence.
Qed.

Lemma index_of_same_position (c c' : string) (cols : list string) (i : nat) :
  index_of c cols = Some i -> index_of c' cols = Some i -> c = c'.
Proof.
  revert i. induction cols as [| c0 cols IH]; simpl; intros i H H';
    [discriminate |].
  destruct (String.eqb c c0) eqn:E, (String.eqb c' c0) eqn:E'.
  - apply String.eqb_eq in E, E'. congruence.
  - destruct (index_of c' cols); simpl in H'; congruence.
  - destruct (index_of c cols); simpl in H; congruence.
  - destruct (index_of c cols) as [j |], (index_of c' cols) as [j' |];
      simpl in *; try discriminate.
    apply (IH j); congruence.
Qed.

Lemma map_combine_rows {A B C} (f : A -> B -> C) (l : list A) (s : list B) :
  length s = length l ->
  length (map (fun rx => f (fst rx) (snd rx)) (combine l s)) = length l.
Proof. intros H. rewrite length_map, length_combine. lia. Qed.

Lemma setitem_len (df : DataFrame) (c : string) (s : Series) :
  length s = len df -> len (setitem df c s) = len df.
Proof.
  unfold len, setitem. intros H.
  destruct (index_of c (columns df)); simpl;
    rewrite length_map, length_combine; lia.
Qed.

Lemma setitem_wf (df : DataFrame) (c : string) (s : Series) :
  wf df -> wf (setitem df c s).
Proof.
  unfold wf, setitem. intros Hwf.
  destruct (index_of c (columns df)) as [i |]; simpl.
  - apply List.Forall_forall. intros r Hr. apply in_map_iff in Hr.
    destruct Hr as ([r0 x] & <- & Hin). apply in_combine_l in Hin.
    rewrite List.Forall_forall in Hwf. simpl.
    now rewrite set_nth_length, (Hwf r0 Hin).
  - apply List.Forall_forall. intros r Hr. apply in_map_iff in Hr.
    destruct Hr as ([r0 x] & <- & Hin). apply in_combine_l in Hin.
    rewrite List.Forall_forall in Hwf. simpl.
    rewrite !length_app, (Hwf r0 Hin). reflexivity.
Qed.

Lemma setitem_mem (df : DataFrame) (c : string) (s : Series) :
  mem c (columns (setitem df c s)) = true.
Proof.
  unfold setitem. destruct (index_of c (columns df)) as [i |] eqn:Hi; simpl.
  - now apply index_of_Some_mem in Hi.
  - apply mem_In, in_or_app. right. now left.
Qed.

(** Assigning one column leaves every other column as it was. *)
Lemma getitem_setitem_other (df : DataFrame) (c c' : string) (s : Series) :
  wf df -> length s = len df -> c' <> c ->
  getitem (setitem df c s) c' = getitem df c'.
Proof.
  unfold wf, len, getitem, setitem. intros Hwf Hlen Hne.
  destruct (index_of c (columns df)) as [i |] eqn:Hi; simpl.
  - destruct (mem c' (columns df)) eqn:Hm; [| reflexivity]. f_equal.
    unfold row_get.
    destruct (index_of c' (columns df)) as [j |] eqn:Hj.
    + assert (Hij : i <> j).
      { intros <-. apply Hne. now apply (index_of_same_position _ _ _ _ Hj Hi). }
      clear Hwf. revert s Hlen.
      induction (rows df) as [| r rs IH]; intros [| x s] Hlen; simpl in *;
        try discriminate; [reflexivity |].
      rewrite nth_set_nth_ne by assumption. f_equal. apply IH. lia.
    + apply index_of_None in Hj. congruence.
  - destruct (mem c' (columns df)) eqn:Hm.
    + assert (Hm' : mem c' (columns df ++ [c]) = true).
      { apply mem_In, in_or_app. left. now apply mem_In. }
      rewrite Hm'. f_equal. unfold row_get.
      apply mem_In, index_of_In in Hm. destruct Hm as [j Hj].
      rewrite (index_of_app_l _ _ _ _ Hj), Hj.
      pose proof (index_of_lt _ _ _ Hj) as Hlt.
      revert s Hlen. induction Hwf as [| r rs Hr _ IH]; intros [| x s] Hlen;
        simpl in *; try discriminate; [reflexivity |].
      rewrite app_nth1 by lia. f_equal. apply IH. lia.
    + assert (Hm' : mem c' (columns df ++ [c]) = false).
      { apply mem_false. intros Hin. apply in_app_or in Hin.
        destruct Hin as [Hin | [-> | []]]; [| congruence].
        apply mem_In in Hin. congruence. }
      now rewrite Hm'.
Qed.

(** X6: whenever the raw-data path returns, the student table it returns
    is well formed, has the rows of the merged table, carries a
    [math_score] column with one score per row, and every other column is
    the merged table's column. *)
Theorem X6_raw_result_has_math_score (ach bg sd : DataFrame) :
  wf ach ->
  raw_student_data ach bg = Ok sd ->
  exists merged scores,
    merge ach bg (id_cols ach bg) ("_ach", "_bg") = Ok merged
    /\ wf sd
    /\ len sd = len merged
    /\ mem "math_score" (columns sd) = true
    /\ getitem sd "math_score" = Ok scores
    /\ length scores = len sd
    /\ forall c, c <> "math_score" -> getitem sd c = getitem merged c.
Proof.
  intros Hwf Hraw.
  destruct (raw_student_data_score ach bg sd Hwf Hraw)
    as (merged & scores & Hm & Hs & -> & Hcol).
  pose proof (math_score_length _ _ _ Hs) as Hlen.
  pose proof (merge_wf _ _ _ _ _ Hwf Hm) as Hwfm.
  exists merged, scores. split; [assumption |].
  split; [now apply setitem_wf |].
  split; [now apply setitem_len |].
  split; [apply setitem_mem |].
  split; [assumption |].
  split; [now rewrite setitem_len |].
  intros c Hc. now apply getitem_setitem_other.
Qed.

Lemma X6_raw_result_has_math_score_witness :
  exists sd,
    raw_student_data scenario_ach scenario_bg_items = Ok sd
    /\ wf sd /\ mem "math_score" (columns sd) = true.
Proof.
  eexists. split; [vm_compute; reflexivity |].
  destruct (X6_raw_result_has_math_score scenario_ach scenario_bg_items
              {| columns := ["ID1"; "BSMMAT01_ach"; "BSMMAT02_ach"; "BSBG01";
                             "BSMMAT01_bg"; "BSMMAT02_bg"; "math_score"];
                 rows := [[q 1; q 500; q 520; q 1; q 500; q 520; q 510];
                          [q 2; q 600; q 580; q 2; q 600; q 580; q 590]] |})
    as (merged & scores & _ & Hwf & _ & Hmem & _).
  - repeat constructor.
  - vm_compute. reflexivity.
  - split; [exact Hwf | exact Hmem].
Defined.

End RawResult.

(** ** The item columns after the merge *)

Section ItemColumns.

Lemma string_length_app (a b : string) :
  String.length (a ++ b) = String.length a + String.length b.
Proof. induction a as [| x a IH]; simpl; [reflexivity | now rewrite IH]. Qed.

Lemma string_app_inv_tail (a b s : string) : (a ++ s = b ++ s)%string -> a = b.
Proof.
  revert b. induction a as [| x a IH]; intros [| y b] H; simpl in H.
  - reflexivity.
  - apply (f_equal String.length) in H. simpl in H.
    rewrite string_length_app in H. lia.
  - apply (f_equal String.length) in H. simpl in H.
    rewrite string_length_app in H. lia.
  - injection H as -> H. f_equal. now apply IH.
Qed.

Lemma suffixes_differ (a b : string) : (a ++ "_bg" <> b ++ "_ach")%string.
Proof.
  revert b. induction a as [| x a IH]; intros [| y b] H; simpl in H.
  - discriminate.
  - apply (f_equal String.length) in H. simpl in H.
    rewrite string_length_app in H. simpl in H. lia.
  - injection H as _ H. destruct a as [| z a]; [discriminate H |].
    apply (f_equal String.length) in H. simpl in H.
    rewrite string_length_app in H. simpl in H. lia.
  - injection H as _ H. now apply (IH b).
Qed.










(** X8: when an item column of the achievement table is not a column of
    the background table, the merge leaves its label as it is, the label
    with [_ach] that line 60 builds is not in the merged table (unless one
    of the two tables happens to have a column of that very name), and
    line 61 raises [KeyError]: the raw-data path returns no table. *)
Theorem X8_unshared_item_column_raises (ach bg merged : DataFrame) (c : string) :
  merge ach bg (id_cols ach bg) ("_ach", "_bg") = Ok merged ->
  In c (math_vars ach) ->
  ~ In c (columns bg) ->
  ~ In (c ++ "_ach")%string (columns ach) ->
  ~ In (c ++ "_ach")%string (columns bg) ->
  exists v,
    raw_student_data ach bg = Raise (KeyError v)
    /\ In v (math_vars_merged ach)
    /\ ~ In v (columns merged).
Proof.
  intros Hmerge Hc Hbg Hach' Hbg'.
  pose proof (merge_inv _ _ _ _ _ Hmerge) as Hm.
  assert (Hmissing : ~ In (c ++ "_ach")%string (columns merged)).
  { rewrite Hm. simpl. unfold merged_columns. simpl. intros Hin.
    apply in_app_or in Hin. destruct Hin as [Hin | Hin];
      apply in_map_iff in Hin; destruct Hin as (c' & Heq & Hc').
    - unfold suffixed in Heq.
      destruct (negb (mem c' (id_cols ach bg)) && mem c' (columns bg)) eqn:E.
      + apply string_app_inv_tail in Heq. subst c'.
        apply andb_true_iff in E. destruct E as [_ E]. apply mem_In in E.
        contradiction.
      + subst c'. contradiction.
    - apply filter_In in Hc'. destruct Hc' as [Hc' _].
      unfold suffixed in Heq.
      destruct (negb (mem c' (id_cols ach bg)) && mem c' (columns ach)).
      + now apply suffixes_differ in Heq.
      + subst c'. contradiction. }
  unfold raw_student_data. rewrite Hmerge. cbn [mbind result_bind Py.bind].
  unfold math_score, getitems.
  destruct (List.filter (fun v => negb (mem v (columns merged)))
                        (math_vars_merged ach)) as [| v rest] eqn:Hf.
  - exfalso. apply Hmissing.
    assert (Hin : In (c ++ "_ach")%string (math_vars_merged ach)).
    { unfold math_vars_merged. now apply (in_map (fun var => (var ++ "_ach")%string)). }
    pose proof (proj1 (filter_nil_iff _ _) Hf _ Hin) as Hv.
    apply negb_false_iff in Hv. now apply mem_In.
  - exists v. split; [reflexivity |].
    assert (Hv : In v (List.filter (fun v => negb (mem v (columns merged)))
                                   (math_vars_merged ach))).
    { rewrite Hf. now left. }
    apply filter_In in Hv. destruct Hv as [Hv1 Hv2]. split; [assumption |].
    apply negb_true_iff in Hv2. now apply mem_false.
Qed.

Lemma X8_unshared_item_column_raises_witness :
  exists v, raw_student_data scenario_ach scenario_bg = Raise (KeyError v).
Proof.
  destruct (X8_unshared_item_column_raises scenario_ach scenario_bg
              {| columns := ["ID1"; "BSMMAT01"; "BSMMAT02"; "BSBG01"];
                 rows := [[q 1; q 500; q 520; q 1]; [q 2; q 600; q 580; q 2]] |}
              "BSMMAT01") as (v & Hv & _).
  - reflexivity.
  - simpl. tauto.
  - simpl. intuition discriminate.
  - simpl. intuition discriminate.
  - simpl. intuition discriminate.
  - exists v. exact Hv.
Defined.

End ItemColumns.

(** ** What the counts cover *)

Section Counts.

(** X9: the counts that [value_counts] gives for a column, which the pie
    of the gender section and every count chart of the teacher and school
    pages draw, add up to the number of rows that have a value in that
    column: every such row is counted once, a row without a value never. *)
Theorem X9_value_counts_cover_the_rows (df : DataFrame) (c : string) (s : Series) :
  getitem df c = Ok s ->
  list_sum (map snd (value_counts s))
  = length (List.filter (has_value df c) (rows df)).
Proof.
  unfold getitem. destruct (mem c (columns df)); [| discriminate].
  intros [= <-]. now rewrite value_counts_total, length_present_map.
Qed.

Lemma X9_value_counts_cover_the_rows_witness :
  list_sum (map snd (value_counts [q 1; q 2; None; q 1])) = 3.
Proof.
  rewrite (X9_value_counts_cover_the_rows students "BSBG01" [q 1; q 2; None; q 1]);
    reflexivity.
Defined.

(** X10: the statistics table of the gender section has one row per
    gender value that occurs, in ascending order, with that value in its
    first cell and the number of scores of the group in its last; these
    counts add up to the number of students that have both a gender and a
    composite score: the rows dropped for a missing gender are in no
    group, and a missing score is not counted. *)
Theorem X10_group_counts_cover_the_rows (df gd : DataFrame) (c v : string) :
  dropna df c = Ok gd ->
  mem v (columns df) = true ->
  exists g,
    groupby_agg gd c v
      [("mean", group_mean); ("median", median); ("std", group_std);
       ("count", count)] = Ok g
    /\ columns g = [c; "mean"; "median"; "std"; "count"]
    /\ map (fun row => (nth 0 row None, nth 4 row None)) (rows g)
       = map (fun k => (Some k, of_nat (length (present (group_cells gd c v k)))))
             (group_keys gd c)
    /\ list_sum (map (fun k => length (present (group_cells gd c v k)))
                     (group_keys gd c))
       = length (List.filter (fun r => has_value df c r && has_value df v r)
                             (rows df)).
Proof.
  unfold dropna. destruct (mem c (columns df)) eqn:Hc; [| discriminate].
  intros [= <-] Hv. unfold groupby_agg. cbn [columns]. rewrite Hc, Hv.
  cbn [negb]. eexists. split; [reflexivity |]. split; [reflexivity |].
  split; [cbn [rows]; now rewrite map_map |].
  unfold group_keys. rewrite sum_sort_values. cbn [columns rows].
  set (gd_rows := List.filter _ (rows df)).
  rewrite (map_ext _
             (fun k => length (List.filter
                                 (fun r => has_value df v r
                                           && cell_eqb (row_get (columns df) r c) (Some k))
                                 gd_rows))).
  - rewrite (groups_cover (fun r => row_get (columns df) r c) (has_value df v) gd_rows).
    unfold gd_rows. rewrite filter_filter_length.
    apply filter_length_ext. intros r _. unfold has_value.
    destruct (row_get (columns df) r c), (row_get (columns df) r v); reflexivity.
  - intros k. unfold group_cells. cbn [columns rows]. fold gd_rows.
    rewrite length_present_map. apply filter_filter_length.
Qed.

(** On the table [students] the two rows with gender [1] have the scores
    [500] and [510]: their standard deviation is the square root of [50],
    and the three counted scores are those of the rows with a gender. *)
Lemma X10_group_counts_cover_the_rows_witness :
  exists g,
    groupby_agg (with_value students "BSBG01") "BSBG01" "math_score"
      [("mean", group_mean); ("median", median); ("std", group_std);
       ("count", count)] = Ok g
    /\ list_sum (map (fun k => length (present
                        (group_cells (with_value students "BSBG01")
                                     "BSBG01" "math_score" k)))
                     (group_keys (with_value students "BSBG01") "BSBG01"))
       = 3
    /\ exists k sd x,
         q 1 = Some k
         /\ group_std (group_cells (with_value students "BSBG01")
                                   "BSBG01" "math_score" k) = Some sd
         /\ value sd = Some x
         /\ (70710678 # 10000000 < x)%Q /\ (x < 70710679 # 10000000)%Q.
Proof.
  destruct (X10_group_counts_cover_the_rows students
              (with_value students "BSBG01") "BSBG01" "math_score")
    as (g & Hg & _ & _ & Hsum).
  - reflexivity.
  - reflexivity.
  - exists g. split; [exact Hg |]. split; [rewrite Hsum; reflexivity |].
    eexists _, _, _. split; [vm_compute; reflexivity |].
    split; [vm_compute; reflexivity |].
    split; [reflexivity |]. split; vm_compute; reflexivity.
Defined.

End Counts.

(** ** Pages that cannot fail, and pages without a table *)

Section Totality.

Lemma ends_ok_start {A} (m : M A) (s : state) :
  ends_ok s ((m ≫= mret) (ext s [] [])) -> ends_ok s (m s).
Proof. now rewrite run_ret_r, ext_nil_nil. Qed.

Lemma ends_ok_refl {A} (s : state) hs es (a : A) : ends_ok s (ext s hs es, Ok a).
Proof. now exists hs, es, a. Qed.

Lemma total_bind (v : pyval) (df : DataFrame) {A B} (m : M A) (k : A -> M B) :
  total_on v df m -> (forall a, total_on v df (k a)) -> total_on v df (m ≫= k).
Proof.
  intros Hm Hk s Hv Hlk. destruct (Hm s Hv Hlk) as (hs & es & a & E).
  rewrite run_bind, E.
  destruct (Hk a (ext s hs es)) as (hs' & es' & b & E').
  - now apply valid_ext.
  - now rewrite lookup_ext_old.
  - rewrite E', ext_ext. now exists (hs ++ hs'), (es ++ es'), b.
Qed.

Lemma total_emit (v : pyval) (df : DataFrame) (e : element) : total_on v df (emit e).
Proof.
  intros s _ _. exists [], [e], tt. unfold emit, ext. now rewrite app_nil_r.
Qed.

Variable lib : Plots.
Variables (v : pyval) (df : DataFrame).

Lemma total_py_len : total_on v df (py_len v).
Proof.
  intros s Hv Hlk. apply ends_ok_start. unfold py_len.
  run. rewrite Hlk. run. apply ends_ok_refl.
Qed.

Lemma mem_head (x : string) (l : list string) : mem x (x :: l) = true.
Proof. unfold mem. simpl. now rewrite String.eqb_refl. Qed.

Lemma mem_second (x y : string) (l : list string) : mem x (y :: x :: l) = true.
Proof. unfold mem. simpl. rewrite String.eqb_refl. apply orb_true_r. Qed.

Lemma set_columns_ok (d : DataFrame) (labels : list string) :
  length labels = length (columns d) ->
  set_columns d labels = Ok {| columns := labels; rows := rows d |}.
Proof. intros H. unfold set_columns. now rewrite H, Nat.eqb_refl. Qed.

(** Every bar of a count chart has its value and its count. *)
Lemma counts_points_complete (label : string) (counts : list (number * nat)) :
  forallb complete
    (points {| columns := [label; "Count"];
               rows := map (fun p => [Some (fst p); of_nat (snd p)]) counts |}
            label "Count") = true.
Proof.
  unfold points. cbn [columns rows]. rewrite map_map.
  apply forallb_forall. intros pt Hpt. apply in_map_iff in Hpt.
  destruct Hpt as ([x n] & <- & _). cbn [fst snd].
  destruct (of_nat_number n) as [y Hy]. rewrite Hy.
  unfold row_get. cbn [index_of]. rewrite String.eqb_refl. cbn [nth].
  destruct (String.eqb "Count" label); reflexivity.
Qed.

Lemma total_counts_chart (c : counts_spec) : total_on v df (counts_chart lib v c).
Proof.
  intros s Hv Hlk. apply ends_ok_start.
  unfold counts_chart, py_columns, py_getitem, py_set_columns, py_xyplot, show_plot.
  run. rewrite Hlk. run. cbv zeta.
  destruct (mem (cs_var c) (columns df)) eqn:Hin.
  - run. rewrite Hlk. run. rewrite Hin.
    destruct (cs_var c =? "")%string; cbn [negb andb].
    + run. apply ends_ok_refl.
    + run. rewrite Hlk. run. unfold getitem. rewrite Hin. run.
      rewrite set_columns_ok by reflexivity.
      run. cbn [columns].
      rewrite mem_head, mem_second. cbn [negb plot_outcome reset_index rows].
      rewrite counts_points_complete. run. apply ends_ok_refl.
  - run. apply ends_ok_refl.
Qed.

End Totality.

(** ** Where the student pages can fail *)

Section Safety.

Variable lib : Plots.








Variables (v : pyval) (df : DataFrame).



Hypothesis Hscore : mem "math_score" (columns df) = true.







End Safety.

Section TotalPages.

Variable lib : Plots.
Variables (a : addr) (df : DataFrame) (s : state).
Hypothesis Hdf : heap s !! a = Some df.


(** X12: on a loaded table the teacher page and the school page end
    without an exception, whatever the columns and the rows of the table
    are: each chart is drawn or replaced by its warning. *)
Theorem X12_count_pages_cannot_fail :
  ends_ok s (teacher_factors lib (PFrame a) s)
  /\ ends_ok s (school_context lib (PFrame a) s).
Proof.
  assert (Hv : valid s (PFrame a)) by (eapply valid_lookup; exact Hdf).
  split.
  - apply (fun H => H s Hv Hdf). unfold teacher_factors.
    repeat first
      [ apply total_emit
      | apply total_py_len
      | apply total_counts_chart
      | apply total_bind; [| intros ?] ].
  - apply (fun H => H s Hv Hdf). unfold school_context.
    repeat first
      [ apply total_emit
      | apply total_py_len
      | apply total_counts_chart
      | apply total_bind; [| intros ?] ].
Qed.

End TotalPages.


Lemma X12_count_pages_cannot_fail_witness :
  ends_ok (store_of scenario_bg)
    (teacher_factors plots_drawn (PFrame 0) (store_of scenario_bg)).
Proof.
  apply (X12_count_pages_cannot_fail plots_drawn 0 scenario_bg (store_of scenario_bg)).
  reflexivity.
Defined.

Lemma run_read_none {B} (e : exn) (k : DataFrame -> M B) (s : state) :
  (read PNone e ≫= k) s = (s, Raise e).
Proof. reflexivity. Qed.

Lemma teacher_factors_without_table (lib : Plots) (s : state) :
  teacher_factors lib PNone s
  = (shown s [st_title "Teacher and Instruction Factors";
              st_subheader "Teacher Demographics"],
     Raise (TypeError "object of type 'NoneType' has no len()")).
Proof.
  apply at_ext. rewrite <- run_ret_r. unfold teacher_factors, py_len.
  run. rewrite run_read_none. run_done.
Qed.

Section NoTable.

Variable lib : Plots.
Variable s : state.

(** X13: when the loader has returned [None] for its table, no page guards
    against it: the overview, the teacher page and the school page raise
    [TypeError] at [len], the student page raises [AttributeError] at
    [.columns], each after the headings it has shown so far. *)
Theorem X13_pages_without_table_raise :
  overview lib PNone s
  = (shown s [st_title "Mathematics Performance Overview"],
     Raise (TypeError "object of type 'NoneType' has no len()"))
  /\ student_factors lib PNone s
     = (shown s [st_title "Student Background and Attitudes";
                 st_subheader "Gender and Mathematics Performance"],
        Raise (no_attribute "columns"))
  /\ teacher_factors lib PNone s
     = (shown s [st_title "Teacher and Instruction Factors";
                 st_subheader "Teacher Demographics"],
        Raise (TypeError "object of type 'NoneType' has no len()"))
  /\ school_context lib PNone s
     = (shown s [st_title "School Context Factors";
                 st_subheader "School Demographics"],
        Raise (TypeError "object of type 'NoneType' has no len()")).
Proof.
  split; [| split; [| split]]; apply at_ext; rewrite <- run_ret_r.
  - unfold overview, py_len. run. rewrite run_read_none. run_done.
  - unfold student_factors, gender_section, py_columns. run.
    rewrite run_read_none. run_done.
  - rewrite run_ret_r, ext_nil_nil. apply teacher_factors_without_table.
  - unfold school_context, py_len. run. rewrite run_read_none. run_done.
Qed.

End NoTable.

Section NoVariable.

Variable lib : Plots.
Variables (a : addr) (df : DataFrame) (s : state).
Hypothesis Hdf : heap s !! a = Some df.

(** X17: on a loaded table that has none of the variables a page looks
    for, the page is rendered to its end without an exception and without
    creating an object: its headings, the number of rows on the teacher
    and school pages, and one warning in place of every chart, in the
    order of the page. *)
Theorem X17_pages_with_no_variable :
  (Forall (fun c => mem c (columns df) = false)
          ["BSBG01"; "ITSEX"; "BSBG04"; "BSBGSLM"; "BSBGSCM"] ->
   student_factors lib (PFrame a) s
   = (shown s [st_title "Student Background and Attitudes";
               st_subheader "Gender and Mathematics Performance";
               st_warning "Gender variable not found in the dataset";
               st_subheader "Home Educational Resources";
               st_warning "Books at home variable not found in the dataset";
               st_subheader "Student Attitudes Toward Mathematics";
               st_warning "Student Likes Mathematics variable not found in the dataset";
               st_warning "Student Confident in Mathematics variable not found in the dataset"],
      Ok tt))
  /\ (Forall (fun c => mem c (columns df) = false) ["BTBG01"; "BTBG04"] ->
      teacher_factors lib (PFrame a) s
      = (shown s [st_title "Teacher and Instruction Factors";
                  st_subheader "Teacher Demographics";
                  st_write ("Number of teachers: " ++ str_of_nat (len df));
                  st_warning "Teacher experience variable not found in the dataset";
                  st_subheader "Teacher Preparation and Professional Development";
                  st_warning "Teacher education variable not found in the dataset"],
         Ok tt))
  /\ (Forall (fun c => mem c (columns df) = false) ["BCBG05A"; "BCBG03A"; "BCBGEAS"] ->
      school_context lib (PFrame a) s
      = (shown s [st_title "School Context Factors";
                  st_subheader "School Demographics";
                  st_write ("Number of schools: " ++ str_of_nat (len df));
                  st_warning "School location variable not found in the dataset";
                  st_subheader "School Composition and Climate";
                  st_warning "Economic disadvantage variable not found in the dataset";
                  st_warning "School emphasis variable not found in the dataset"],
         Ok tt)).
Proof.
  split; [| split]; intros H.
  - now apply (student_factors_all_missing lib a df s Hdf).
  - repeat (apply Forall_cons_iff in H; destruct H as [? H]).
    now apply (teacher_factors_all_missing lib a df s Hdf).
  - repeat (apply Forall_cons_iff in H; destruct H as [? H]).
    now apply (school_context_all_missing lib a df s Hdf).
Qed.

End NoVariable.

Lemma X17_pages_with_no_variable_witness :
  teacher_factors plots_drawn (PFrame 0) (store_of students)
  = ({| heap := [students];
        out := [st_title "Teacher and Instruction Factors";
                st_subheader "Teacher Demographics";
                st_write "Number of teachers: 4";
                st_warning "Teacher experience variable not found in the dataset";
                st_subheader "Teacher Preparation and Professional Development";
                st_warning "Teacher education variable not found in the dataset"] |},
     Ok tt).
Proof.
  destruct (X17_pages_with_no_variable plots_drawn 0 students (store_of students) eq_refl)
    as (_ & Hteacher & _).
  rewrite Hteacher; [reflexivity |].
  repeat constructor.
Defined.

(** ** The script as a whole *)

Section Script.

Variable lib : Plots.
Variable fs : FS.

Lemma appends_bind {A B} (m : M A) (k : A -> M B) :
  appends m -> (forall a, appends (k a)) -> appends (m ≫= k).
Proof.
  intros Hm Hk s. destruct (Hm s) as (hs & es & r & E).
  rewrite run_bind, E. destruct r as [a | e].
  - destruct (Hk a (ext s hs es)) as (hs' & es' & r' & E').
    rewrite E', ext_ext. now exists (hs ++ hs'), (es ++ es'), r'.
  - now exists hs, es, (Raise e).
Qed.

Lemma appends_emit (e : element) : appends (emit e).
Proof.
  intros s. exists [], [e], (Ok tt). unfold emit, ext. now rewrite app_nil_r.
Qed.

Lemma appends_pure {A} (r : result A) : appends (lift r).
Proof. intros s. exists [], [], r. now rewrite ext_nil_nil. Qed.

Lemma appends_ret {A} (a : A) : appends (mret a).
Proof. intros s. exists [], [], (Ok a). now rewrite ext_nil_nil. Qed.

Lemma appends_read (v : pyval) (e : exn) : appends (read v e).
Proof.
  intros s. rewrite read_lookup. eexists [], [], _. now rewrite ext_nil_nil.
Qed.

Lemma appends_alloc (df : DataFrame) : appends (alloc df).
Proof.
  intros s. exists [df], [], (Ok (PFrame (length (heap s)))).
  unfold alloc, ext. now rewrite app_nil_r.
Qed.

Lemma appends_load_data (p : string) : appends (load_data fs p).
Proof.
  intros s. destruct (load_data_total fs p s) as [[df E] | [msg E]]; rewrite E.
  - now eexists _, _, _.
  - rewrite <- ext_nil. now eexists _, _, _.
Qed.

Lemma appends_load_tables : appends (load_tables fs).
Proof.
  unfold load_tables, load_student, load_table.
  repeat first
    [ apply appends_emit
    | apply appends_ret
    | apply appends_pure
    | apply appends_read
    | apply appends_alloc
    | apply appends_load_data
    | match goal with |- appends (if ?c then _ else _) => destruct c end
    | apply appends_bind; [| intros ?] ].
Qed.

Lemma script_unfold (p : page) (s : state) :
  script lib fs p s
  = (load_tables fs ≫= fun t =>
       render lib p t;;
       emit (sidebar_markdown "---");;
       emit (sidebar_info "Dashboard created for Data Mining module");;
       emit (sidebar_info "Data source: TIMSS 2023 Ireland Grade 8 dataset"))
      (ext s [] banner).
Proof.
  apply at_ext. unfold script. rewrite !run_emit. reflexivity.
Qed.

Lemma run_footer (s : state) hs es :
  (emit (sidebar_markdown "---");;
   emit (sidebar_info "Dashboard created for Data Mining module");;
   emit (sidebar_info "Data source: TIMSS 2023 Ireland Grade 8 dataset"))
    (ext s hs es)
  = (ext s hs (es ++ footer), Ok tt).
Proof.
  rewrite !run_emit, emit_ext. unfold footer. now rewrite <- !app_assoc.
Qed.

(** *** What loading and the pages show *)

Lemma shows_bind (P : element -> Prop) {A B} (m : M A) (k : A -> M B) :
  shows P m -> (forall a, shows P (k a)) -> shows P (m ≫= k).
Proof.
  intros Hm Hk s. destruct (Hm s) as (es & Hout & Hes). rewrite run_bind.
  destruct (m s) as [s' [a | e]]; simpl in Hout.
  - destruct (Hk a s') as (es' & Hout' & Hes'). exists (es ++ es'). split.
    + now rewrite Hout', Hout, app_assoc.
    + now apply Forall_app.
  - now exists es.
Qed.

Lemma shows_nothing (P : element -> Prop) {A} (m : M A) :
  (forall s, out (fst (m s)) = out s) -> shows P m.
Proof.
  intros H s. exists []. split; [now rewrite H, app_nil_r | constructor].
Qed.

Lemma shows_emit (P : element -> Prop) (e : element) : P e -> shows P (emit e).
Proof. intros H s. exists [e]. split; [reflexivity | now repeat constructor]. Qed.

Lemma shows_ret (P : element -> Prop) {A} (a : A) : shows P (mret a).
Proof. now apply shows_nothing. Qed.

Lemma shows_lift (P : element -> Prop) {A} (r : result A) : shows P (lift r).
Proof. now apply shows_nothing. Qed.

Lemma shows_raise (P : element -> Prop) {A} (e : exn) : shows P (raise (A := A) e).
Proof. now apply shows_nothing. Qed.

Lemma shows_read (P : element -> Prop) (v : pyval) (e : exn) : shows P (read v e).
Proof. apply shows_nothing. intros s. now rewrite read_lookup. Qed.

Lemma shows_alloc (P : element -> Prop) (df : DataFrame) : shows P (alloc df).
Proof. now apply shows_nothing. Qed.

Lemma shows_write (P : element -> Prop) (a : addr) (df : DataFrame) :
  shows P (write a df).
Proof. now apply shows_nothing. Qed.

Lemma shows_try_except (P : element -> Prop) {A} (m : M A) (h : exn -> M A) :
  shows P m -> (forall e, shows P (h e)) -> shows P (try_except m h).
Proof.
  intros Hm Hh s. destruct (Hm s) as (es & Hout & Hes). unfold try_except.
  destruct (m s) as [s' [a | e]]; simpl in Hout.
  - now exists es.
  - destruct (Hh e s') as (es' & Hout' & Hes'). exists (es ++ es'). split.
    + now rewrite Hout', Hout, app_assoc.
    + now apply Forall_app.
Qed.

Lemma shows_for_each (P : element -> Prop) {A} (l : list A) (body : A -> M unit) :
  (forall x, shows P (body x)) -> shows P (for_each l body).
Proof.
  intros Hbody. induction l as [| x l IH]; simpl.
  - apply shows_ret.
  - apply shows_bind; [apply Hbody | intros _; apply IH].
Qed.

Ltac shows_step :=
  first
    [ apply shows_emit; exact I
    | apply shows_ret
    | apply shows_lift
    | apply shows_raise
    | apply shows_read
    | apply shows_alloc
    | apply shows_write
    | apply shows_for_each; intros ?
    | apply shows_try_except; [| intros ?]
    | apply shows_bind; [| intros ?]
    | progress cbv zeta
    | match goal with
      | |- shows _ (if ?c then _ else _) => destruct c
      | |- shows _ (match ?x with _ => _ end) => destruct x
      end ].

(** Neither the loading nor a page shows an element of the footer's
    kinds. *)
Lemma load_tables_before_footer : shows before_footer (load_tables fs).
Proof.
  unfold load_tables, load_student, load_table, load_data.
  repeat shows_step.
Qed.

Lemma render_before_footer (p : page) (t : tables) :
  shows before_footer (render lib p t).
Proof.
  destruct p; cbn [render];
    unfold overview, student_factors, teacher_factors, school_context,
      gender_section, books_section, attitude_section, attitude_step,
      counts_chart, py_len, py_columns, py_getitem, py_dropna, py_groupby_agg,
      py_set_columns, py_xyplot, show_plot;
    repeat shows_step.
Qed.

Lemma before_footer_not_in (e : element) : before_footer e -> ~ In e footer.
Proof.
  intros H [<- | [<- | [<- | []]]]; exact H.
Qed.

Lemma shown_elements {A} (P : element -> Prop) (m : M A) (s : state) hs es r :
  shows P m -> m s = (ext s hs es, r) -> Forall P es.
Proof.
  intros Hm E. destruct (Hm s) as (es' & Hout & Hes). rewrite E in Hout.
  simpl in Hout. apply app_inv_head in Hout. now subst.
Qed.

(** X14: a run of the script changes no object that existed before and
    adds to what was shown: first the header, the introduction and the
    sidebar title, then what loading and the page show, none of which is
    an element of the footer, and last the three footer elements when the
    run ended without an exception, and nothing when it ended with one.
    So the footer is shown exactly when the run ended without an
    exception. *)
Theorem X14_script_shows_banner_and_footer (p : page) (s : state) :
  exists hs es r,
    script lib fs p s = (ext s hs (banner ++ es ++ closing r), r)
    /\ Forall (fun e => ~ In e footer) es
    /\ (forall e, In e footer ->
          (In e (es ++ closing r) <-> exists u, r = Ok u)).
Proof.
  assert (Hgoal : exists hs es r,
             script lib fs p s = (ext s hs (banner ++ es ++ closing r), r)
             /\ Forall before_footer es).
  { rewrite script_unfold, run_bind.
    destruct (appends_load_tables (ext s [] banner)) as (hs1 & es1 & r1 & E1).
    pose proof (shown_elements _ _ _ _ _ _ load_tables_before_footer E1) as H1.
    rewrite E1. destruct r1 as [t | e].
    - assert (Hvalid : valid (ext (ext s [] banner) hs1 es1) (table_of p t)).
      { destruct (load_tables_valid fs _ _ _ E1) as (V1 & V2 & V3).
        destruct p; assumption. }
      destruct (local_render lib p t _ _ (conj Hvalid (conj Hvalid eq_refl)))
        as (hs2 & es2 & r2 & E2 & _).
      pose proof (shown_elements _ _ _ _ _ _ (render_before_footer p t) E2) as H2.
      rewrite run_bind, E2. destruct r2 as [[] | e].
      + rewrite run_footer, !ext_ext. exists (hs1 ++ hs2), (es1 ++ es2), (Ok tt).
        split; [| now apply Forall_app].
        cbn [closing app]. now rewrite <- ?app_assoc.
      + rewrite !ext_ext. exists (hs1 ++ hs2), (es1 ++ es2), (Raise e).
        split; [| now apply Forall_app].
        cbn [closing app]. now rewrite ?app_nil_r, <- ?app_assoc.
    - rewrite ext_ext. exists hs1, es1, (Raise e). split; [| assumption].
      cbn [closing app]. now rewrite ?app_nil_r. }
  destruct Hgoal as (hs & es & r & E & Hes).
  assert (Hnot : Forall (fun e => ~ In e footer) es).
  { eapply List.Forall_impl; [| exact Hes]. apply before_footer_not_in. }
  exists hs, es, r. split; [exact E |]. split; [exact Hnot |].
  intros e He. rewrite in_app_iff. split.
  - intros [Hin | Hin].
    + rewrite List.Forall_forall in Hnot. now destruct (Hnot e Hin).
    + destruct r as [u |]; [now exists u | destruct Hin].
  - intros [u ->]. now right.
Qed.


Lemma load_data_never_raises (p : string) (st : state) :
  exists h e v, load_data fs p st = (ext st h e, Ok v).
Proof.
  destruct (load_data_total fs p st) as [[d E] | [m E]]; rewrite E.
  - now eexists _, _, _.
  - rewrite <- ext_nil. now eexists _, _, _.
Qed.

Lemma load_table_never_raises (csv sav : string) (st : state) :
  exists h e v, load_table fs csv sav st = (ext st h e, Ok v).
Proof.
  unfold load_table. destruct (path_exists fs csv); apply load_data_never_raises.
Qed.

(** X16: when the processed student CSV exists and neither teacher file
    does, the teacher page is not protected by the loader's error message:
    the run shows "File not found" for the raw teacher file, and its last
    elements are the page's first two headings; it ends with [TypeError]
    at [len], without the footer. *)
Theorem X16_teacher_page_without_files (s : state) :
  path_exists fs student_csv = true ->
  path_exists fs teacher_csv = false ->
  path_exists fs teacher_sav = false ->
  exists hs es,
    script lib fs TeacherFactors s
    = (ext s hs (banner ++ es ++ [st_title "Teacher and Instruction Factors";
                                  st_subheader "Teacher Demographics"]),
       Raise (TypeError "object of type 'NoneType' has no len()"))
    /\ In (st_error ("File not found: " ++ teacher_sav)) es.
Proof.
  intros Hstudent Hcsv Hsav.
  rewrite script_unfold. unfold load_tables.
  set (s0 := ext s [] banner).
  rewrite !run_assoc, run_bind.
  assert (H1 : exists h e v, load_student fs s0 = (ext s0 h e, Ok v)).
  { unfold load_student. rewrite Hstudent. apply load_data_never_raises. }
  destruct H1 as (h1 & e1 & v1 & E1). rewrite E1, !run_assoc, run_bind.
  assert (E2 : load_table fs teacher_csv teacher_sav (ext s0 h1 e1)
               = (ext (ext s0 h1 e1) [] [st_error ("File not found: " ++ teacher_sav)],
                  Ok PNone)).
  { unfold load_table. rewrite Hcsv, raw_file_loaded by (simpl; tauto).
    rewrite Hsav. unfold not_found. now rewrite ext_nil. }
  rewrite E2, !run_assoc, run_bind.
  destruct (load_table_never_raises school_csv school_sav
              (ext (ext s0 h1 e1) [] [st_error ("File not found: " ++ teacher_sav)]))
    as (h3 & e3 & v3 & E3).
  rewrite E3, run_ret, run_bind. cbn [render teacher_data].
  rewrite teacher_factors_without_table, <- ext_nil. unfold s0.
  rewrite !ext_ext.
  eexists. exists ((e1 ++ [st_error ("File not found: " ++ teacher_sav)]) ++ e3).
  split.
  - f_equal. f_equal. now rewrite <- !app_assoc.
  - rewrite !in_app_iff. simpl. tauto.
Qed.

End Script.

Lemma X16_teacher_page_without_files_witness :
  exists hs es,
    script plots_drawn (only_student_csv students) TeacherFactors initial
    = (ext initial hs (banner ++ es ++ [st_title "Teacher and Instruction Factors";
                                        st_subheader "Teacher Demographics"]),
       Raise (TypeError "object of type 'NoneType' has no len()")).
Proof.
  destruct (X16_teacher_page_without_files plots_drawn (only_student_csv students)
              initial)
    as (hs & es & H & _); try reflexivity.
  exists hs, es. exact H.
Defined.

